(** * score-ui: the provisioning server (server/index.js)

    A shallow embedding of the Express server of score-ui: the JavaScript
    values it receives, [JSON.stringify], the score-file renderer, the two
    Terraform templates, the process supervisor [runCommandWithStream], the
    file system and session store it touches, and the route handlers. *)

From Stdlib Require Import ZArith Ascii String List Bool Lia.
From stdpp Require Import base option gmap strings list pretty.

Set Warnings "-register-all".


Local Open Scope Z_scope.

(** ** Strings of the source

    A JavaScript string is modelled by a [string] of bytes holding its
    UTF-8 encoding.  The characters the source treats specially are all
    ASCII. *)

Definition dq : string := String (ascii_of_nat 34) EmptyString.
Definition nl : string := String (ascii_of_nat 10) EmptyString.
Definition bsl : string := String (ascii_of_nat 92) EmptyString.

(** [q s] is [s] between double quotes, as it stands in a template. *)
Definition q (s : string) : string := dq +:+ s +:+ dq.

(** The text of a template literal given line by line: the lines joined by
    a newline. *)
Definition join_lines (ls : list string) : string := String.concat nl ls.

Module Js.

(** ** JavaScript values

    The values that reach the server are parsed JSON, plus [undefined] for
    what a property access on a missing key gives.  [VObj] lists the own
    properties of an object in enumeration order, each key once.  [VNum z]
    is the Number a body holds where its text has the integer [z]: the
    double nearest to [z] (numbers with a fraction are not embedded). *)
Inductive value : Type :=
  | VUndef
  | VNull
  | VBool (b : bool)
  | VNum (z : Z)
  | VStr (s : string)
  | VArr (l : list value)
  | VObj (props : list (string * value)).

(** ToBoolean: [!v] is [negb (truthy v)]. *)
Definition truthy (v : value) : bool :=
  match v with
  | VUndef | VNull => false
  | VBool b => b
  | VNum z => negb (z =? 0)
  | VStr s => negb (String.eqb s "")
  | VArr _ | VObj _ => true
  end.

Fixpoint assoc (k : string) (props : list (string * value)) : value :=
  match props with
  | [] => VUndef
  | (k', v) :: r => if String.eqb k k' then v else assoc k r
  end.

(** [o.k] for a key [k] that no prototype defines ([name], [environment],
    [region], [services], ...): the own property of an object, [undefined]
    on every other value.  On [undefined] and [null] JavaScript throws
    instead; [get_strict] is that access. *)
Definition get (o : value) (k : string) : value :=
  match o with
  | VObj props => assoc k props
  | _ => VUndef
  end.

Definition get_strict (o : value) (k : string) : option value :=
  match o with
  | VUndef | VNull => None
  | _ => Some (get o k)
  end.

(** [a || b] and [a && b] on values. *)
Definition or_else (a b : value) : value := if truthy a then a else b.
Definition and_then (a b : value) : value := if truthy a then b else a.

(** [{ ...(v) }]: the own enumerable properties of [v] spread into an object
    literal.  Used by the source on an object literal or on a falsy value,
    which spreads to nothing. *)
Definition spread (v : value) : list (string * value) :=
  match v with
  | VObj props => props
  | _ => []
  end.

(** ** Numbers

    [VNum z] is read as a double; its text is what Number::toString gives:
    the shortest decimal that reads back as the double, in plain digits
    below 10^21 and with an exponent from there on. *)

(** The Number a decimal integer stands for: the nearest double, ties to
    the even mantissa; [None] is Infinity. *)
Definition nearest_double (z : Z) : option Z :=
  if z <? 2 ^ 53 then Some z
  else
    let shift := Z.log2 z - 52 in
    let q := Z.shiftr z shift in
    let rest := Z.land z (Z.ones shift) in
    let half := 2 ^ (shift - 1) in
    let q' := if (half <? rest) || ((rest =? half) && Z.odd q) then q + 1 else q in
    let v := Z.shiftl q' shift in
    if 2 ^ 1024 <=? v then None else Some v.

(** Whether the decimal [c] reads back as the double [v], for [v] from
    2^53 on. *)
Definition reads_as (v c : Z) : bool :=
  let e := Z.log2 v - 52 in
  let m := Z.shiftr v e in
  let below := if m =? 2 ^ 52 then 2 ^ (e - 1) else 2 ^ e in
  let above := 2 ^ e in
  if Z.even m then (2 * v - below <=? 2 * c) && (2 * c <=? 2 * v + above)
  else (2 * v - below <? 2 * c) && (2 * c <? 2 * v + above).

(** The decimal with the fewest digits that reads back as [v], the
    closest to [v] among them, with the number of zeros at its end. *)
Fixpoint shortest (j : nat) (v : Z) : Z * nat :=
  match j with
  | O => (v, O)
  | S j' =>
      let u := 10 ^ Z.of_nat j in
      let lo := v / u * u in
      let hi := lo + u in
      let take_lo := (0 <? lo) && reads_as v lo in
      let take_hi := reads_as v hi in
      if take_lo && take_hi then
        if v - lo <? hi - v then (lo, j)
        else if hi - v <? v - lo then (hi, j)
        else if Z.even (lo / u) then (lo, j) else (hi, j)
      else if take_lo then (lo, j)
      else if take_hi then (hi, j)
      else shortest j' v
  end.

Fixpoint zeros (n : nat) : string :=
  match n with
  | O => ""
  | S n' => String "0" (zeros n')
  end.

(** Number::toString of a positive double that is an integer. *)
Definition double_to_string (v : Z) : string :=
  if v <? 2 ^ 53 then pretty v
  else
    let '(c, j) := shortest (String.length (pretty v)) v in
    let digits := pretty (c / 10 ^ Z.of_nat j) in
    let n := (String.length digits + j)%nat in
    if (n <=? 21)%nat then digits +:+ zeros j
    else
      match digits with
      | String d "" => String d "" +:+ "e+" +:+ pretty (Z.of_nat n - 1)
      | String d rest => String d "" +:+ "." +:+ rest +:+ "e+" +:+ pretty (Z.of_nat n - 1)
      | EmptyString => ""
      end.

(** ToString of the Number the integer [z] stands for. *)
Definition number_to_string (z : Z) : string :=
  match nearest_double (Z.abs z) with
  | None => if z <? 0 then "-Infinity" else "Infinity"
  | Some v => if z <? 0 then "-" +:+ double_to_string v else double_to_string v
  end.

(** The text of the Number in JSON: [null] when it is not finite. *)
Definition number_to_json (z : Z) : string :=
  match nearest_double (Z.abs z) with
  | None => "null"
  | Some _ => number_to_string z
  end.

(** ** ToString, as a template literal applies it to [${v}]

    [None] is the [TypeError] of an object that cannot be converted to a
    primitive value: a parsed object holds no function, so one with a
    [toString] of its own has none to call; an array joins the texts of its
    elements. *)
Definition has_own (k : string) (props : list (string * value)) : bool :=
  existsb (fun kx => String.eqb k (fst kx)) props.

Fixpoint to_string (v : value) : option string :=
  match v with
  | VUndef => Some "undefined"
  | VNull => Some "null"
  | VBool b => Some (if b then "true" else "false")
  | VNum z => Some (number_to_string z)
  | VStr s => Some s
  | VArr l =>
      option_map (String.concat ",")
        ((fix elems (l : list value) : option (list string) :=
            match l with
            | [] => Some []
            | x :: r =>
                match
                  (match x with
                   | VUndef | VNull => Some ""
                   | _ => to_string x
                   end),
                  elems r
                with
                | Some s, Some ss => Some (s :: ss)
                | _, _ => None
                end
            end) l)
  | VObj props => if has_own "toString" props then None else Some "[object Object]"
  end.

(** The text of an element in [Array.prototype.join]. *)
Definition to_string_or_empty (x : value) : option string :=
  match x with
  | VUndef | VNull => Some ""
  | _ => to_string x
  end.

(** ** JSON.stringify *)

Definition hex_digit (n : N) : ascii :=
  match n with
  | 0 => "0" | 1 => "1" | 2 => "2" | 3 => "3" | 4 => "4" | 5 => "5"
  | 6 => "6" | 7 => "7" | 8 => "8" | 9 => "9" | 10 => "a" | 11 => "b"
  | 12 => "c" | 13 => "d" | 14 => "e" | _ => "f"
  end%N%char.

(** QuoteJSONString, one code unit at a time: the quote and the backslash
    are escaped, control characters get their short escape or [\u00xx]. *)
Definition quote_char (c : ascii) : string :=
  let n := N_of_ascii c in
  if (n =? 34)%N then bsl +:+ dq
  else if (n =? 92)%N then bsl +:+ bsl
  else if (n =? 8)%N then bsl +:+ "b"
  else if (n =? 12)%N then bsl +:+ "f"
  else if (n =? 10)%N then bsl +:+ "n"
  else if (n =? 13)%N then bsl +:+ "r"
  else if (n =? 9)%N then bsl +:+ "t"
  else if (n <? 32)%N then
    bsl +:+ "u00" +:+ String (hex_digit (n / 16)) (String (hex_digit (n mod 16)) "")
  else String c "".

Fixpoint quote_body (s : string) : string :=
  match s with
  | EmptyString => ""
  | String c r => quote_char c +:+ quote_body r
  end.

Definition quote (s : string) : string := dq +:+ quote_body s +:+ dq.

(** The closing step of SerializeJSONObject and SerializeJSONArray. *)
Definition wrap (opening closing gap stepback indent : string)
    (partial : list string) : string :=
  match partial with
  | [] => opening +:+ closing
  | _ =>
      if String.eqb gap "" then
        opening +:+ String.concat "," partial +:+ closing
      else
        opening +:+ nl +:+ indent
          +:+ String.concat ("," +:+ nl +:+ indent) partial
          +:+ nl +:+ stepback +:+ closing
  end.

(** SerializeJSONProperty: [None] is the [undefined] that makes an object
    drop the property and an array print [null]. *)
Fixpoint serialize (gap indent : string) (v : value) : option string :=
  match v with
  | VUndef => None
  | VNull => Some "null"
  | VBool b => Some (if b then "true" else "false")
  | VNum z => Some (number_to_json z)
  | VStr s => Some (quote s)
  | VArr l =>
      let indent' := indent +:+ gap in
      Some (wrap "[" "]" gap indent indent'
        ((fix elems (l : list value) : list string :=
            match l with
            | [] => []
            | x :: r => default "null" (serialize gap indent' x) :: elems r
            end) l))
  | VObj props =>
      let indent' := indent +:+ gap in
      Some (wrap "{" "}" gap indent indent'
        ((fix members (ps : list (string * value)) : list string :=
            match ps with
            | [] => []
            | (k, x) :: r =>
                match serialize gap indent' x with
                | Some s =>
                    (quote k +:+ ":" +:+ (if String.eqb gap "" then "" else " ") +:+ s)
                      :: members r
                | None => members r
                end
            end) props))
  end.

(** [JSON.stringify(v)] and [JSON.stringify(v, null, 2)]. *)
Definition stringify (v : value) : option string := serialize "" "" v.
Definition stringify2 (v : value) : option string := serialize "  " "" v.

End Js.

Import Js.

(** ** Errors

    A thrown [Error]: the handlers read nothing but its [message]. *)
Record exn : Type := Error { message : string }.

Inductive result (A : Type) : Type :=
  | Ok (a : A)
  | Throw (e : exn).
Arguments Ok {A} a.
Arguments Throw {A} e.

(** ** The Config Renderer *)

(** The object literal [scoreConfig] of [generateScoreYaml]. *)
Definition scoreConfig_of (name environment services : value) : value :=
  VObj
    [ ("apiVersion", VStr "score.dev/v1b1");
      ("metadata", VObj [ ("name", name) ]);
      ("spec",
        VObj
          [ ("environment",
              VObj
                [ ("type", or_else (get environment "type") (VStr "web"));
                  ("executionEnvironment",
                    or_else (get environment "executionEnvironment") (VStr "aws"));
                  ("region", get environment "region") ]);
            ("services",
              VObj
                (spread
                   (and_then (get services "database")
                      (VObj
                         [ ("database",
                             VObj
                               [ ("type", VStr "postgres");
                                 ("properties", VObj [ ("size", VStr "small") ]) ]) ]))
                 ++ spread
                   (and_then (get services "cache")
                      (VObj
                         [ ("cache",
                             VObj
                               [ ("type", VStr "redis");
                                 ("properties", VObj [ ("size", VStr "small") ]) ]) ]))
                 ++ spread
                   (and_then (get services "queue")
                      (VObj
                         [ ("queue",
                             VObj
                               [ ("type", VStr "rabbitmq");
                                 ("properties", VObj [ ("size", VStr "small") ]) ]) ]))))
          ]) ].

(** [generateScoreYaml(config)].  Whatever is thrown inside the [try]
    (destructuring [undefined] or [null], or the structure check) is
    replaced by the one error of the [catch]. *)
Definition generateScoreYaml (config : value) : result string :=
  let failed := Throw (Error "Failed to generate score configuration") in
  match config with
  | VUndef | VNull => failed
  | _ =>
      let name := get config "name" in
      let environment := get config "environment" in
      let services := get config "services" in
      if negb (truthy name) || negb (truthy environment) || negb (truthy services)
      then failed
      else
        match stringify2 (scoreConfig_of name environment services) with
        | Some text => Ok text
        | None => failed
        end
  end.

(** The three template literals that [generateTerraformConfig] appends to
    [hclConfig], with [region] and [name] standing for the text of
    [${region}] and [${scoreConfig.metadata.name}]. *)
Definition hcl_providers (region : string) : string :=
  join_lines [
    "provider " +:+ q "aws" +:+ " {";
    "  region = " +:+ q region;
    "}";
    "";
    "provider " +:+ q "kubernetes" +:+ " {";
    "  host                   = module.eks.cluster_endpoint";
    "  cluster_ca_certificate = base64decode(module.eks.cluster_certificate_authority_data)";
    "  exec {";
    "    api_version = " +:+ q "client.authentication.k8s.io/v1beta1";
    "    command     = " +:+ q "aws";
    "    args        = [" +:+ q "eks" +:+ ", " +:+ q "get-token" +:+ ", " +:+ q "--cluster-name" +:+ ", module.eks.cluster_name]";
    "  }";
    "}";
    "";
    "" ].

Definition hcl_vpc (region name : string) : string :=
  join_lines [
    "module " +:+ q "vpc" +:+ " {";
    "  source  = " +:+ q "terraform-aws-modules/vpc/aws";
    "  version = " +:+ q "~> 5.0";
    "";
    "  name = " +:+ q (name +:+ "-vpc");
    "  cidr = " +:+ q "10.0.0.0/16";
    "";
    "  azs             = [" +:+ q (region +:+ "a") +:+ ", " +:+ q (region +:+ "b") +:+ ", " +:+ q (region +:+ "c") +:+ "]";
    "  private_subnets = [" +:+ q "10.0.1.0/24" +:+ ", " +:+ q "10.0.2.0/24" +:+ ", " +:+ q "10.0.3.0/24" +:+ "]";
    "  public_subnets  = [" +:+ q "10.0.101.0/24" +:+ ", " +:+ q "10.0.102.0/24" +:+ ", " +:+ q "10.0.103.0/24" +:+ "]";
    "";
    "  enable_nat_gateway = true";
    "  single_nat_gateway = true";
    "";
    "  tags = {";
    "    Terraform = " +:+ q "true";
    "    Environment = " +:+ q "dev";
    "  }";
    "}";
    "";
    "" ].

Definition hcl_cluster (name : string) : string :=
  join_lines [
    "module " +:+ q "eks" +:+ " {";
    "  source  = " +:+ q "terraform-aws-modules/eks/aws";
    "  version = " +:+ q "~> 19.0";
    "";
    "  cluster_name    = " +:+ q (name +:+ "-cluster");
    "  cluster_version = " +:+ q "1.27";
    "";
    "  cluster_endpoint_public_access = true";
    "";
    "  vpc_id                   = module.vpc.vpc_id";
    "  subnet_ids               = module.vpc.private_subnets";
    "  control_plane_subnet_ids = module.vpc.private_subnets";
    "";
    "  eks_managed_node_groups = {";
    "    default = {";
    "      min_size     = 1";
    "      max_size     = 3";
    "      desired_size = 2";
    "";
    "      instance_types = [" +:+ q "t3.medium" +:+ "]";
    "    }";
    "  }";
    "";
    "  # Enable IAM roles for service accounts";
    "  enable_irsa = true";
    "";
    "  # Add IAM role for RDS access";
    "  cluster_addons = {";
    "    coredns = {";
    "      most_recent = true";
    "    }";
    "    kube-proxy = {";
    "      most_recent = true";
    "    }";
    "    vpc-cni = {";
    "      most_recent = true";
    "    }";
    "  }";
    "";
    "  tags = {";
    "    Environment = " +:+ q "dev";
    "    Terraform   = " +:+ q "true";
    "  }";
    "}";
    "";
    "# Create IAM role policy for EKS";
    "resource " +:+ q "aws_iam_role_policy" +:+ " " +:+ q "eks_node_policy" +:+ " {";
    "  name = " +:+ q "eks-node-policy";
    "  role = module.eks.eks_managed_node_groups[" +:+ q "default" +:+ "].iam_role_name";
    "";
    "  policy = jsonencode({";
    "    Version = " +:+ q "2012-10-17";
    "    Statement = [";
    "      {";
    "        Effect = " +:+ q "Allow";
    "        Action = [";
    "          " +:+ q "ec2:DescribeInstances" +:+ ",";
    "          " +:+ q "ec2:DescribeRegions" +:+ ",";
    "          " +:+ q "ec2:DescribeRouteTables" +:+ ",";
    "          " +:+ q "ec2:DescribeSecurityGroups" +:+ ",";
    "          " +:+ q "ec2:DescribeSubnets" +:+ ",";
    "          " +:+ q "ec2:DescribeVolumes" +:+ ",";
    "          " +:+ q "ec2:DescribeVolumesModifications" +:+ ",";
    "          " +:+ q "ec2:DescribeVpcs" +:+ ",";
    "          " +:+ q "eks:DescribeCluster";
    "        ]";
    "        Resource = " +:+ q "*";
    "      }";
    "    ]";
    "  })";
    "}";
    "";
    "# RDS instance configuration";
    "resource " +:+ q "aws_db_subnet_group" +:+ " " +:+ q "main" +:+ " {";
    "  name       = " +:+ q (name +:+ "-db-subnet-group");
    "  subnet_ids = module.vpc.private_subnets";
    "";
    "  tags = {";
    "    Name = " +:+ q (name +:+ "-db-subnet-group");
    "  }";
    "}";
    "";
    "resource " +:+ q "aws_security_group" +:+ " " +:+ q "rds" +:+ " {";
    "  name        = " +:+ q (name +:+ "-rds-sg");
    "  description = " +:+ q "Security group for RDS instance";
    "  vpc_id      = module.vpc.vpc_id";
    "";
    "  ingress {";
    "    from_port       = 5432";
    "    to_port         = 5432";
    "    protocol        = " +:+ q "tcp";
    "    security_groups = [module.eks.cluster_security_group_id]";
    "  }";
    "";
    "  egress {";
    "    from_port   = 0";
    "    to_port     = 0";
    "    protocol    = " +:+ q "-1";
    "    cidr_blocks = [" +:+ q "0.0.0.0/0" +:+ "]";
    "  }";
    "";
    "  tags = {";
    "    Name = " +:+ q (name +:+ "-rds-sg");
    "  }";
    "}";
    "";
    "resource " +:+ q "aws_db_instance" +:+ " " +:+ q "main" +:+ " {";
    "  identifier           = " +:+ q (name +:+ "-db");
    "  allocated_storage    = 20";
    "  storage_type        = " +:+ q "gp2";
    "  engine              = " +:+ q "postgres";
    "  engine_version      = " +:+ q "13.7";
    "  instance_class      = " +:+ q "db.t3.micro";
    "  db_name             = " +:+ q (name +:+ "_db");
    "  username            = " +:+ q "postgres";
    "  password            = " +:+ q "postgres123" +:+ "  # In production, use AWS Secrets Manager";
    "  skip_final_snapshot = true";
    "";
    "  vpc_security_group_ids = [aws_security_group.rds.id]";
    "  db_subnet_group_name   = aws_db_subnet_group.main.name";
    "";
    "  tags = {";
    "    Name = " +:+ q (name +:+ "-db");
    "  }";
    "}";
    "";
    "# Create OIDC provider for EKS";
    "data " +:+ q "tls_certificate" +:+ " " +:+ q "eks" +:+ " {";
    "  url = module.eks.cluster_oidc_issuer_url";
    "}";
    "";
    "resource " +:+ q "aws_iam_openid_connect_provider" +:+ " " +:+ q "eks" +:+ " {";
    "  client_id_list  = [" +:+ q "sts.amazonaws.com" +:+ "]";
    "  thumbprint_list = [data.tls_certificate.eks.certificates[0].sha1_fingerprint]";
    "  url             = module.eks.cluster_oidc_issuer_url";
    "}";
    "";
    "# Kubernetes service account with IAM role";
    "resource " +:+ q "kubernetes_service_account" +:+ " " +:+ q "app" +:+ " {";
    "  metadata {";
    "    name      = " +:+ q "app";
    "    namespace = " +:+ q "default";
    "    annotations = {";
    "      " +:+ q "eks.amazonaws.com/role-arn" +:+ " = module.eks.eks_managed_node_groups[" +:+ q "default" +:+ "].iam_role_name";
    "    }";
    "  }";
    "}";
    "";
    "# Kubernetes secret for database connection details";
    "resource " +:+ q "kubernetes_secret" +:+ " " +:+ q "db_credentials" +:+ " {";
    "  metadata {";
    "    name      = " +:+ q "app-db-credentials";
    "    namespace = " +:+ q "default";
    "  }";
    "";
    "  data = {";
    "    DB_HOST     = aws_db_instance.main.address";
    "    DB_PORT     = " +:+ q "5432";
    "    DB_NAME     = aws_db_instance.main.db_name";
    "    DB_USER     = aws_db_instance.main.username";
    "    DB_PASSWORD = aws_db_instance.main.password";
    "  }";
    "}";
    "";
    "# Update the Kubernetes deployment to use a public nginx image for testing";
    "resource " +:+ q "kubernetes_deployment" +:+ " " +:+ q "app" +:+ " {";
    "  metadata {";
    "    name = " +:+ q "app";
    "    namespace = " +:+ q "default";
    "    labels = {";
    "      app = " +:+ q "app";
    "    }";
    "  }";
    "";
    "  spec {";
    "    replicas = 2";
    "";
    "    selector {";
    "      match_labels = {";
    "        app = " +:+ q "app";
    "      }";
    "    }";
    "";
    "    template {";
    "      metadata {";
    "        labels = {";
    "          app = " +:+ q "app";
    "        }";
    "      }";
    "";
    "      spec {";
    "        service_account_name = kubernetes_service_account.app.metadata[0].name";
    "";
    "        container {";
    "          # Use nginx as a test image since app:latest doesn't exist";
    "          image = " +:+ q "nginx:latest";
    "          name  = " +:+ q "app";
    "";
    "          env_from {";
    "            secret_ref {";
    "              name = kubernetes_secret.db_credentials.metadata[0].name";
    "            }";
    "          }";
    "";
    "          # Add readiness and liveness probes";
    "          readiness_probe {";
    "            http_get {";
    "              path = " +:+ q "/";
    "              port = 80";
    "            }";
    "            initial_delay_seconds = 10";
    "            period_seconds = 5";
    "          }";
    "";
    "          liveness_probe {";
    "            http_get {";
    "              path = " +:+ q "/";
    "              port = 80";
    "            }";
    "            initial_delay_seconds = 10";
    "            period_seconds = 5";
    "          }";
    "";
    "          resources {";
    "            limits = {";
    "              cpu    = " +:+ q "0.5";
    "              memory = " +:+ q "512Mi";
    "            }";
    "            requests = {";
    "              cpu    = " +:+ q "250m";
    "              memory = " +:+ q "50Mi";
    "            }";
    "          }";
    "";
    "          # Update container port to match nginx";
    "          port {";
    "            container_port = 80";
    "          }";
    "        }";
    "      }";
    "    }";
    "  }";
    "}";
    "";
    "# Update the service to match nginx port";
    "resource " +:+ q "kubernetes_service" +:+ " " +:+ q "app" +:+ " {";
    "  metadata {";
    "    name = " +:+ q "app";
    "    namespace = " +:+ q "default";
    "  }";
    "";
    "  spec {";
    "    selector = {";
    "      app = " +:+ q "app";
    "    }";
    "";
    "    port {";
    "      port        = 80";
    "      target_port = 80";
    "    }";
    "";
    "    type = " +:+ q "LoadBalancer";
    "  }";
    "}";
    "";
    "# Ingress configuration";
    "resource " +:+ q "kubernetes_ingress_v1" +:+ " " +:+ q "app" +:+ " {";
    "  metadata {";
    "    name = " +:+ q "app";
    "    namespace = " +:+ q "default";
    "    annotations = {";
    "      " +:+ q "kubernetes.io/ingress.class" +:+ " = " +:+ q "alb";
    "      " +:+ q "alb.ingress.kubernetes.io/scheme" +:+ " = " +:+ q "internet-facing";
    "      " +:+ q "alb.ingress.kubernetes.io/target-type" +:+ " = " +:+ q "ip";
    "      " +:+ q "alb.ingress.kubernetes.io/listen-ports" +:+ " = jsonencode([{" +:+ q "HTTP" +:+ ": 80}])";
    "    }";
    "  }";
    "";
    "  spec {";
    "    rule {";
    "      http {";
    "        path {";
    "          path = " +:+ q "/";
    "          backend {";
    "            service {";
    "              name = kubernetes_service.app.metadata[0].name";
    "              port {";
    "                number = 80";
    "              }";
    "            }";
    "          }";
    "        }";
    "      }";
    "    }";
    "  }";
    "}";
    "" ].

(** [generateTerraformConfig(scoreConfig)]: [None] when a property is read
    from [undefined] or [null], or the region or the name has no text to put
    in the template (a TypeError each). *)
Definition generateTerraformConfig (scoreConfig : value) : option string :=
  spec ← get_strict scoreConfig "spec";
  environment ← get_strict spec "environment";
  region ← get_strict environment "region";
  metadata ← get_strict scoreConfig "metadata";
  name ← get_strict metadata "name";
  region_text ← to_string region;
  name_text ← to_string name;
  Some (hcl_providers region_text +:+ hcl_vpc region_text name_text
          +:+ hcl_cluster name_text).

(** The template literal [mainTf] of the init route. *)
Definition mainTf (region : string) : string :=
  join_lines [
    "";
    "terraform {";
    "  required_providers {";
    "    aws = {";
    "      source  = " +:+ q "hashicorp/aws";
    "      version = " +:+ q "~> 5.0";
    "    }";
    "    kubernetes = {";
    "      source  = " +:+ q "hashicorp/kubernetes";
    "      version = " +:+ q "~> 2.0";
    "    }";
    "    helm = {";
    "      source  = " +:+ q "hashicorp/helm";
    "      version = " +:+ q "~> 2.0";
    "    }";
    "  }";
    "}";
    "";
    "provider " +:+ q "aws" +:+ " {";
    "  region = " +:+ q region;
    "}";
    "";
    "# VPC Configuration";
    "module " +:+ q "vpc" +:+ " {";
    "  source  = " +:+ q "terraform-aws-modules/vpc/aws";
    "  version = " +:+ q "~> 5.0";
    "";
    "  name = " +:+ q "app-vpc";
    "  cidr = " +:+ q "10.0.0.0/16";
    "";
    "  azs             = [" +:+ q (region +:+ "a") +:+ ", " +:+ q (region +:+ "b") +:+ ", " +:+ q (region +:+ "c") +:+ "]";
    "  private_subnets = [" +:+ q "10.0.1.0/24" +:+ ", " +:+ q "10.0.2.0/24" +:+ ", " +:+ q "10.0.3.0/24" +:+ "]";
    "  public_subnets  = [" +:+ q "10.0.101.0/24" +:+ ", " +:+ q "10.0.102.0/24" +:+ ", " +:+ q "10.0.103.0/24" +:+ "]";
    "";
    "  enable_nat_gateway = true";
    "  single_nat_gateway = true";
    "";
    "  tags = {";
    "    Terraform = " +:+ q "true";
    "    Environment = " +:+ q "dev";
    "  }";
    "}";
    "";
    "# EKS Cluster";
    "module " +:+ q "eks" +:+ " {";
    "  source  = " +:+ q "terraform-aws-modules/eks/aws";
    "  version = " +:+ q "~> 19.0";
    "";
    "  cluster_name    = " +:+ q "app-cluster";
    "  cluster_version = " +:+ q "1.27";
    "";
    "  cluster_endpoint_public_access = true";
    "";
    "  vpc_id                   = module.vpc.vpc_id";
    "  subnet_ids               = module.vpc.private_subnets";
    "  control_plane_subnet_ids = module.vpc.private_subnets";
    "";
    "  eks_managed_node_groups = {";
    "    default = {";
    "      min_size     = 1";
    "      max_size     = 3";
    "      desired_size = 2";
    "";
    "      instance_types = [" +:+ q "t3.medium" +:+ "]";
    "    }";
    "  }";
    "";
    "  # Enable IAM roles for service accounts";
    "  enable_irsa = true";
    "";
    "  # Add IAM role for RDS access";
    "  cluster_addons = {";
    "    coredns = {";
    "      most_recent = true";
    "    }";
    "    kube-proxy = {";
    "      most_recent = true";
    "    }";
    "    vpc-cni = {";
    "      most_recent = true";
    "    }";
    "  }";
    "";
    "  tags = {";
    "    Environment = " +:+ q "dev";
    "    Terraform   = " +:+ q "true";
    "  }";
    "}";
    "";
    "# Create IAM role policy for EKS";
    "resource " +:+ q "aws_iam_role_policy" +:+ " " +:+ q "eks_node_policy" +:+ " {";
    "  name = " +:+ q "eks-node-policy";
    "  role = module.eks.eks_managed_node_groups[" +:+ q "default" +:+ "].iam_role_name";
    "";
    "  policy = jsonencode({";
    "    Version = " +:+ q "2012-10-17";
    "    Statement = [";
    "      {";
    "        Effect = " +:+ q "Allow";
    "        Action = [";
    "          " +:+ q "ec2:DescribeInstances" +:+ ",";
    "          " +:+ q "ec2:DescribeRegions" +:+ ",";
    "          " +:+ q "ec2:DescribeRouteTables" +:+ ",";
    "          " +:+ q "ec2:DescribeSecurityGroups" +:+ ",";
    "          " +:+ q "ec2:DescribeSubnets" +:+ ",";
    "          " +:+ q "ec2:DescribeVolumes" +:+ ",";
    "          " +:+ q "ec2:DescribeVolumesModifications" +:+ ",";
    "          " +:+ q "ec2:DescribeVpcs" +:+ ",";
    "          " +:+ q "eks:DescribeCluster";
    "        ]";
    "        Resource = " +:+ q "*";
    "      }";
    "    ]";
    "  })";
    "}";
    "";
    "# RDS Configuration";
    "resource " +:+ q "aws_db_subnet_group" +:+ " " +:+ q "main" +:+ " {";
    "  name       = " +:+ q "app-db-subnet-group";
    "  subnet_ids = module.vpc.private_subnets";
    "";
    "  tags = {";
    "    Name = " +:+ q "app-db-subnet-group";
    "  }";
    "}";
    "";
    "resource " +:+ q "aws_security_group" +:+ " " +:+ q "rds" +:+ " {";
    "  name        = " +:+ q "app-rds-sg";
    "  description = " +:+ q "Security group for RDS instance";
    "  vpc_id      = module.vpc.vpc_id";
    "";
    "  ingress {";
    "    from_port       = 5432";
    "    to_port         = 5432";
    "    protocol        = " +:+ q "tcp";
    "    security_groups = [module.eks.cluster_security_group_id]";
    "  }";
    "";
    "  egress {";
    "    from_port   = 0";
    "    to_port     = 0";
    "    protocol    = " +:+ q "-1";
    "    cidr_blocks = [" +:+ q "0.0.0.0/0" +:+ "]";
    "  }";
    "";
    "  tags = {";
    "    Name = " +:+ q "app-rds-sg";
    "  }";
    "}";
    "";
    "resource " +:+ q "aws_db_instance" +:+ " " +:+ q "main" +:+ " {";
    "  identifier           = " +:+ q "app-db";
    "  allocated_storage    = 20";
    "  storage_type        = " +:+ q "gp2";
    "  engine              = " +:+ q "postgres";
    "  engine_version      = " +:+ q "14";
    "  instance_class      = " +:+ q "db.t3.micro";
    "  db_name             = " +:+ q "appdb";
    "  username            = " +:+ q "postgres";
    "  password            = " +:+ q "postgres123" +:+ "  # In production, use AWS Secrets Manager";
    "  skip_final_snapshot = true";
    "";
    "  vpc_security_group_ids = [aws_security_group.rds.id]";
    "  db_subnet_group_name   = aws_db_subnet_group.main.name";
    "";
    "  tags = {";
    "    Name = " +:+ q "app-db";
    "  }";
    "}";
    "";
    "# Create OIDC provider for EKS";
    "data " +:+ q "tls_certificate" +:+ " " +:+ q "eks" +:+ " {";
    "  url = module.eks.cluster_oidc_issuer_url";
    "}";
    "";
    "resource " +:+ q "aws_iam_openid_connect_provider" +:+ " " +:+ q "eks" +:+ " {";
    "  client_id_list  = [" +:+ q "sts.amazonaws.com" +:+ "]";
    "  thumbprint_list = [data.tls_certificate.eks.certificates[0].sha1_fingerprint]";
    "  url             = module.eks.cluster_oidc_issuer_url";
    "}";
    "";
    "# Kubernetes provider configuration";
    "provider " +:+ q "kubernetes" +:+ " {";
    "  host                   = module.eks.cluster_endpoint";
    "  cluster_ca_certificate = base64decode(module.eks.cluster_certificate_authority_data)";
    "  exec {";
    "    api_version = " +:+ q "client.authentication.k8s.io/v1beta1";
    "    command     = " +:+ q "aws";
    "    args        = [" +:+ q "eks" +:+ ", " +:+ q "get-token" +:+ ", " +:+ q "--cluster-name" +:+ ", module.eks.cluster_name]";
    "  }";
    "}";
    "";
    "# Kubernetes service account with IAM role";
    "resource " +:+ q "kubernetes_service_account" +:+ " " +:+ q "app" +:+ " {";
    "  metadata {";
    "    name      = " +:+ q "app";
    "    namespace = " +:+ q "default";
    "    annotations = {";
    "      " +:+ q "eks.amazonaws.com/role-arn" +:+ " = module.eks.eks_managed_node_groups[" +:+ q "default" +:+ "].iam_role_name";
    "    }";
    "  }";
    "}";
    "";
    "# Kubernetes secret for database connection details";
    "resource " +:+ q "kubernetes_secret" +:+ " " +:+ q "db_credentials" +:+ " {";
    "  metadata {";
    "    name      = " +:+ q "app-db-credentials";
    "    namespace = " +:+ q "default";
    "  }";
    "";
    "  data = {";
    "    DB_HOST     = aws_db_instance.main.address";
    "    DB_PORT     = " +:+ q "5432";
    "    DB_NAME     = aws_db_instance.main.db_name";
    "    DB_USER     = aws_db_instance.main.username";
    "    DB_PASSWORD = aws_db_instance.main.password";
    "  }";
    "}";
    "";
    "# Kubernetes deployment";
    "resource " +:+ q "kubernetes_deployment" +:+ " " +:+ q "app" +:+ " {";
    "  metadata {";
    "    name = " +:+ q "app";
    "    namespace = " +:+ q "default";
    "    labels = {";
    "      app = " +:+ q "app";
    "    }";
    "  }";
    "";
    "  spec {";
    "    replicas = 2";
    "";
    "    selector {";
    "      match_labels = {";
    "        app = " +:+ q "app";
    "      }";
    "    }";
    "";
    "    template {";
    "      metadata {";
    "        labels = {";
    "          app = " +:+ q "app";
    "        }";
    "      }";
    "";
    "      spec {";
    "        service_account_name = kubernetes_service_account.app.metadata[0].name";
    "";
    "        container {";
    "          # Use nginx as a test image since app:latest doesn't exist";
    "          image = " +:+ q "nginx:latest";
    "          name  = " +:+ q "app";
    "";
    "          env_from {";
    "            secret_ref {";
    "              name = kubernetes_secret.db_credentials.metadata[0].name";
    "            }";
    "          }";
    "";
    "          # Add readiness and liveness probes";
    "          readiness_probe {";
    "            http_get {";
    "              path = " +:+ q "/";
    "              port = 80";
    "            }";
    "            initial_delay_seconds = 10";
    "            period_seconds = 5";
    "          }";
    "";
    "          liveness_probe {";
    "            http_get {";
    "              path = " +:+ q "/";
    "              port = 80";
    "            }";
    "            initial_delay_seconds = 10";
    "            period_seconds = 5";
    "          }";
    "";
    "          resources {";
    "            limits = {";
    "              cpu    = " +:+ q "0.5";
    "              memory = " +:+ q "512Mi";
    "            }";
    "            requests = {";
    "              cpu    = " +:+ q "250m";
    "              memory = " +:+ q "50Mi";
    "            }";
    "          }";
    "";
    "          # Update container port to match nginx";
    "          port {";
    "            container_port = 80";
    "          }";
    "        }";
    "      }";
    "    }";
    "  }";
    "}";
    "";
    "# Kubernetes service";
    "resource " +:+ q "kubernetes_service" +:+ " " +:+ q "app" +:+ " {";
    "  metadata {";
    "    name = " +:+ q "app";
    "    namespace = " +:+ q "default";
    "  }";
    "";
    "  spec {";
    "    selector = {";
    "      app = " +:+ q "app";
    "    }";
    "";
    "    port {";
    "      port        = 80";
    "      target_port = 80";
    "    }";
    "";
    "    type = " +:+ q "LoadBalancer";
    "  }";
    "}";
    "";
    "# Ingress configuration";
    "resource " +:+ q "kubernetes_ingress_v1" +:+ " " +:+ q "app" +:+ " {";
    "  metadata {";
    "    name = " +:+ q "app";
    "    namespace = " +:+ q "default";
    "    annotations = {";
    "      " +:+ q "kubernetes.io/ingress.class" +:+ " = " +:+ q "alb";
    "      " +:+ q "alb.ingress.kubernetes.io/scheme" +:+ " = " +:+ q "internet-facing";
    "      " +:+ q "alb.ingress.kubernetes.io/target-type" +:+ " = " +:+ q "ip";
    "      " +:+ q "alb.ingress.kubernetes.io/listen-ports" +:+ " = jsonencode([{" +:+ q "HTTP" +:+ ": 80}])";
    "    }";
    "  }";
    "";
    "  spec {";
    "    rule {";
    "      http {";
    "        path {";
    "          path = " +:+ q "/";
    "          backend {";
    "            service {";
    "              name = kubernetes_service.app.metadata[0].name";
    "              port {";
    "                number = 80";
    "              }";
    "            }";
    "          }";
    "        }";
    "      }";
    "    }";
    "  }";
    "}";
    "" ].

(** ** Paths

    A path is the list of the segments of an absolute, normalized path.
    [path_join base args] is the place [path.join(base, ...args)] leads to:
    the arguments are cut at every slash, empty and [.] segments are dropped
    and [..] removes the segment before it (nothing at the root).  The text
    Node returns keeps one separator at its end when the text joined ends
    with one; [trailing_separator] tells whether it does, and a path so
    written is resolved to a directory only. *)
Definition path : Type := list string.

Fixpoint segments (s : string) : list string :=
  match s with
  | EmptyString => [""]
  | String c r =>
      if Ascii.eqb c "/" then "" :: segments r
      else
        match segments r with
        | [] => [String c ""]
        | h :: t => String c h :: t
        end
  end.

Definition normalize_step (acc : path) (seg : string) : path :=
  if String.eqb seg "" || String.eqb seg "." then acc
  else if String.eqb seg ".." then removelast acc
  else acc ++ [seg].

Definition path_join (base : path) (args : list string) : path :=
  fold_left normalize_step (concat (map segments args)) base.

Fixpoint ends_with_slash (s : string) : bool :=
  match s with
  | EmptyString => false
  | String c EmptyString => Ascii.eqb c "/"
  | String _ r => ends_with_slash r
  end.

(** Whether [path.join(base, ...args)] ends with a separator, for a [base]
    that does not: whether the last argument that is not empty does. *)
Definition trailing_separator (args : list string) : bool :=
  fold_left (fun last a => if String.eqb a "" then last else ends_with_slash a)
    args false.

Definition show_path (p : path) : string :=
  match p with
  | [] => "/"
  | _ => String.concat "" (map (fun seg => "/" +:+ seg) p)
  end.

(** ** The file system *)
Inductive node : Type :=
  | File (content : string)
  | Dir.

(** The error [fs] throws: Node's message is the code, what it means, the
    call and the path. *)
Definition fs_error (code meaning syscall : string) (p : path) : exn :=
  Error (code +:+ ": " +:+ meaning +:+ ", " +:+ syscall +:+ " '" +:+ show_path p +:+ "'").

Definition is_dir (files : gmap path node) (p : path) : bool :=
  match p with
  | [] => true
  | _ => match files !! p with Some Dir => true | _ => false end
  end.

Definition exists_in (files : gmap path node) (p : path) : bool :=
  match p with
  | [] => true
  | _ => match files !! p with Some _ => true | None => false end
  end.

(** What [fs.existsSync] answers for the place [p] when the path is
    written with a separator at its end ([dir]) or without: with one, a
    file at [p] is not found (ENOTDIR). *)
Definition exists_as (dir : bool) (files : gmap path node) (p : path) : bool :=
  if dir then is_dir files p else exists_in files p.

(** [fs.mkdirSync(p, { recursive: true })]: every missing directory on the
    way to [p] is made; a file in the way is an error. *)
Fixpoint mkdir_from (made : path) (todo : list string) (target : path)
    (files : gmap path node) : result (gmap path node) :=
  match todo with
  | [] => Ok files
  | seg :: r =>
      let here := made ++ [seg] in
      match files !! here with
      | Some (File _) =>
          Throw (match r with
                 | [] => fs_error "EEXIST" "file already exists" "mkdir" target
                 | _ => fs_error "ENOTDIR" "not a directory" "mkdir" target
                 end)
      | Some Dir => mkdir_from here r target files
      | None => mkdir_from here r target (<[here := Dir]> files)
      end
  end.

Definition mkdir_p (p : path) (files : gmap path node) : result (gmap path node) :=
  mkdir_from [] p p files.

(** [fs.writeFileSync(p, data)]: the directory of [p] has to be there and
    [p] must not be a directory. *)
Definition write_file (p : path) (data : string) (files : gmap path node)
    : result (gmap path node) :=
  let parent := removelast p in
  if negb (exists_in files parent) then
    Throw (fs_error "ENOENT" "no such file or directory" "open" p)
  else if negb (is_dir files parent) then
    Throw (fs_error "ENOTDIR" "not a directory" "open" p)
  else
    match files !! p with
    | Some Dir => Throw (fs_error "EISDIR" "illegal operation on a directory" "open" p)
    | _ => Ok (<[p := File data]> files)
    end.

(** [fs.readFileSync(p, 'utf8')].  A directory is opened and fails at the
    read, whose error names no path. *)
Definition read_file (p : path) (files : gmap path node) : result string :=
  match files !! p with
  | Some (File content) => Ok content
  | Some Dir => Throw (Error "EISDIR: illegal operation on a directory, read")
  | None => Throw (fs_error "ENOENT" "no such file or directory" "open" p)
  end.

(** ** The state of the server process *)

(** What [processes] holds for a session: the two fields the status route
    reads. *)
Record session : Type := Session { status : string; logs : list string }.

Record world : Type := World {
  files : gmap path node;
  processes : gmap string session;
  cwd : path
}.

(** What a handler does to the world outside its own memory. *)
Inductive effect : Type :=
  | EExists (p : path)
  | EMkdir (p : path)
  | EWrite (p : path) (data : string)
  | ERead (p : path)
  | EChdir (p : path)
  | ESpawn (command : string) (args : list string) (dir : path).

(** Handlers run in a state and exception monad that also records the
    effects in the order they happen. *)
Record outcome (A : Type) : Type := Outcome {
  returned : result A;
  after : world;
  effects : list effect
}.
Arguments Outcome {A} returned after effects.
Arguments returned {A} o.
Arguments after {A} o.
Arguments effects {A} o.

Definition M (A : Type) : Type := world -> outcome A.

Definition ret {A} (a : A) : M A := fun w => Outcome (Ok a) w [].

Definition throw {A} (e : exn) : M A := fun w => Outcome (Throw e) w [].

(** The effects of [o] with the effects [es] before them. *)
Definition preceded {A} (es : list effect) (o : outcome A) : outcome A :=
  match o with
  | Outcome r w es' => Outcome r w (es ++ es')
  end.

Definition bind {A B} (m : M A) (k : A -> M B) : M B := fun w =>
  match m w with
  | Outcome (Ok a) w' es => preceded es (k a w')
  | Outcome (Throw e) w' es => Outcome (Throw e) w' es
  end.

Definition try_catch {A} (m : M A) (handler : exn -> M A) : M A := fun w =>
  match m w with
  | Outcome (Ok a) w' es => Outcome (Ok a) w' es
  | Outcome (Throw e) w' es => preceded es (handler e w')
  end.

Notation "'let!' x ':=' m 'in' k" := (bind m (fun x => k))
  (at level 10, x name, m at level 100, k at level 200).
Notation "m ';;' k" := (bind m (fun _ => k))
  (at level 100, k at level 200, right associativity).

Definition with_files (fl : gmap path node) (w : world) : world :=
  World fl (processes w) (cwd w).

Definition existsSync (p : path) : M bool := fun w =>
  Outcome (Ok (exists_in (files w) p)) w [EExists p].

(** [fs.existsSync] of a path written with or without a separator at its
    end. *)
Definition existsSync_as (dir : bool) (p : path) : M bool := fun w =>
  Outcome (Ok (exists_as dir (files w) p)) w [EExists p].

Definition mkdirSync (p : path) : M unit := fun w =>
  match mkdir_p p (files w) with
  | Ok fl => Outcome (Ok tt) (with_files fl w) [EMkdir p]
  | Throw e => Outcome (Throw e) w [EMkdir p]
  end.

Definition writeFileSync (p : path) (data : string) : M unit := fun w =>
  match write_file p data (files w) with
  | Ok fl => Outcome (Ok tt) (with_files fl w) [EWrite p data]
  | Throw e => Outcome (Throw e) w [EWrite p data]
  end.

Definition readFileSync (p : path) : M string := fun w =>
  match read_file p (files w) with
  | Ok content => Outcome (Ok content) w [ERead p]
  | Throw e => Outcome (Throw e) w [ERead p]
  end.

(** [process.chdir(p)]. *)
Definition chdir (p : path) : M unit := fun w =>
  if is_dir (files w) p then
    Outcome (Ok tt) (World (files w) (processes w) p) [EChdir p]
  else
    Outcome
      (Throw (fs_error (if exists_in (files w) p then "ENOTDIR" else "ENOENT")
                (if exists_in (files w) p then "not a directory"
                 else "no such file or directory") "chdir" p))
      w [EChdir p].

(** [processes.get(sessionId)]. *)
Definition processes_get (sessionId : string) : M (option session) := fun w =>
  Outcome (Ok (processes w !! sessionId)) w [].

(** ** The response *)

(** What the caller gets: a JSON document with a status code, or an event
    stream: the chunks written so far and whether [res.end()] was called. *)
Inductive response : Type :=
  | Json (code : Z) (body : value)
  | EventStream (wire : list string) (ended : bool).

(** [sendResponse(res, status, data)]. *)
Definition sendResponse (code : Z) (data : list (string * value)) : response :=
  Json code (VObj (("success", VBool ((200 <=? code) && (code <? 300))) :: data)).

Record stream : Type := Stream { wire_of : list string; ended_of : bool }.

(** [res.write(chunk)]: nothing reaches the subscriber once the response
    has ended. *)
Definition res_write (chunk : string) (r : stream) : stream :=
  if ended_of r then r else Stream (wire_of r ++ [chunk]) false.

Definition res_end (r : stream) : stream := Stream (wire_of r) true.

(** The chunk [`data: ${JSON.stringify(event)}\n\n`]. *)
Definition sse (event : value) : string :=
  "data: " +:+ default "undefined" (stringify event) +:+ nl +:+ nl.

Definition log_event (text : string) : value := VObj [("log", VStr text)].
Definition completed_event : value := VObj [("status", VStr "completed")].
Definition error_event (text : string) : value := VObj [("error", VStr text)].

(** ** The Process Supervisor *)

(** What the child process makes the supervisor see, in order: a chunk on
    one of its two pipes, its [close] with an exit code ([None] when a
    signal ended it), or the [error] of a spawn that failed. *)
Inductive proc_event : Type :=
  | Stdout (data : string)
  | Stderr (data : string)
  | Close (code : option Z)
  | SpawnError (err : exn).

(** The external tool of one request: the events it raises and what it
    leaves in the file system. *)
Record child : Type := Child {
  events : list proc_event;
  leaves : gmap path node -> gmap path node
}.

Inductive promise : Type :=
  | Pending
  | Resolved
  | Rejected (e : exn).

Record run_state : Type := RunState {
  error : string;
  settled : promise;
  res : stream
}.

(** [resolve()] and [reject(e)]: a promise settles once, and the callbacks
    chained on it run before the next event is handled. *)
Definition settle (callbacks : promise -> stream -> stream) (p : promise)
    (st : run_state) : run_state :=
  match settled st with
  | Pending => RunState (error st) p (callbacks p (res st))
  | _ => st
  end.

Definition show_code (code : option Z) : string :=
  match code with
  | Some z => number_to_string z
  | None => "null"
  end.

(** The four listeners of [runCommandWithStream]. *)
Definition on_event (callbacks : promise -> stream -> stream)
    (st : run_state) (ev : proc_event) : run_state :=
  match ev with
  | Stdout data =>
      RunState (error st) (settled st) (res_write (sse (log_event data)) (res st))
  | Stderr data =>
      RunState (error st +:+ data) (settled st)
        (res_write (sse (log_event data)) (res st))
  | Close code =>
      match code with
      | Some 0 => settle callbacks Resolved st
      | _ =>
          settle callbacks
            (Rejected
               (Error
                  (if String.eqb (error st) ""
                   then "Process exited with code " +:+ show_code code
                   else error st)))
            st
      end
  | SpawnError err => settle callbacks (Rejected err) st
  end.

(** [runCommandWithStream(command, args, cwd, res)] followed through the
    events of the child: the promise it returns and what was written to
    [res].  [res] is a response in every route that calls it. *)
Definition runCommandWithStream (callbacks : promise -> stream -> stream)
    (evs : list proc_event) (r : stream) : run_state :=
  fold_left (on_event callbacks) evs (RunState "" Pending r).

(** The [.then(...).catch(...)] that every lifecycle route chains on the
    promise. *)
Definition finish_feed (p : promise) (r : stream) : stream :=
  match p with
  | Pending => r
  | Resolved => res_end (res_write (sse completed_event) r)
  | Rejected e => res_end (res_write (sse (error_event (message e))) r)
  end.

(** The event stream of a lifecycle route whose tool behaves as [c]. *)
Definition feed_of (c : child) : response :=
  let st := runCommandWithStream finish_feed (events c) (Stream [] false) in
  EventStream (wire_of (res st)) (ended_of (res st)).

(** Spawning the tool in [dir] and streaming it to a fresh response. *)
Definition stream_command (command : string) (args : list string) (dir : path)
    (c : child) : M response := fun w =>
  Outcome (Ok (feed_of c)) (with_files (leaves c (files w)) w)
    [ESpawn command args dir].

(** ** The routes *)

Section Server.

(** [__dirname]: the directory of [index.js]. *)
Variable dirname : path.

(** A query parameter is missing or a string; [!p] holds of a missing and
    of an empty one. *)
Definition missing (p : option string) : bool :=
  match p with
  | None => true
  | Some s => String.eqb s ""
  end.

Definition typeof_object (v : value) : bool :=
  match v with
  | VNull | VArr _ | VObj _ => true
  | _ => false
  end.

(** [app.post('/api/generate')], on the body [express.json()] parsed. *)
Definition api_generate (config : value) : M response :=
  try_catch
    (if negb (truthy config) || negb (typeof_object config) then
       ret (sendResponse 400 [("error", VStr "Invalid request body")])
     else if negb (truthy (get config "name")) then
       ret (sendResponse 400 [("error", VStr "Application name is required")])
     else if negb (truthy (get config "environment"))
             || negb (truthy (get (get config "environment") "region")) then
       ret (sendResponse 400 [("error", VStr "AWS region is required")])
     else
       match generateScoreYaml config with
       | Throw e => throw e
       | Ok scoreFile =>
           let envDir := path_join dirname ["environment"] in
           let! present := existsSync envDir in
           (if present then ret tt else mkdirSync envDir);;
           let scoreFilePath := path_join envDir ["score.yaml"] in
           writeFileSync scoreFilePath scoreFile;;
           ret (sendResponse 200
                  [("scoreFile", VStr scoreFile);
                   ("message", VStr "Score file generated successfully")])
       end)
    (fun e =>
       ret (sendResponse 500
              [("error",
                 or_else (VStr (message e)) (VStr "Failed to generate score file"))])).

(** The working directory of a session in the lifecycle routes: the
    place, and whether its text ends with a separator. *)
Definition session_dir (sessionId : string) : path :=
  path_join dirname ["environments"; sessionId].

Definition session_dir_slash (sessionId : string) : bool :=
  trailing_separator ["environments"; sessionId].

(** What [fs.existsSync(envDir)] answers for the directory of a session. *)
Definition session_exists (files : gmap path node) (sessionId : string) : bool :=
  exists_as (session_dir_slash sessionId) files (session_dir sessionId).

(** [app.get('/api/terraform/init')]. *)
Definition api_terraform_init (sessionId region : option string) (c : child)
    : M response :=
  match sessionId, region with
  | Some sid, Some reg =>
      if missing sessionId || missing region then
        ret (Json 400 (VObj [("error", VStr "Session ID and region are required")]))
      else
        let envDir := session_dir sid in
        let! present := existsSync_as (session_dir_slash sid) envDir in
        (if present then ret tt else mkdirSync envDir);;
        writeFileSync (path_join envDir ["main.tf"]) (mainTf reg);;
        chdir envDir;;
        stream_command "terraform" ["init"] envDir c
  | _, _ => ret (Json 400 (VObj [("error", VStr "Session ID and region are required")]))
  end.

(** The plan, apply and destroy routes differ in the arguments they give
    to the tool only. *)
Definition lifecycle_route (args : list string) (sessionId : option string)
    (c : child) : M response :=
  match sessionId with
  | Some sid =>
      if missing sessionId then
        ret (Json 400 (VObj [("error", VStr "Session ID is required")]))
      else
        let envDir := session_dir sid in
        let! present := existsSync_as (session_dir_slash sid) envDir in
        if negb present then
          ret (Json 400 (VObj [("error", VStr "Environment directory not found")]))
        else
          chdir envDir;;
          stream_command "terraform" args envDir c
  | None => ret (Json 400 (VObj [("error", VStr "Session ID is required")]))
  end.

(** [app.get('/api/terraform/plan')]. *)
Definition api_terraform_plan : option string -> child -> M response :=
  lifecycle_route ["plan"; "-out=tfplan"].

(** [app.get('/api/terraform/apply')]. *)
Definition api_terraform_apply : option string -> child -> M response :=
  lifecycle_route ["apply"; "-auto-approve"; "tfplan"].

(** [app.get('/api/terraform/destroy')]. *)
Definition api_terraform_destroy : option string -> child -> M response :=
  lifecycle_route ["destroy"; "-auto-approve"].

(** [app.get('/api/score/:sessionId')]. *)
Definition api_score (sessionId : string) : M response :=
  try_catch
    (let envDir := path_join dirname ["environments"; "dev"] in
     let scoreFilePath := path_join envDir ["score.yaml"] in
     let! present := existsSync scoreFilePath in
     if negb present then
       ret (Json 404 (VObj [("error", VStr "Score file not found")]))
     else
       let! fileContent := readFileSync scoreFilePath in
       ret (Json 200 (VObj [("scoreFile", VStr fileContent)])))
    (fun e => ret (Json 500 (VObj [("error", VStr (message e))]))).

(** [app.get('/api/status/:sessionId')]. *)
Definition api_status (sessionId : string) : M response :=
  let! process := processes_get sessionId in
  match process with
  | None => ret (Json 404 (VObj [("error", VStr "Session not found")]))
  | Some entry =>
      ret (Json 200
             (VObj [("status", VStr (status entry));
                    ("logs", VArr (map VStr (logs entry)))]))
  end.

(** [app.get('/api/health')]. *)
Definition api_health : M response :=
  ret (sendResponse 200
         [("status", VStr "ok"); ("message", VStr "Server is running")]).

(** A request as the server sees it.  A lifecycle request comes with the
    behaviour of the tool it will start; the request is followed until the
    tool is done, and requests are served one after the other. *)
Inductive request : Type :=
  | Generate (body : value)
  | Init (sessionId region : option string) (c : child)
  | Plan (sessionId : option string) (c : child)
  | Apply (sessionId : option string) (c : child)
  | Destroy (sessionId : option string) (c : child)
  | Score (sessionId : string)
  | Status (sessionId : string)
  | Health.

Definition route (r : request) : M response :=
  match r with
  | Generate body => api_generate body
  | Init sessionId region c => api_terraform_init sessionId region c
  | Plan sessionId c => api_terraform_plan sessionId c
  | Apply sessionId c => api_terraform_apply sessionId c
  | Destroy sessionId c => api_terraform_destroy sessionId c
  | Score sessionId => api_score sessionId
  | Status sessionId => api_status sessionId
  | Health => api_health
  end.

(** A request served: what a route throws ends in the global error handler
    of Express. *)
Definition serve (r : request) : M response :=
  try_catch (route r)
    (fun _ => ret (sendResponse 500 [("error", VStr "Internal server error")])).

(** The server serving requests one after the other: the state it ends in
    and the answers it gave ([serve] always answers). *)
Fixpoint serve_all (rs : list request) (w : world) : world * list response :=
  match rs with
  | [] => (w, [])
  | r :: rest =>
      let o := serve r w in
      let '(w', answers) := serve_all rest (after o) in
      (w',
       match returned o with
       | Ok a => a :: answers
       | Throw _ => answers
       end)
  end.

(** The server as [app.listen] starts it: [processes] is a new [Map]. *)
Definition started (fl : gmap path node) (dir : path) : world :=
  World fl ∅ dir.

End Server.

Arguments is_dir : simpl never.
Arguments exists_in : simpl never.
Arguments mkdir_p : simpl never.
Arguments write_file : simpl never.
Arguments read_file : simpl never.
Arguments fs_error : simpl never.
Arguments path_join : simpl never.
Arguments session_dir : simpl never.
Arguments session_dir_slash : simpl never.
Arguments session_exists : simpl never.
Arguments exists_as : simpl never.
Arguments feed_of : simpl never.
Arguments generateScoreYaml : simpl never.
Arguments mainTf : simpl never.
Arguments hcl_providers : simpl never.
Arguments hcl_vpc : simpl never.
Arguments hcl_cluster : simpl never.

(** * Vocabulary of the properties *)

(** ** Text search

    [includes p s] is [s.includes(p)]: [p] stands somewhere in [s]. *)
Fixpoint starts_with (p s : string) : bool :=
  match p, s with
  | EmptyString, _ => true
  | String a p', String b s' => Ascii.eqb a b && starts_with p' s'
  | String _ _, EmptyString => false
  end.

Fixpoint includes (p s : string) : bool :=
  starts_with p s
  || match s with
     | EmptyString => false
     | String _ s' => includes p s'
     end.

(** ** The events of the child *)

Definition is_output (ev : proc_event) : bool :=
  match ev with
  | Stdout _ | Stderr _ => true
  | Close _ | SpawnError _ => false
  end.

(** The text the child wrote to standard error, concatenated. *)
Fixpoint stderr_text (evs : list proc_event) : string :=
  match evs with
  | [] => ""
  | Stderr data :: r => data +:+ stderr_text r
  | _ :: r => stderr_text r
  end.

(** The error [close] rejects with after the standard-error text [err]. *)
Definition exit_error (err : string) (code : option Z) : exn :=
  Error (if String.eqb err "" then "Process exited with code " +:+ show_code code
         else err).

Definition outputs_only (evs : list proc_event) : Prop :=
  Forall (fun ev => is_output ev = true) evs.

(** ** The events of the feed *)

Definition has_key (k : string) (event : value) : bool :=
  match get event k with
  | VUndef => false
  | _ => true
  end.

(** A terminal event carries an [error] or a [status]; a log event carries
    a [log] and neither of them. *)
Definition terminal (event : value) : bool :=
  has_key "error" event || has_key "status" event.

Definition is_log (event : value) : bool :=
  has_key "log" event && negb (terminal event).

(** The event the callbacks of a lifecycle route write when the promise
    settles as [p]. *)
Definition closing_event (p : promise) : value :=
  match p with
  | Rejected e => error_event (message e)
  | _ => completed_event
  end.

(** What holds of the response while the supervisor runs with the callbacks
    of a lifecycle route: log events only while the promise is pending, and
    from the moment it settles the same log events, the closing event and
    the end of the response. *)
Definition feed_inv (st : run_state) : Prop :=
  exists logs,
    forallb is_log logs = true
    /\ match settled st with
       | Pending => res st = Stream (map sse logs) false
       | p => res st = Stream (map sse (logs ++ [closing_event p])) true
       end.

(** ** A logic for the handlers

    [handler_spec m R E]: whatever the world, [m] leaves the session store as
    it found it, every effect of [m] satisfies [E] and what [m] returns
    satisfies [R]. *)
Definition handler_spec {A} (m : M A) (R : A -> Prop) (E : effect -> Prop) : Prop :=
  forall w,
    processes (after (m w)) = processes w
    /\ Forall E (effects (m w))
    /\ forall a, returned (m w) = Ok a -> R a.

(** ** Requests and answers *)

(** The tool a lifecycle request starts. *)
Definition child_of (r : request) : option child :=
  match r with
  | Init _ _ c | Plan _ c | Apply _ c | Destroy _ c => Some c
  | _ => None
  end.

(** What a request is answered with: a JSON document, or the feed of the
    tool of a lifecycle request. *)
Definition answer_of (r : request) (a : response) : Prop :=
  (exists code body, a = Json code body)
  \/ (exists c, child_of r = Some c /\ a = feed_of c).

(** ** Scenarios

    A server in [/srv] on an empty disk, a tool that succeeds and a tool
    that fails. *)
Definition srv : path := ["srv"].

Definition tool_ok : child :=
  Child [Stdout "Terraform has been successfully initialized!"; Close (Some 0)]
    (fun fl => fl).

Definition tool_failing : child :=
  Child [Stdout "Planning"; Stderr "Error: No valid credential sources found";
         Close (Some 1)]
    (fun fl => fl).

Definition after_init : world :=
  fst (serve_all srv [Init (Some "s1") (Some "us-east-1") tool_ok] (started ∅ [])).

(** ** Sessions on disk *)

Definition effect_path (e : effect) : path :=
  match e with
  | EExists p | EMkdir p | EWrite p _ | ERead p | EChdir p | ESpawn _ _ p => p
  end.

(** A disk with the working directories of the sessions [s1] and [dev],
    and a score file in the directory of [dev]. *)
Definition two_sessions : world :=
  World
    {[ ["srv"] := Dir;
       ["srv"; "environments"] := Dir;
       ["srv"; "environments"; "s1"] := Dir;
       ["srv"; "environments"; "dev"] := Dir;
       ["srv"; "environments"; "dev"; "score.yaml"] := File "score of dev" ]}
    ∅ [].

(** ** Validation *)

(** The regions the form offers ([AWS_REGIONS] of ApplicationForm.tsx). *)
Definition AWS_REGIONS : list string :=
  [ "us-east-1"; "us-east-2"; "us-west-1"; "us-west-2"; "eu-west-1"; "eu-west-2";
    "eu-central-1"; "ap-southeast-1"; "ap-southeast-2"; "ap-northeast-1";
    "ap-northeast-2"; "sa-east-1" ].

(** The three checks of the generate route. *)
Definition rejected (config : value) : bool :=
  negb (truthy config) || negb (typeof_object config)
  || negb (truthy (get config "name"))
  || negb (truthy (get config "environment"))
  || negb (truthy (get (get config "environment") "region")).

(** ** The Terraform text *)

(** The fields of a score configuration that [generateTerraformConfig]
    puts into its text. *)
Definition region_of (scoreConfig : value) : value :=
  get (get (get scoreConfig "spec") "environment") "region".

Definition name_of (scoreConfig : value) : value :=
  get (get scoreConfig "metadata") "name".

(** ** Lines *)

Definition is_nl (c : ascii) : bool := Ascii.eqb c (ascii_of_nat 10).

Fixpoint nl_free (s : string) : bool :=
  match s with
  | EmptyString => true
  | String c r => negb (is_nl c) && nl_free r
  end.

(** ** The score file of a descriptor

    A descriptor as the form sends it ([ApplicationConfig]): strings for
    the name and the three fields of the environment, anything for the
    services. *)
Record descriptor : Type := Descriptor {
  app_name : string;
  env_type : string;
  env_exec : string;
  env_region : string;
  app_services : value
}.

Definition to_config (d : descriptor) : value :=
  VObj
    [ ("name", VStr (app_name d));
      ("environment",
        VObj [ ("type", VStr (env_type d));
               ("executionEnvironment", VStr (env_exec d));
               ("region", VStr (env_region d)) ]);
      ("services", app_services d) ].

(** The lines of the fragment of one service, and of the fragments of the
    services in a row, a comma after each but the last. *)
Definition fragment_lines (key type : string) (more : bool) : list string :=
  [ "      " +:+ q key +:+ ": {";
    "        " +:+ q "type" +:+ ": " +:+ q type +:+ ",";
    "        " +:+ q "properties" +:+ ": {";
    "          " +:+ q "size" +:+ ": " +:+ q "small";
    "        }";
    if more then "      }," else "      }" ].

Fixpoint fragments_lines (fs : list (string * string)) : list string :=
  match fs with
  | [] => []
  | (key, type) :: rest =>
      fragment_lines key type (match rest with [] => false | _ => true end)
        ++ fragments_lines rest
  end.

Definition services_lines (fs : list (string * string)) : list string :=
  match fs with
  | [] => [ "    " +:+ q "services" +:+ ": {}" ]
  | _ => ("    " +:+ q "services" +:+ ": {") :: fragments_lines fs ++ [ "    }" ]
  end.

(** The lines of the score file before the services: the name and the
    three fields of the environment. *)
Definition head_lines (n ty ee rg : string) : list string :=
  [ "{";
    "  " +:+ q "apiVersion" +:+ ": " +:+ q "score.dev/v1b1" +:+ ",";
    "  " +:+ q "metadata" +:+ ": {";
    "    " +:+ q "name" +:+ ": " +:+ quote n;
    "  },";
    "  " +:+ q "spec" +:+ ": {";
    "    " +:+ q "environment" +:+ ": {";
    "      " +:+ q "type" +:+ ": " +:+ quote ty +:+ ",";
    "      " +:+ q "executionEnvironment" +:+ ": " +:+ quote ee +:+ ",";
    "      " +:+ q "region" +:+ ": " +:+ quote rg;
    "    }," ].

(** The score file, line by line. *)
Definition score_lines (n ty ee rg : string) (fs : list (string * string))
    : list string :=
  head_lines n ty ee rg ++ services_lines fs ++ [ "  }"; "}" ].

(** The fragments a services value asks for. *)
Definition requested (services : value) : list (string * string) :=
  (if truthy (get services "database") then [("database", "postgres")] else [])
  ++ (if truthy (get services "cache") then [("cache", "redis")] else [])
  ++ (if truthy (get services "queue") then [("queue", "rabbitmq")] else []).

(** The object [spec.services] of the score configuration. *)
Definition services_object (fs : list (string * string)) : value :=
  VObj
    (map (fun f =>
            (fst f,
             VObj [ ("type", VStr (snd f));
                    ("properties", VObj [ ("size", VStr "small") ]) ]))
       fs).

Definition or_default (s default : string) : string :=
  if String.eqb s "" then default else s.

(** The first line of the fragment of a service, and the test that the
    fragment stands in a score file: the line opens one of its lines. *)
Definition fragment_head (key : string) : string := "      " +:+ q key +:+ ": {".

Definition has_fragment (key text : string) : bool :=
  includes (nl +:+ fragment_head key) text.

(** Whether the services object of a score configuration has a fragment. *)
Definition requests (key : string) (services : value) : bool :=
  truthy (get services key).

(** The descriptor of the scenario, as the generate route takes it: the
    region is a field of the environment. *)
Definition orders : value :=
  VObj [ ("name", VStr "orders");
         ("environment", VObj [ ("region", VStr "eu-west-1") ]);
         ("services", VObj [ ("database", VBool true) ]) ].

(** A descriptor of the same shape that asks for the cache alone, with a
    database that is switched off and a key the renderer does not know. *)
Definition orders_with_cache : value :=
  VObj [ ("name", VStr "orders");
         ("environment", VObj [ ("region", VStr "eu-west-1") ]);
         ("services",
           VObj [ ("database", VBool false); ("cache", VBool true);
                  ("storage", VBool true) ]) ].

(** The generate route on a descriptor it accepts and renders. *)
Definition score_written (text : string) : response :=
  sendResponse 200
    [("scoreFile", VStr text); ("message", VStr "Score file generated successfully")].

Definition score_failed (e : exn) : response :=
  sendResponse 500
    [("error", or_else (VStr (message e)) (VStr "Failed to generate score file"))].

(** * The rest of the server *)

(** ** The helpers on [execa] *)

(** [s.split(sep)] for a separator of one character. *)
Fixpoint split_on (sep : ascii) (s : string) : list string :=
  match s with
  | EmptyString => [""]
  | String c r =>
      if Ascii.eqb c sep then "" :: split_on sep r
      else
        match split_on sep r with
        | [] => [String c ""]
        | h :: t => String c h :: t
        end
  end.

(** What [execa] is called with, and what becomes of its promise: it
    resolves with a result, of which the helpers read [stdout], or rejects
    with an error. *)
Record execa_call : Type := ExecaCall {
  call_file : string;
  call_args : list string;
  call_cwd : path;
  call_env : gmap string string
}.

Inductive execa_outcome : Type :=
  | ExecaResolved (stdout : string)
  | ExecaRejected (e : exn).

Section Execa.

(** The library and the tool behind it, and [process.env]. *)
Variable execa : execa_call -> execa_outcome.
Variable process_env : gmap string string.

(** The [env] object of [runTerraformCommand]. *)
Definition terraform_env (region : string) : gmap string string :=
  <["AWS_DEFAULT_REGION" := region]>
    (<["TF_VAR_aws_region" := region]> (<["AWS_REGION" := region]> process_env)).

(** [runTerraformCommand(command, envDir, region)]: what its promise
    resolves with, or the error it rejects with. *)
Definition runTerraformCommand (command : string) (envDir : path) (region : string)
    : result value :=
  match
    execa (ExecaCall "terraform" (split_on " " command) envDir (terraform_env region))
  with
  | ExecaResolved stdout =>
      Ok (VObj [("success", VBool true); ("output", VStr stdout)])
  | ExecaRejected e =>
      Ok (VObj [("success", VBool false); ("error", VStr (message e))])
  end.

(** [initTerraform(envDir, region)]. *)
Definition initTerraform (envDir : path) (region : string) : value :=
  match runTerraformCommand "init" envDir region with
  | Ok _ => VObj [("success", VBool true)]
  | Throw e => VObj [("success", VBool false); ("error", VStr (message e))]
  end.

(** [planTerraform(envDir, region)]. *)
Definition planTerraform (envDir : path) (region : string) : value :=
  match runTerraformCommand "plan -out=tfplan" envDir region with
  | Ok output => VObj [("success", VBool true); ("output", output)]
  | Throw e => VObj [("success", VBool false); ("error", VStr (message e))]
  end.

(** [applyTerraform(envDir, region)]. *)
Definition applyTerraform (envDir : path) (region : string) : value :=
  match runTerraformCommand "apply tfplan" envDir region with
  | Ok output => VObj [("success", VBool true); ("output", output)]
  | Throw e => VObj [("success", VBool false); ("error", VStr (message e))]
  end.

End Execa.

(** ** The supervisor without a response

    [checkTerraformState] and [getTerraformOutput] call
    [runCommandWithStream] with [null] for [res].  The two [data] listeners
    then throw on [res.write], outside any [try]: the server process ends on
    the uncaught exception. *)

Definition null_write : exn := Error "Cannot read properties of null (reading 'write')".

(** The listeners with [res] being [null], on the text of standard error
    and the promise. *)
Definition on_event_null (st : string * promise) (ev : proc_event)
    : result (string * promise) :=
  match ev with
  | Stdout data => Throw null_write
  | Stderr data => Throw null_write
  | Close code =>
      match snd st with
      | Pending =>
          match code with
          | Some 0 => Ok (fst st, Resolved)
          | _ => Ok (fst st, Rejected (exit_error (fst st) code))
          end
      | _ => Ok st
      end
  | SpawnError err =>
      match snd st with
      | Pending => Ok (fst st, Rejected err)
      | _ => Ok st
      end
  end.

(** What awaiting the promise comes to: the function that awaits goes on
    when the promise settles, the process ends when a listener throws
    before that, and nothing happens when the events run out. *)
Inductive awaited (A : Type) : Type :=
  | Returns (a : A)
  | Crashes (e : exn)
  | Hangs.
Arguments Returns {A} a.
Arguments Crashes {A} e.
Arguments Hangs {A}.

Fixpoint await_null (st : string * promise) (evs : list proc_event) : awaited promise :=
  match evs with
  | [] => Hangs
  | ev :: rest =>
      match on_event_null st ev with
      | Throw e => Crashes e
      | Ok st' =>
          match snd st' with
          | Pending => await_null st' rest
          | p => Returns p
          end
      end
  end.

(** [checkTerraformState(cwd)], the tool behaving as [c]. *)
Definition checkTerraformState (c : child) : awaited bool :=
  match await_null ("", Pending) (events c) with
  | Returns Resolved => Returns true
  | Returns _ => Returns false
  | Crashes e => Crashes e
  | Hangs => Hangs
  end.

(** The object [getTerraformOutput] falls back to. *)
Definition no_outputs : value :=
  VObj [ ("vpc_id", VObj [("value", VNull)]);
         ("subnet_ids", VObj [("value", VArr [])]) ].

Section TerraformOutput.

(** [JSON.parse] on a text, of which the helper needs what it does with
    the text of [undefined]. *)
Variable JSON_parse : string -> result value.

(** [getTerraformOutput(cwd)], the tool behaving as [c1] for [state list]
    and as [c2] for [output -json].  The promise of [runCommandWithStream]
    resolves with [undefined], which is what [output] holds. *)
Definition getTerraformOutput (c1 c2 : child) : awaited value :=
  match checkTerraformState c1 with
  | Returns false => Returns no_outputs
  | Returns true =>
      match await_null ("", Pending) (events c2) with
      | Returns Resolved =>
          match to_string VUndef with
          | Some text =>
              match JSON_parse text with
              | Ok parsed => Returns parsed
              | Throw _ => Returns no_outputs
              end
          | None => Returns no_outputs
          end
      | Returns _ => Returns no_outputs
      | Crashes e => Crashes e
      | Hangs => Hangs
      end
  | Crashes e => Crashes e
  | Hangs => Hangs
  end.

End TerraformOutput.

(** * Vocabulary of the further properties *)

(** The text of the output events, in the order they came. *)
Fixpoint chunks (evs : list proc_event) : list string :=
  match evs with
  | [] => []
  | Stdout data :: r => data :: chunks r
  | Stderr data :: r => data :: chunks r
  | _ :: r => chunks r
  end.

(** The event that closes the feed when [t] is the first [close] or
    [error] of the tool, after the events [pre]. *)
Definition closing_of (pre : list proc_event) (t : proc_event) : value :=
  match t with
  | Close (Some 0) => completed_event
  | Close code => error_event (message (exit_error (stderr_text pre) code))
  | SpawnError err => error_event (message err)
  | _ => completed_event
  end.

Definition is_spawn (e : effect) : bool :=
  match e with
  | ESpawn _ _ _ => true
  | _ => false
  end.

(** Whether the tool was started. *)
Definition spawned {A} (o : outcome A) : bool := existsb is_spawn (effects o).

Definition nullish (v : value) : bool :=
  match v with
  | VUndef | VNull => true
  | _ => false
  end.

(** A value that is neither an array nor an object. *)
Definition scalar (v : value) : bool :=
  match v with
  | VArr _ | VObj _ => false
  | _ => true
  end.

(** An identifier that is one segment of a path: not empty, no slash, and
    neither [.] nor [..]. *)
Fixpoint slash_free (s : string) : bool :=
  match s with
  | EmptyString => true
  | String c r => negb (Ascii.eqb c "/") && slash_free r
  end.

Definition plain (s : string) : bool :=
  slash_free s && negb (String.eqb s "") && negb (String.eqb s ".")
  && negb (String.eqb s "..").

Definition resolved (o : execa_outcome) : bool :=
  match o with
  | ExecaResolved _ => true
  | ExecaRejected _ => false
  end.

(** The call [runTerraformCommand] makes for the arguments [args]. *)
Definition terraform_call (process_env : gmap string string) (args : list string)
    (envDir : path) (region : string) : execa_call :=
  ExecaCall "terraform" args envDir (terraform_env process_env region).

(** A tool that closes with code 0 and writes nothing. *)
Definition tool_silent : child := Child [Close (Some 0)] (fun fl => fl).

(** * The page

    The React components keep their state in hooks; a handler is modelled
    as the function from the state before to the state after. *)

(** ** Object literals and the request body *)

(** [{...o, [k]: v}] on the properties of [o]: a key the object has keeps
    its place and gets the new value, a new key comes last (the keys of the
    form are not array indices). *)
Fixpoint set_prop (props : list (string * value)) (k : string) (v : value)
    : list (string * value) :=
  match props with
  | [] => [(k, v)]
  | (k', v') :: r =>
      if String.eqb k k' then (k', v) :: r else (k', v') :: set_prop r k v
  end.

(** What [express.json()] hands to the route when the page posts
    [JSON.stringify(v)]: the value the text stands for.  A property that is
    [undefined] is not in the text, an [undefined] in an array is printed
    [null]. *)
Fixpoint sent (v : value) : value :=
  match v with
  | VArr l =>
      VArr ((fix elems (l : list value) : list value :=
               match l with
               | [] => []
               | x :: r =>
                   (match x with
                    | VUndef => VNull
                    | _ => sent x
                    end) :: elems r
               end) l)
  | VObj props =>
      VObj ((fix members (ps : list (string * value)) : list (string * value) :=
               match ps with
               | [] => []
               | (k, x) :: r =>
                   match x with
                   | VUndef => members r
                   | _ => (k, sent x) :: members r
                   end
               end) props)
  | _ => v
  end.

Definition sent_elems (l : list value) : list value :=
  map (fun x => match x with VUndef => VNull | _ => sent x end) l.

Definition sent_props (ps : list (string * value)) : list (string * value) :=
  flat_map (fun kx => match snd kx with
                      | VUndef => []
                      | _ => [(fst kx, sent (snd kx))]
                      end) ps.

(** Induction on a value through its elements and properties. *)
Section ValueInduction.

Variable P : value -> Prop.
Hypothesis P_undef : P VUndef.
Hypothesis P_null : P VNull.
Hypothesis P_bool : forall b, P (VBool b).
Hypothesis P_num : forall z, P (VNum z).
Hypothesis P_str : forall s, P (VStr s).
Hypothesis P_arr : forall l, List.Forall P l -> P (VArr l).
Hypothesis P_obj : forall ps, List.Forall (fun kx => P (snd kx)) ps -> P (VObj ps).

Fixpoint value_induction (v : value) : P v :=
  match v with
  | VUndef => P_undef
  | VNull => P_null
  | VBool b => P_bool b
  | VNum z => P_num z
  | VStr s => P_str s
  | VArr l =>
      P_arr l
        ((fix elems (l : list value) : List.Forall P l :=
            match l with
            | [] => @List.Forall_nil _ P
            | x :: r => @List.Forall_cons _ P x r (value_induction x) (elems r)
            end) l)
  | VObj ps =>
      P_obj ps
        ((fix members (ps : list (string * value))
            : List.Forall (fun kx => P (snd kx)) ps :=
            match ps with
            | [] => @List.Forall_nil _ _
            | kx :: r =>
                @List.Forall_cons _ (fun kx => P (snd kx)) kx r
                  (value_induction (snd kx)) (members r)
            end) ps)
  end.

End ValueInduction.

(** ** The form: [ApplicationForm] *)

Module Form.

(** The state [formData] starts from, as the properties of the object. *)
Definition formData : list (string * value) :=
  [ ("name", VStr "");
    ("environment",
      VObj [ ("type", VStr "api");
             ("executionEnvironment", VStr "aws");
             ("region", VStr "us-east-1") ]);
    ("services", VObj []) ].

(** [handleInputChange(e)] for [e.target] being [{name, value}]. *)
Definition handleInputChange (name value : string) (prev : list (string * Js.value))
    : list (string * Js.value) :=
  if starts_with "environment." name then
    let field := nth 1 (split_on "." name) "undefined" in
    set_prop prev "environment"
      (VObj (set_prop (spread (assoc "environment" prev)) field (VStr value)))
  else set_prop prev name (VStr value).

(** [handleServiceToggle(service)]; [None] is the [TypeError] of
    [prev.services[service]] on a state without services. *)
Definition handleServiceToggle (service : string) (prev : list (string * value))
    : option (list (string * value)) :=
  current ← get_strict (assoc "services" prev) service;
  Some (set_prop prev "services"
          (VObj (set_prop (spread (assoc "services" prev)) service
                   (if truthy current then VUndef
                    else VObj [ ("type",
                                  VStr (if String.eqb service "database" then "postgres"
                                        else if String.eqb service "cache" then "redis"
                                        else "sqs"));
                                ("properties", VObj [("size", VStr "small")]) ])))).

(** The three checkboxes and the service each of them toggles. *)
Inductive checkbox : Type := Database | Cache | MessageQueue.

Definition service_of (b : checkbox) : string :=
  match b with
  | Database => "database"
  | Cache => "cache"
  | MessageQueue => "messageQueue"
  end.

(** What a user does to the form: type in the field [name], pick a region
    in the field [environment.region], tick or untick a box. *)
Inductive action : Type :=
  | TypeName (text : string)
  | SelectRegion (region : string)
  | Toggle (box : checkbox).

Definition step (prev : list (string * value)) (a : action)
    : option (list (string * value)) :=
  match a with
  | TypeName text => Some (handleInputChange "name" text prev)
  | SelectRegion region => Some (handleInputChange "environment.region" region prev)
  | Toggle box => handleServiceToggle (service_of box) prev
  end.

Fixpoint fill (acts : list action) (prev : list (string * value))
    : option (list (string * value)) :=
  match acts with
  | [] => Some prev
  | a :: rest => next ← step prev a; fill rest next
  end.

(** [handleSubmit] hands [formData] to [onSubmit], which posts it: the
    body of the request as the server gets it. *)
Definition submitted (data : list (string * value)) : value := sent (VObj data).

End Form.

(** ** The page: [App] and [TerraformLogs] *)

Module Page.

Record state : Type := State {
  serverStatus : string;
  error : value;
  scoreFile : value;
  config : value;
  terraformStatus : string;
  terraformLogs : list value;
  terraformError : value;
  (** whether the [EventSource] of the last operation is open *)
  listening : bool
}.

(** The state the hooks start with. *)
Definition initial : state :=
  State "idle" VNull VNull VNull "idle" [] VNull false.

(** [response.ok]. *)
Definition ok (code : Z) : bool := (200 <=? code) && (code <? 300).

(** The [message] of the [TypeError] of reading [prop] of [undefined] or
    [null]. *)
Definition type_error (data : value) (prop : string) : string :=
  "Cannot read properties of " +:+ default "" (to_string data)
    +:+ " (reading '" +:+ prop +:+ "')".

(** The [message] of the error [throw new Error(m)] throws: that of the
    new error, or that of the [TypeError] when [m] has no text. *)
Definition new_Error (m : value) : string :=
  match m with
  | VUndef => ""
  | _ => default "Cannot convert object to primitive value" (to_string m)
  end.

(** [handleSubmit(formData)] once the server has answered with the status
    [code] and the JSON body [data]; [caught] is the [catch] block on an
    error with the message [text]. *)
Definition caught (text : string) (s : state) : state :=
  State "error" (VStr text) (scoreFile s) (config s)
    (terraformStatus s) (terraformLogs s) (terraformError s) (listening s).

Definition handleSubmit (formData : value) (code : Z) (data : value) (s : state)
    : state :=
  if negb (ok code) then
    if nullish data then caught (type_error data "message") s
    else caught (new_Error (get data "message")) s
  else if nullish data then caught (type_error data "scoreFile") s
  else
    State "idle" VNull (or_else (get data "scoreFile") VNull) formData
      (terraformStatus s) (terraformLogs s) (terraformError s) (listening s).

(** What [App] renders: the alert on the server, the form or the logs. *)
Definition offline_alert (s : state) : bool := String.eqb (serverStatus s) "error".
Definition shows_form (s : state) : bool := negb (truthy (scoreFile s)).
Definition form_disabled (s : state) : bool :=
  String.eqb (serverStatus s) "processing" || String.eqb (serverStatus s) "error".
(** The alert of the form on [error]. *)
Definition error_alert (s : state) : bool := shows_form s && truthy (error s).

(** The four operations of the page. *)
Inductive operation : Type := OpInit | OpPlan | OpApply | OpDestroy.

Definition status_of (op : operation) : string :=
  match op with
  | OpInit => "initializing"
  | OpPlan => "planning"
  | OpApply => "applying"
  | OpDestroy => "destroying"
  end.

(** [handleTerraformInit], [handleTerraformPlan], [handleTerraformApply]
    and [handleTerraformDestroy] up to the [EventSource] they open: they
    differ in the status they set and the route they ask. *)
Definition handleTerraform (op : operation) (s : state) : state :=
  if negb (truthy (config s)) then s
  else
    State (serverStatus s) (error s) (scoreFile s) (config s)
      (status_of op) [] VNull true.

Definition handleTerraformInit : state -> state := handleTerraform OpInit.
Definition handleTerraformPlan : state -> state := handleTerraform OpPlan.
Definition handleTerraformApply : state -> state := handleTerraform OpApply.
Definition handleTerraformDestroy : state -> state := handleTerraform OpDestroy.

(** [eventSource.onmessage] on [data], the parsed [event.data].  On
    [null] the handler throws before it sets anything. *)
Definition onmessage (data : value) (s : state) : state :=
  if nullish data then s
  else if truthy (get data "error") then
    State (serverStatus s) (error s) (scoreFile s) (config s)
      "error" (terraformLogs s) (get data "error") false
  else if truthy (get data "log") then
    State (serverStatus s) (error s) (scoreFile s) (config s)
      (terraformStatus s) (terraformLogs s ++ [get data "log"]) (terraformError s)
      (listening s)
  else
    match get data "status" with
    | VStr "completed" =>
        State (serverStatus s) (error s) (scoreFile s) (config s)
          "completed" (terraformLogs s) (terraformError s) false
    | _ => s
    end.

(** [eventSource.onerror]. *)
Definition onerror (s : state) : state :=
  State (serverStatus s) (error s) (scoreFile s) (config s)
    "error" (terraformLogs s) (VStr "Connection to server lost") false.

(** [handleCancel]. *)
Definition handleCancel (s : state) : state :=
  State (serverStatus s) VNull VNull VNull "idle" [] VNull (listening s).

(** What the [EventSource] does with the answer of the server.  The
    events of a stream go to [onmessage] one by one, as long as the handlers
    have not closed the source; [onerror] is called when the answer is not
    an event stream, and when the stream ends with the source still open. *)
Inductive arrival : Type :=
  | NoStream
  | Events (events : list value) (ended : bool).

Fixpoint messages (events : list value) (s : state) : state :=
  match events with
  | [] => s
  | data :: rest => if listening s then messages rest (onmessage data s) else s
  end.

Definition deliver (a : arrival) (s : state) : state :=
  match a with
  | NoStream => if listening s then onerror s else s
  | Events events ended =>
      let s' := messages events s in
      if ended && listening s' then onerror s' else s'
  end.

(** *** [TerraformLogs] *)

Definition isProcessing (status : string) : bool :=
  String.eqb status "initializing" || String.eqb status "planning"
  || String.eqb status "applying" || String.eqb status "destroying"
  || String.eqb status "processing".

Definition canPlan (status : string) : bool :=
  String.eqb status "idle" || String.eqb status "completed".

Definition canApply (status : string) : bool := String.eqb status "completed".

(** The [disabled] of the five buttons. *)
Definition init_disabled (status : string) : bool := isProcessing status.
Definition plan_disabled (status : string) : bool :=
  isProcessing status || negb (canPlan status).
Definition apply_disabled (status : string) : bool :=
  isProcessing status || negb (canApply status).
Definition destroy_disabled (status : string) : bool := isProcessing status.
Definition cancel_disabled (status : string) : bool := isProcessing status.

(** The text of the log pane; [None] when a log has no text to join. *)
Definition log_pane (logs : list value) : option string :=
  match logs with
  | [] => Some "No logs available"
  | _ => option_map (String.concat nl) (mapM to_string_or_empty logs)
  end.

End Page.

(** ** Vocabulary of the page *)

(** The answer of the server as the [EventSource] of the page gets it:
    the events are the objects whose JSON text the server wrote. *)
Definition received (a : response) (x : Page.arrival) : Prop :=
  match a, x with
  | Json _ _, Page.NoStream => True
  | EventStream wire ended, Page.Events events ended' =>
      wire = map sse events /\ ended = ended'
  | _, _ => False
  end.

(** What the form holds, as the user sees it: the two fields and the
    three boxes. *)
Record entries : Type := Entries {
  e_name : string;
  e_region : string;
  e_database : bool;
  e_cache : bool;
  e_messageQueue : bool
}.

Definition enter (e : entries) (a : Form.action) : entries :=
  match a with
  | Form.TypeName text =>
      Entries text (e_region e) (e_database e) (e_cache e) (e_messageQueue e)
  | Form.SelectRegion region =>
      Entries (e_name e) region (e_database e) (e_cache e) (e_messageQueue e)
  | Form.Toggle Form.Database =>
      Entries (e_name e) (e_region e) (negb (e_database e)) (e_cache e)
        (e_messageQueue e)
  | Form.Toggle Form.Cache =>
      Entries (e_name e) (e_region e) (e_database e) (negb (e_cache e))
        (e_messageQueue e)
  | Form.Toggle Form.MessageQueue =>
      Entries (e_name e) (e_region e) (e_database e) (e_cache e)
        (negb (e_messageQueue e))
  end.

Definition entered (acts : list Form.action) : entries :=
  fold_left enter acts (Entries "" "us-east-1" false false false).

(** The fragments of the boxes the server's renderer knows. *)
Definition ticked (e : entries) : list (string * string) :=
  (if e_database e then [("database", "postgres")] else [])
  ++ (if e_cache e then [("cache", "redis")] else []).

Definition nonempty (s : string) : bool := negb (String.eqb s "").

(** The form in the state a user has brought it to: the three properties
    in the order of the initial state, the environment with the type and the
    execution environment the form starts with, and a services object in
    which a key is set to an object exactly when its box is ticked. *)
Definition shows (data : list (string * value)) (e : entries) : Prop :=
  exists services,
    data
    = [ ("name", VStr (e_name e));
        ("environment",
          VObj [ ("type", VStr "api");
                 ("executionEnvironment", VStr "aws");
                 ("region", VStr (e_region e)) ]);
        ("services", VObj services) ]
    /\ List.NoDup (map fst services)
    /\ forall k,
         truthy (assoc k services)
         = (String.eqb k "database" && e_database e)
           || (String.eqb k "cache" && e_cache e)
           || (String.eqb k "messageQueue" && e_messageQueue e).

(** Whether the event that ends a run is the close with code 0, and the
    text of the error the run ends with otherwise. *)
Definition succeeded (t : proc_event) : bool :=
  match t with
  | Close (Some 0) => true
  | _ => false
  end.

Definition failure_text (pre : list proc_event) (t : proc_event) : string :=
  match t with
  | Close code => message (exit_error (stderr_text pre) code)
  | SpawnError err => message err
  | _ => ""
  end.

(** The five buttons of [TerraformLogs], in the order init, plan, apply,
    destroy, cancel: which of them are disabled. *)
Definition buttons_disabled (s : Page.state) : list bool :=
  [ Page.init_disabled (Page.terraformStatus s);
    Page.plan_disabled (Page.terraformStatus s);
    Page.apply_disabled (Page.terraformStatus s);
    Page.destroy_disabled (Page.terraformStatus s);
    Page.cancel_disabled (Page.terraformStatus s) ].

(** A page on which a score file has been generated. *)
Definition page_with_score : Page.state :=
  Page.State "idle" VNull (VStr "{}") (VObj [("name", VStr "shop")]) "idle" [] VNull
    false.

(** * Properties *)

(** ** Text search *)

Lemma app_nil_s (b : string) : "" +:+ b = b.
Proof. reflexivity. Qed.

Lemma app_cons_s (c : ascii) (a b : string) : String c a +:+ b = String c (a +:+ b).
Proof. reflexivity. Qed.

Lemma app_assoc_s (a b c : string) : (a +:+ b) +:+ c = a +:+ b +:+ c.
Proof.
  induction a as [|x a IH]; [reflexivity |].
  now rewrite !app_cons_s, IH.
Qed.

Lemma starts_with_spec (p s : string) :
  starts_with p s = true <-> exists b, s = p +:+ b.
Proof.
  revert s. induction p as [|a p IH]; intros s; simpl.
  - split; [intros _; now exists s | reflexivity].
  - destruct s as [|b s]; simpl.
    + split; [discriminate | intros [r Hr]; discriminate].
    + rewrite andb_true_iff, Ascii.eqb_eq, IH. split.
      * intros [-> [r ->]]. now exists r.
      * intros [r Hr]. injection Hr as -> ->. split; [reflexivity | now exists r].
Qed.

Lemma includes_spec (p s : string) :
  includes p s = true <-> exists a b, s = a +:+ p +:+ b.
Proof.
  induction s as [|c s IH]; simpl.
  - rewrite orb_false_r, starts_with_spec. split.
    + intros [b Hb]. now exists EmptyString, b.
    + intros [a [b Hab]]. destruct a as [|x a]; [now exists b | discriminate].
  - rewrite orb_true_iff, starts_with_spec, IH. split.
    + intros [[b Hb] | [a [b Hab]]].
      * now exists EmptyString, b.
      * exists (String c a), b. now rewrite app_cons_s, Hab.
    + intros [a [b Hab]]. destruct a as [|x a]; [rewrite app_nil_s in Hab | rewrite app_cons_s in Hab].
      * left. now exists b.
      * right. injection Hab as _ ->. now exists a, b.
Qed.

Lemma includes_app_l (p a b : string) :
  includes p a = true -> includes p (a +:+ b) = true.
Proof.
  rewrite !includes_spec. intros [x [y ->]].
  exists x, (y +:+ b). now rewrite !app_assoc_s.
Qed.

Lemma includes_app_r (p a b : string) :
  includes p b = true -> includes p (a +:+ b) = true.
Proof.
  rewrite !includes_spec. intros [x [y ->]].
  exists (a +:+ x), y. now rewrite !app_assoc_s.
Qed.

Lemma join_lines_cons (l : string) (ls : list string) :
  ls <> [] -> join_lines (l :: ls) = l +:+ nl +:+ join_lines ls.
Proof. destruct ls; [congruence | reflexivity]. Qed.

Lemma includes_join_here (p l : string) (ls : list string) :
  includes p l = true -> includes p (join_lines (l :: ls)) = true.
Proof.
  intros H. destruct ls as [|l' ls]; [exact H |].
  rewrite join_lines_cons by discriminate. now apply includes_app_l.
Qed.

Lemma includes_join_later (p l : string) (ls : list string) :
  includes p (join_lines ls) = true -> includes p (join_lines (l :: ls)) = true.
Proof.
  intros H. destruct ls as [|l' ls].
  - destruct p; [now destruct l | discriminate].
  - rewrite join_lines_cons by discriminate.
    apply includes_app_r. now apply includes_app_r.
Qed.

Lemma includes_join_nth (p : string) (ls : list string) (n : nat) (l : string) :
  nth_error ls n = Some l -> includes p l = true ->
  includes p (join_lines ls) = true.
Proof.
  revert ls. induction n as [|n IH]; intros [|l' ls]; cbn [nth_error];
    try discriminate.
  - intros [= ->]. apply includes_join_here.
  - intros Hn Hl. apply includes_join_later. now apply IH.
Qed.

(** Looks for a line of the template that holds the text searched for. *)
Ltac find_line_from p all rest n :=
  lazymatch rest with
  | ?l :: ?rest' =>
      let found := eval vm_compute in (includes p l) in
      lazymatch found with
      | true =>
          apply (includes_join_nth p all n l);
            [reflexivity | vm_compute; reflexivity]
      | _ => find_line_from p all rest' (S n)
      end
  end.

Ltac find_line :=
  lazymatch goal with
  | |- includes ?p (join_lines ?ls) = true => find_line_from p ls ls O
  end.

(** ** The supervisor *)

Lemma app_nil_r_s (a : string) : a +:+ "" = a.
Proof.
  induction a as [|c a IH]; [reflexivity |].
  now rewrite app_cons_s, IH.
Qed.

Section Supervisor.

Variable callbacks : promise -> stream -> stream.

Let run_from := fold_left (on_event callbacks).

Lemma settle_settled (p : promise) (st : run_state) :
  settled st <> Pending -> settle callbacks p st = st.
Proof. unfold settle. destruct (settled st); congruence. Qed.

Lemma settle_pending (p : promise) (st : run_state) :
  settled st = Pending -> settled (settle callbacks p st) = p.
Proof. unfold settle. now intros ->. Qed.

Lemma on_event_settled (ev : proc_event) (st : run_state) :
  settled st <> Pending -> settled (on_event callbacks st ev) = settled st.
Proof.
  intros Hst. destruct ev as [data | data | code | err]; cbn [on_event settled];
    try reflexivity.
  - destruct code as [[| |]|]; now rewrite settle_settled.
  - now rewrite settle_settled.
Qed.

Lemma settled_stays (evs : list proc_event) (st : run_state) :
  settled st <> Pending -> settled (run_from evs st) = settled st.
Proof.
  revert st. induction evs as [|ev evs IH]; intros st Hst; [reflexivity |].
  unfold run_from in *. cbn [fold_left].
  rewrite IH; rewrite on_event_settled; auto.
Qed.

Lemma run_outputs (pre : list proc_event) (st : run_state) :
  outputs_only pre ->
  settled (run_from pre st) = settled st
  /\ error (run_from pre st) = error st +:+ stderr_text pre.
Proof.
  intros Hpre. revert st.
  induction Hpre as [|ev pre Hev _ IH]; intros st.
  - split; [reflexivity | now rewrite app_nil_r_s].
  - unfold run_from in *. cbn [fold_left].
    destruct ev as [data | data | code | err]; try discriminate;
      destruct (IH (on_event callbacks st (Stdout data))) as [IHs IHe];
      destruct (IH (on_event callbacks st (Stderr data))) as [IHs' IHe'];
      cbn [on_event settled error stderr_text] in *.
    + now split.
    + split; [assumption |]. now rewrite IHe', app_assoc_s.
Qed.

Lemma run_app (pre post : list proc_event) (st : run_state) :
  run_from (pre ++ post) st = run_from post (run_from pre st).
Proof. unfold run_from. apply fold_left_app. Qed.

(** The promise after a first terminal event [t] that follows outputs. *)
Lemma run_first_terminal (pre post : list proc_event) (t : proc_event) (r : stream) :
  outputs_only pre -> is_output t = false ->
  settled (runCommandWithStream callbacks (pre ++ t :: post) r)
  = match t with
    | Close (Some 0) => Resolved
    | Close code => Rejected (exit_error (stderr_text pre) code)
    | SpawnError err => Rejected err
    | _ => Pending
    end.
Proof.
  intros Hpre Ht. unfold runCommandWithStream. fold run_from.
  rewrite run_app.
  destruct (run_outputs pre (RunState "" Pending r) Hpre) as [Hs He].
  cbn [settled error] in Hs, He. rewrite app_nil_s in He.
  set (st := run_from pre (RunState "" Pending r)) in *.
  change (run_from (t :: post) st) with (run_from post (on_event callbacks st t)).
  assert (Hnow : settled (on_event callbacks st t)
                 = match t with
                   | Close (Some 0) => Resolved
                   | Close code => Rejected (exit_error (stderr_text pre) code)
                   | SpawnError err => Rejected err
                   | _ => Pending
                   end).
  { destruct t as [data | data | code | err]; try discriminate; cbn [on_event].
    - destruct code as [[| |]|]; rewrite settle_pending by assumption;
        unfold exit_error; now rewrite ?He.
    - now rewrite settle_pending. }
  rewrite settled_stays; [exact Hnow |].
  rewrite Hnow. destruct t as [data | data | [[| |]|] | err]; discriminate.
Qed.

Lemma run_pending (evs : list proc_event) (r : stream) :
  outputs_only evs -> settled (runCommandWithStream callbacks evs r) = Pending.
Proof.
  intros H.
  destruct (run_outputs evs (RunState "" Pending r) H) as [Hs _]. exact Hs.
Qed.

End Supervisor.

(** An event list is outputs only, or has a first terminal event. *)
Lemma first_terminal (evs : list proc_event) :
  outputs_only evs
  \/ exists pre t post,
      evs = pre ++ t :: post /\ outputs_only pre /\ is_output t = false.
Proof.
  induction evs as [|ev evs IH].
  - left. constructor.
  - destruct (is_output ev) eqn:Hev.
    + destruct IH as [IH | (pre & t & post & -> & Hpre & Ht)].
      * left. now constructor.
      * right. exists (ev :: pre), t, post. repeat split; [|assumption].
        now constructor.
    + right. exists [], ev, evs. repeat split; [constructor | assumption].
Qed.

(** C5. The promise of [runCommandWithStream] resolves exactly when the
    first [close] or [error] of the child is a [close] with code 0.  A first
    [close] with another code rejects with an error whose message is the
    standard-error text written until then, or, when that text is empty,
    the sentence naming the exit code; a first [error] rejects with that
    error. *)
Theorem runCommandWithStream_outcome
    (callbacks : promise -> stream -> stream) (evs : list proc_event) (r : stream) :
  (settled (runCommandWithStream callbacks evs r) = Resolved
   <-> exists pre post, evs = pre ++ Close (Some 0) :: post /\ outputs_only pre)
  /\ (forall pre code post,
        evs = pre ++ Close code :: post -> outputs_only pre -> code <> Some 0 ->
        settled (runCommandWithStream callbacks evs r)
        = Rejected
            (Error (if String.eqb (stderr_text pre) ""
                    then "Process exited with code " +:+ show_code code
                    else stderr_text pre)))
  /\ (forall pre err post,
        evs = pre ++ SpawnError err :: post -> outputs_only pre ->
        settled (runCommandWithStream callbacks evs r) = Rejected err).
Proof.
  split; [split |split].
  - intros Hres.
    destruct (first_terminal evs) as [Hall | (pre & t & post & -> & Hpre & Ht)].
    + rewrite run_pending in Hres by assumption. discriminate.
    + rewrite run_first_terminal in Hres by assumption.
      destruct t as [data | data | [[| |]|] | err]; try discriminate.
      now exists pre, post.
  - intros (pre & post & -> & Hpre). now rewrite run_first_terminal.
  - intros pre code post -> Hpre Hcode. rewrite run_first_terminal by auto.
    destruct code as [[| |]|]; try reflexivity. congruence.
  - intros pre err post -> Hpre. now rewrite run_first_terminal.
Qed.

Lemma runCommandWithStream_outcome_witness :
  settled (runCommandWithStream finish_feed
             [Stdout "Initializing"; Stderr "Error: no configuration"; Close (Some 1)]
             (Stream [] false))
  = Rejected (Error "Error: no configuration")
  /\ settled (runCommandWithStream finish_feed
                [Stdout "Initializing"; Close (Some 0); Stderr "late"]
                (Stream [] false))
     = Resolved
  /\ settled (runCommandWithStream finish_feed
                [SpawnError (Error "spawn terraform ENOENT"); Close (Some (-2))]
                (Stream [] false))
     = Rejected (Error "spawn terraform ENOENT").
Proof.
  split; [|split].
  - destruct (runCommandWithStream_outcome finish_feed
                [Stdout "Initializing"; Stderr "Error: no configuration"; Close (Some 1)]
                (Stream [] false)) as [_ [Hclose _]].
    apply (Hclose [Stdout "Initializing"; Stderr "Error: no configuration"]
             (Some 1) []).
    + reflexivity.
    + repeat constructor.
    + discriminate.
  - destruct (runCommandWithStream_outcome finish_feed
                [Stdout "Initializing"; Close (Some 0); Stderr "late"]
                (Stream [] false)) as [[_ Hres] _].
    apply Hres. exists [Stdout "Initializing"], [Stderr "late"].
    split; [reflexivity | repeat constructor].
  - destruct (runCommandWithStream_outcome finish_feed
                [SpawnError (Error "spawn terraform ENOENT"); Close (Some (-2))]
                (Stream [] false)) as [_ [_ Hspawn]].
    apply (Hspawn [] (Error "spawn terraform ENOENT") [Close (Some (-2))]).
    + reflexivity.
    + constructor.
Defined.

(** C5, as the specification states it, fails: two runs that write the same
    text to standard error and exit with different codes reject with the same
    error, so the error does not carry the exit code. *)
Lemma exit_code_not_carried :
  settled (runCommandWithStream finish_feed [Stderr "boom"; Close (Some 1)]
             (Stream [] false))
  = Rejected (Error "boom")
  /\ settled (runCommandWithStream finish_feed [Stderr "boom"; Close (Some 2)]
                (Stream [] false))
     = Rejected (Error "boom")
  /\ includes "1" "boom" = false
  /\ includes "2" "boom" = false.
Proof. repeat split; reflexivity. Qed.

(** ** The event feed *)

Lemma closing_event_terminal (p : promise) : terminal (closing_event p) = true.
Proof. now destruct p. Qed.

Lemma forallb_snoc {A} (f : A -> bool) (l : list A) (x : A) :
  forallb f l = true -> f x = true -> forallb f (l ++ [x]) = true.
Proof.
  intros Hl Hx. rewrite forallb_app, Hl. cbn. now rewrite Hx.
Qed.

Lemma feed_inv_write (st : run_state) (err : string) (data : string) :
  feed_inv st ->
  feed_inv (RunState err (settled st) (res_write (sse (log_event data)) (res st))).
Proof.
  intros (logs & Hlogs & Hst). unfold feed_inv. cbn [settled res].
  destruct (settled st); rewrite Hst; unfold res_write; cbn [ended_of wire_of].
  - exists (logs ++ [log_event data]). split; [now apply forallb_snoc |].
    now rewrite map_app.
  - now exists logs.
  - now exists logs.
Qed.

Lemma feed_inv_settle (st : run_state) (p : promise) :
  p <> Pending -> feed_inv st -> feed_inv (settle finish_feed p st).
Proof.
  intros Hp Hinv. unfold settle.
  destruct (settled st) eqn:Hs; [| exact Hinv | exact Hinv].
  destruct Hinv as (logs & Hlogs & Hst). rewrite Hs in Hst.
  exists logs. split; [assumption |]. cbn [settled res]. rewrite Hst.
  destruct p as [| | e]; [congruence | |];
    unfold finish_feed, res_end, res_write; cbn [ended_of wire_of];
    now rewrite map_app.
Qed.

Lemma feed_inv_step (st : run_state) (ev : proc_event) :
  feed_inv st -> feed_inv (on_event finish_feed st ev).
Proof.
  intros Hinv. destruct ev as [data | data | code | err]; cbn [on_event].
  - now apply feed_inv_write.
  - now apply feed_inv_write.
  - destruct code as [[| |]|]; now apply feed_inv_settle.
  - now apply feed_inv_settle.
Qed.

Lemma feed_inv_run (evs : list proc_event) :
  feed_inv (runCommandWithStream finish_feed evs (Stream [] false)).
Proof.
  unfold runCommandWithStream.
  assert (H0 : feed_inv (RunState "" Pending (Stream [] false))).
  { now exists []. }
  revert H0. generalize (RunState "" Pending (Stream [] false)).
  induction evs as [|ev evs IH]; intros st Hst; [exact Hst |].
  cbn [fold_left]. apply IH. now apply feed_inv_step.
Qed.

(** The stream of a lifecycle route, by the state of the promise. *)
Lemma feed_of_shape (c : child) :
  exists logs,
    forallb is_log logs = true
    /\ feed_of c
       = match settled (runCommandWithStream finish_feed (events c) (Stream [] false)) with
         | Pending => EventStream (map sse logs) false
         | p => EventStream (map sse (logs ++ [closing_event p])) true
         end.
Proof.
  destruct (feed_inv_run (events c)) as (logs & Hlogs & Hst).
  exists logs. split; [assumption |]. unfold feed_of.
  destruct (settled _); now rewrite Hst.
Qed.

(** ** The lifecycle routes *)

Ltac unfold_monad :=
  unfold bind, ret, throw, try_catch, existsSync, existsSync_as, mkdirSync,
    writeFileSync,
    readFileSync, chdir, stream_command, processes_get, with_files in *;
  cbn [preceded returned after effects files processes cwd app] in *.

Section Routes.

Variable dirname : path.

Lemma is_dir_exists (fl : gmap path node) (p : path) :
  is_dir fl p = true -> exists_in fl p = true.
Proof.
  unfold is_dir, exists_in. destruct p; [reflexivity |].
  destruct (fl !! _) as [[|]|]; congruence.
Qed.

(** A lifecycle route, case by case: no session identifier, no directory,
    something that is not a directory, a directory. *)
Lemma lifecycle_route_none (args : list string) (c : child) (w : world) :
  lifecycle_route dirname args None c w
  = Outcome (Ok (Json 400 (VObj [("error", VStr "Session ID is required")]))) w [].
Proof. reflexivity. Qed.

Lemma lifecycle_route_empty (args : list string) (c : child) (w : world) :
  lifecycle_route dirname args (Some "") c w
  = Outcome (Ok (Json 400 (VObj [("error", VStr "Session ID is required")]))) w [].
Proof. reflexivity. Qed.

Lemma session_exists_absent (fl : gmap path node) (sid : string) :
  exists_in fl (session_dir dirname sid) = false ->
  session_exists dirname fl sid = false.
Proof.
  intros Hd. unfold session_exists, exists_as.
  destruct (session_dir_slash sid); [| exact Hd].
  destruct (is_dir fl (session_dir dirname sid)) eqn:Hdir; [| reflexivity].
  apply is_dir_exists in Hdir. congruence.
Qed.

Lemma session_exists_dir (fl : gmap path node) (sid : string) :
  is_dir fl (session_dir dirname sid) = true ->
  session_exists dirname fl sid = true.
Proof.
  intros Hd. unfold session_exists, exists_as.
  destruct (session_dir_slash sid); [exact Hd | now apply is_dir_exists].
Qed.

Lemma trailing_separator_last (a b : string) :
  b <> "" -> trailing_separator [a; b] = ends_with_slash b.
Proof.
  intros Hb. apply String.eqb_neq in Hb. unfold trailing_separator.
  cbn [fold_left]. now rewrite Hb.
Qed.

Lemma session_exists_slash (fl : gmap path node) (sid : string) :
  sid <> "" ->
  session_exists dirname fl sid
  = if ends_with_slash sid then is_dir fl (session_dir dirname sid)
    else exists_in fl (session_dir dirname sid).
Proof.
  intros Hsid. unfold session_exists, exists_as, session_dir_slash.
  now rewrite (trailing_separator_last _ _ Hsid).
Qed.

Lemma lifecycle_route_absent (args : list string) (sid : string) (c : child)
    (w : world) :
  sid <> "" ->
  session_exists dirname (files w) sid = false ->
  lifecycle_route dirname args (Some sid) c w
  = Outcome
      (Ok (Json 400 (VObj [("error", VStr "Environment directory not found")])))
      w [EExists (session_dir dirname sid)].
Proof.
  intros Hsid Hd. unfold lifecycle_route, missing.
  apply String.eqb_neq in Hsid. rewrite Hsid.
  unfold_monad. fold (session_exists dirname (files w) sid). rewrite Hd.
  reflexivity.
Qed.

Lemma lifecycle_route_not_dir (args : list string) (sid : string) (c : child)
    (w : world) :
  sid <> "" ->
  session_exists dirname (files w) sid = true ->
  is_dir (files w) (session_dir dirname sid) = false ->
  exists e,
    lifecycle_route dirname args (Some sid) c w
    = Outcome (Throw e) w
        [EExists (session_dir dirname sid); EChdir (session_dir dirname sid)].
Proof.
  intros Hsid Hd Hf. unfold lifecycle_route, missing.
  apply String.eqb_neq in Hsid. rewrite Hsid.
  unfold_monad. fold (session_exists dirname (files w) sid). rewrite Hd.
  cbn. rewrite Hf. cbn. eauto.
Qed.

Lemma lifecycle_route_dir (args : list string) (sid : string) (c : child)
    (w : world) :
  sid <> "" ->
  is_dir (files w) (session_dir dirname sid) = true ->
  lifecycle_route dirname args (Some sid) c w
  = Outcome (Ok (feed_of c))
      (World (leaves c (files w)) (processes w) (session_dir dirname sid))
      [EExists (session_dir dirname sid); EChdir (session_dir dirname sid);
       ESpawn "terraform" args (session_dir dirname sid)].
Proof.
  intros Hsid Hd. unfold lifecycle_route, missing.
  apply String.eqb_neq in Hsid. rewrite Hsid.
  unfold_monad. fold (session_exists dirname (files w) sid).
  rewrite (session_exists_dir _ _ Hd). cbn. rewrite Hd. reflexivity.
Qed.

End Routes.

(** ** The logic of the handlers *)

Lemma spec_ret {A} (a : A) (R : A -> Prop) (E : effect -> Prop) :
  R a -> handler_spec (ret a) R E.
Proof.
  intros Ha w. repeat split; [constructor |].
  intros a' [= <-]. exact Ha.
Qed.

Lemma spec_throw {A} (e : exn) (R : A -> Prop) (E : effect -> Prop) :
  handler_spec (throw e) R E.
Proof. intros w. repeat split; [constructor | discriminate]. Qed.

Lemma spec_bind {A B} (m : M A) (k : A -> M B) (R1 : A -> Prop) (R : B -> Prop)
    (E : effect -> Prop) :
  handler_spec m R1 E -> (forall a, R1 a -> handler_spec (k a) R E) ->
  handler_spec (bind m k) R E.
Proof.
  intros Hm Hk w. destruct (Hm w) as (Hp & He & Hr). unfold bind.
  destruct (m w) as [[a | e] w' es]; cbn [returned after effects] in *.
  - destruct (Hk a (Hr a eq_refl) w') as (Hp' & He' & Hr').
    destruct (k a w') as [r w'' es']; cbn [preceded returned after effects] in *.
    repeat split.
    + now rewrite Hp'.
    + apply Forall_app. now split.
    + exact Hr'.
  - repeat split; [assumption | assumption | discriminate].
Qed.

Lemma spec_try_catch {A} (m : M A) (h : exn -> M A) (R : A -> Prop)
    (E : effect -> Prop) :
  handler_spec m R E -> (forall e, handler_spec (h e) R E) ->
  handler_spec (try_catch m h) R E.
Proof.
  intros Hm Hh w. destruct (Hm w) as (Hp & He & Hr). unfold try_catch.
  destruct (m w) as [[a | e] w' es]; cbn [returned after effects] in *.
  - repeat split; assumption.
  - destruct (Hh e w') as (Hp' & He' & Hr').
    destruct (h e w') as [r w'' es']; cbn [preceded returned after effects] in *.
    repeat split.
    + now rewrite Hp'.
    + apply Forall_app. now split.
    + exact Hr'.
Qed.

Lemma spec_weaken {A} (m : M A) (R R' : A -> Prop) (E : effect -> Prop) :
  handler_spec m R E -> (forall a, R a -> R' a) -> handler_spec m R' E.
Proof.
  intros Hm HR w. destruct (Hm w) as (Hp & He & Hr).
  repeat split; [assumption | assumption |]. intros a Ha. apply HR. now apply Hr.
Qed.

Lemma spec_existsSync_as (dir : bool) (p : path) (E : effect -> Prop) :
  E (EExists p) -> handler_spec (existsSync_as dir p) (fun _ => True) E.
Proof. intros He w. repeat split. now repeat constructor. Qed.

Lemma spec_existsSync (p : path) (E : effect -> Prop) :
  E (EExists p) -> handler_spec (existsSync p) (fun _ => True) E.
Proof. intros He w. repeat split. now repeat constructor. Qed.

Lemma spec_mkdirSync (p : path) (E : effect -> Prop) :
  E (EMkdir p) -> handler_spec (mkdirSync p) (fun _ => True) E.
Proof.
  intros He w. unfold mkdirSync.
  destruct (mkdir_p p (files w)); repeat split; now repeat constructor.
Qed.

Lemma spec_writeFileSync (p : path) (data : string) (E : effect -> Prop) :
  E (EWrite p data) -> handler_spec (writeFileSync p data) (fun _ => True) E.
Proof.
  intros He w. unfold writeFileSync.
  destruct (write_file p data (files w)); repeat split; now repeat constructor.
Qed.

Lemma spec_readFileSync (p : path) (E : effect -> Prop) :
  E (ERead p) -> handler_spec (readFileSync p) (fun _ => True) E.
Proof.
  intros He w. unfold readFileSync.
  destruct (read_file p (files w)); repeat split; now repeat constructor.
Qed.

Lemma spec_chdir (p : path) (E : effect -> Prop) :
  E (EChdir p) -> handler_spec (chdir p) (fun _ => True) E.
Proof.
  intros He w. unfold chdir.
  destruct (is_dir (files w) p); repeat split; now repeat constructor.
Qed.

Lemma spec_stream_command (command : string) (args : list string) (dir : path)
    (c : child) (E : effect -> Prop) :
  E (ESpawn command args dir) ->
  handler_spec (stream_command command args dir c) (fun a => a = feed_of c) E.
Proof.
  intros He w. repeat split; [now repeat constructor |].
  now intros a [= <-].
Qed.

(** Takes a handler apart along its binds and branches. *)
Ltac spec_step :=
  match goal with
  | |- handler_spec (bind (existsSync _) _) _ _ =>
      eapply spec_bind; [apply spec_existsSync | intros ? _]
  | |- handler_spec (bind (existsSync_as _ _) _) _ _ =>
      eapply spec_bind; [apply spec_existsSync_as | intros ? _]
  | |- handler_spec (bind (mkdirSync _) _) _ _ =>
      eapply spec_bind; [apply spec_mkdirSync | intros ? _]
  | |- handler_spec (bind (writeFileSync _ _) _) _ _ =>
      eapply spec_bind; [apply spec_writeFileSync | intros ? _]
  | |- handler_spec (bind (readFileSync _) _) _ _ =>
      eapply spec_bind; [apply spec_readFileSync | intros ? _]
  | |- handler_spec (bind (chdir _) _) _ _ =>
      eapply spec_bind; [apply spec_chdir | intros ? _]
  | |- handler_spec (bind (if _ then _ else _) _) _ _ =>
      eapply spec_bind with (R1 := fun _ => True); [| intros ? _]
  | |- handler_spec (try_catch _ _) _ _ => apply spec_try_catch; [| intros ?]
  | |- handler_spec (if ?b then _ else _) _ _ => destruct b eqn:?
  | |- handler_spec (match ?x with _ => _ end) _ _ => destruct x eqn:?
  | |- handler_spec (ret _) _ _ => apply spec_ret
  | |- handler_spec (throw _) _ _ => apply spec_throw
  | |- handler_spec (mkdirSync _) _ _ => apply spec_mkdirSync
  | |- handler_spec (stream_command _ _ _ _) _ _ =>
      eapply spec_weaken; [apply spec_stream_command |]
  end.

(** ** Every request *)

Lemma serve_spec (dirname : path) (r : request) :
  handler_spec (serve dirname r) (answer_of r) (fun _ => True).
Proof.
  unfold serve, route.
  destruct r as [body | sid reg c | sid c | sid c | sid c | sid | sid |];
    unfold api_generate, api_terraform_init, api_terraform_plan,
      api_terraform_apply, api_terraform_destroy, lifecycle_route, api_score,
      api_status, api_health, sendResponse;
    repeat spec_step;
    try exact I;
    try (left; eexists _, _; reflexivity);
    try (intros ? ->; right; eexists; split; reflexivity).
  - eapply spec_bind with (R1 := fun _ => True).
    + intros w. repeat split. constructor.
    + intros [entry|] _; apply spec_ret; left; eexists _, _; reflexivity.
Qed.

Lemma serve_total (dirname : path) (r : request) (w : world) :
  exists a, returned (serve dirname r w) = Ok a.
Proof.
  unfold serve, try_catch.
  destruct (route dirname r w) as [[a | e] w' es]; cbn; eauto.
Qed.

Lemma serve_all_store (dirname : path) (rs : list request) (w : world) :
  processes (fst (serve_all dirname rs w)) = processes w.
Proof.
  revert w. induction rs as [|r rs IH]; intros w; [reflexivity |].
  cbn [serve_all].
  destruct (serve_all dirname rs (after (serve dirname r w))) as [w' answers] eqn:Hrest.
  cbn [fst]. specialize (IH (after (serve dirname r w))).
  rewrite Hrest in IH. cbn [fst] in IH. rewrite IH.
  now destruct (serve_spec dirname r w) as [-> _].
Qed.

Lemma serve_ok (dirname : path) (r : request) (w w' : world) (a : response)
    (es : list effect) :
  route dirname r w = Outcome (Ok a) w' es ->
  serve dirname r w = Outcome (Ok a) w' es.
Proof. intros H. unfold serve, try_catch. now rewrite H. Qed.

Lemma filter_terminal_logs (logs : list value) :
  forallb is_log logs = true -> List.filter terminal logs = [].
Proof.
  induction logs as [|e logs IH]; [reflexivity |].
  cbn [forallb]. rewrite andb_true_iff. intros [He Hl].
  unfold is_log in He. rewrite andb_true_iff, negb_true_iff in He.
  destruct He as [_ He]. cbn [List.filter]. rewrite He. now apply IH.
Qed.

(** ** The feed of a lifecycle request *)

(** ** The apply route *)

(** C3 as amended.  The apply route is let through when the working
    directory of the session is on disk, which it looks up in the file
    system (with [fs.existsSync], for which a path written with a slash at
    its end is there only as a directory) before the tool is started:
    without the directory the request is answered 400 and nothing is
    spawned; with a file in its place the request is answered 500 and
    nothing is spawned; with the directory the tool is spawned, whether or
    not a plan artifact is there. *)
Theorem apply_checks_the_directory_only (dirname : path) (sid : string)
    (c : child) (w : world) :
  sid <> "" ->
  (session_exists dirname (files w) sid = false ->
   serve dirname (Apply (Some sid) c) w
   = Outcome
       (Ok (Json 400 (VObj [("error", VStr "Environment directory not found")])))
       w [EExists (session_dir dirname sid)])
  /\ (session_exists dirname (files w) sid = true ->
      is_dir (files w) (session_dir dirname sid) = false ->
      serve dirname (Apply (Some sid) c) w
      = Outcome
          (Ok (sendResponse 500 [("error", VStr "Internal server error")]))
          w [EExists (session_dir dirname sid); EChdir (session_dir dirname sid)])
  /\ (is_dir (files w) (session_dir dirname sid) = true ->
      returned (serve dirname (Apply (Some sid) c) w) = Ok (feed_of c)
      /\ effects (serve dirname (Apply (Some sid) c) w)
         = [EExists (session_dir dirname sid); EChdir (session_dir dirname sid);
            ESpawn "terraform" ["apply"; "-auto-approve"; "tfplan"]
              (session_dir dirname sid)])
  /\ session_exists dirname (files w) sid
     = if ends_with_slash sid then is_dir (files w) (session_dir dirname sid)
       else exists_in (files w) (session_dir dirname sid).
Proof.
  intros Hsid. split; [| split; [| split]].
  - intros Hd. apply serve_ok. now apply lifecycle_route_absent.
  - intros Hd Hf.
    destruct (lifecycle_route_not_dir dirname ["apply"; "-auto-approve"; "tfplan"]
                sid c w Hsid Hd Hf) as [e He].
    unfold serve, try_catch. cbn [route]. unfold api_terraform_apply.
    rewrite He. reflexivity.
  - intros Hd. erewrite serve_ok; [| now apply lifecycle_route_dir].
    split; reflexivity.
  - now apply session_exists_slash.
Qed.

Lemma apply_checks_the_directory_only_witness :
  serve srv (Apply (Some "s2") tool_ok) after_init
  = Outcome
      (Ok (Json 400 (VObj [("error", VStr "Environment directory not found")])))
      after_init [EExists (session_dir srv "s2")]
  /\ serve srv (Apply (Some "s1/main.tf/") tool_ok) after_init
     = Outcome
         (Ok (Json 400 (VObj [("error", VStr "Environment directory not found")])))
         after_init [EExists (session_dir srv "s1/main.tf/")]
  /\ returned (serve srv (Apply (Some "s1") tool_ok) after_init) = Ok (feed_of tool_ok)
  /\ effects (serve srv (Apply (Some "s1") tool_ok) after_init)
     = [EExists (session_dir srv "s1"); EChdir (session_dir srv "s1");
        ESpawn "terraform" ["apply"; "-auto-approve"; "tfplan"] (session_dir srv "s1")].
Proof.
  split; [| split].
  - apply (apply_checks_the_directory_only srv "s2" tool_ok after_init);
      [discriminate | vm_compute; reflexivity].
  - apply (apply_checks_the_directory_only srv "s1/main.tf/" tool_ok after_init);
      [discriminate | vm_compute; reflexivity].
  - destruct (apply_checks_the_directory_only srv "s1" tool_ok after_init)
      as (_ & _ & Hdir & _); [discriminate |].
    apply Hdir. vm_compute. reflexivity.
Defined.

(** C3, as the specification states it, fails: after an init and no plan
    there is no plan artifact in the working directory, and the apply route
    starts the tool all the same. *)
Lemma apply_without_plan_is_spawned :
  files after_init !! (session_dir srv "s1" ++ ["tfplan"]) = None
  /\ In (ESpawn "terraform" ["apply"; "-auto-approve"; "tfplan"] (session_dir srv "s1"))
       (effects (serve srv (Apply (Some "s1") tool_ok) after_init))
  /\ returned (serve srv (Apply (Some "s1") tool_ok) after_init)
     = Ok (EventStream
             [sse (log_event "Terraform has been successfully initialized!");
              sse completed_event]
             true).
Proof.
  split; [vm_compute; reflexivity |]. split.
  - vm_compute. right. right. left. reflexivity.
  - vm_compute. reflexivity.
Qed.

(** ** The session store *)

Lemma serve_status (dirname : path) (w : world) (sid : string) :
  serve dirname (Status sid) w
  = Outcome
      (Ok match processes w !! sid with
          | Some entry =>
              Json 200
                (VObj [("status", VStr (status entry));
                       ("logs", VArr (map VStr (logs entry)))])
          | None => Json 404 (VObj [("error", VStr "Session not found")])
          end)
      w [].
Proof.
  apply serve_ok. cbn [route]. unfold api_status. unfold_monad.
  now destruct (processes w !! sid).
Qed.

Lemma serve_keeps_store (dirname : path) (r : request) (w : world) :
  processes (after (serve dirname r w)) = processes w.
Proof. now destruct (serve_spec dirname r w) as [-> _]. Qed.

Lemma status_on_started_server (dirname : path) (fl : gmap path node) (dir : path)
    (rs : list request) (r : request) (sid : string) :
  returned (serve dirname (Status sid)
              (after (serve dirname r (fst (serve_all dirname rs (started fl dir))))))
  = Ok (Json 404 (VObj [("error", VStr "Session not found")])).
Proof.
  rewrite serve_status. cbn [returned].
  rewrite serve_keeps_store, serve_all_store. unfold started. cbn [processes].
  now rewrite lookup_empty.
Qed.

(** C7 as amended.  The status route answers with the status and the log
    lines of the entry the session store holds for the identifier, and with
    404 exactly when the store holds none.  No request adds an entry to the
    store or changes one, so a server that was started answers every status
    query with 404, whatever requests it served before. *)
Theorem status_reads_a_store_nothing_fills (dirname : path) :
  (forall w sid,
     serve dirname (Status sid) w
     = Outcome
         (Ok match processes w !! sid with
             | Some entry =>
                 Json 200
                   (VObj [("status", VStr (status entry));
                          ("logs", VArr (map VStr (logs entry)))])
             | None => Json 404 (VObj [("error", VStr "Session not found")])
             end)
         w [])
  /\ (forall r w, processes (after (serve dirname r w)) = processes w)
  /\ (forall fl dir rs sid,
        returned (serve dirname (Status sid) (fst (serve_all dirname rs (started fl dir))))
        = Ok (Json 404 (VObj [("error", VStr "Session not found")]))).
Proof.
  split; [apply serve_status |]. split; [apply serve_keeps_store |].
  intros fl dir rs sid. rewrite serve_status. cbn [returned].
  rewrite serve_all_store. unfold started. cbn [processes].
  now rewrite lookup_empty.
Qed.

(** C7, as the specification states it, fails: the init of session [s1]
    runs to its [completed] event, and the status query for [s1] that
    follows is answered 404. *)
Lemma status_after_init_is_not_found :
  snd (serve_all srv [Init (Some "s1") (Some "us-east-1") tool_ok; Status "s1"]
         (started ∅ []))
  = [EventStream
       [sse (log_event "Terraform has been successfully initialized!");
        sse completed_event]
       true;
     Json 404 (VObj [("error", VStr "Session not found")])].
Proof. vm_compute. reflexivity. Qed.

(** C8 as amended.  When the tool of a lifecycle request fails, the feed of
    that request ends with one error event carrying the message of the
    error.  The session store is left as it was: the status query answers
    after the failure what it answered before, 404 on a server that was
    started. *)
Theorem failure_ends_the_feed_not_the_store (dirname : path) (r : request)
    (c : child) (w : world) (e : exn) :
  child_of r = Some c ->
  settled (runCommandWithStream finish_feed (events c) (Stream [] false)) = Rejected e ->
  (forall wire ended,
     returned (serve dirname r w) = Ok (EventStream wire ended) ->
     ended = true
     /\ exists logs,
         forallb is_log logs = true
         /\ wire = map sse (logs ++ [error_event (message e)]))
  /\ processes (after (serve dirname r w)) = processes w
  /\ (forall sid,
        returned (serve dirname (Status sid) (after (serve dirname r w)))
        = returned (serve dirname (Status sid) w))
  /\ (forall fl dir rs sid,
        w = fst (serve_all dirname rs (started fl dir)) ->
        returned (serve dirname (Status sid) (after (serve dirname r w)))
        = Ok (Json 404 (VObj [("error", VStr "Session not found")]))).
Proof.
  intros Hc Hrej.
  split; [| split; [apply serve_keeps_store | split]].
  - intros wire ended Hret.
    destruct (serve_spec dirname r w) as (_ & _ & Hans).
    destruct (Hans _ Hret) as [(code & body & Heq) | (c' & Hc' & Heq)];
      [discriminate |].
    rewrite Hc in Hc'. injection Hc' as <-.
    destruct (feed_of_shape c) as (logs & Hlogs & Hfeed).
    rewrite Hfeed, Hrej in Heq. injection Heq as -> ->.
    split; [reflexivity |]. now exists logs.
  - intros sid. rewrite !serve_status. cbn [returned].
    now rewrite serve_keeps_store.
  - intros fl dir rs sid ->. apply status_on_started_server.
Qed.

Lemma failure_ends_the_feed_not_the_store_witness :
  (forall wire ended,
     returned (serve srv (Plan (Some "s1") tool_failing) after_init)
     = Ok (EventStream wire ended) ->
     ended = true
     /\ exists logs,
         forallb is_log logs = true
         /\ wire
            = map sse
                (logs ++ [error_event "Error: No valid credential sources found"]))
  /\ returned (serve srv (Status "s1")
                 (after (serve srv (Plan (Some "s1") tool_failing) after_init)))
     = Ok (Json 404 (VObj [("error", VStr "Session not found")])).
Proof.
  destruct (failure_ends_the_feed_not_the_store srv (Plan (Some "s1") tool_failing)
              tool_failing after_init
              (Error "Error: No valid credential sources found")
              eq_refl eq_refl)
    as (Hfeed & _ & _ & Hnone).
  split; [exact Hfeed |].
  apply (Hnone ∅ [] [Init (Some "s1") (Some "us-east-1") tool_ok] "s1").
  reflexivity.
Defined.

(** C8, as the specification states it, fails: the plan of session [s1]
    fails with exit code 1, its feed ends with the error event, and the
    status query that follows does not report a status [error]: it is
    answered 404. *)
Lemma failed_plan_leaves_no_status :
  snd (serve_all srv
         [Init (Some "s1") (Some "us-east-1") tool_ok;
          Plan (Some "s1") tool_failing;
          Status "s1"]
         (started ∅ []))
  = [EventStream
       [sse (log_event "Terraform has been successfully initialized!");
        sse completed_event]
       true;
     EventStream
       [sse (log_event "Planning");
        sse (log_event "Error: No valid credential sources found");
        sse (error_event "Error: No valid credential sources found")]
       true;
     Json 404 (VObj [("error", VStr "Session not found")])].
Proof. vm_compute. reflexivity. Qed.

(** ** Session directories *)

(** The score route looks at one path, whatever the session it is asked
    about. *)
Lemma score_route_effects (dirname : path) (sid : string) :
  handler_spec (serve dirname (Score sid)) (fun _ => True)
    (fun e =>
       effect_path e
       = path_join (path_join dirname ["environments"; "dev"]) ["score.yaml"]).
Proof.
  unfold serve, route, api_score. repeat spec_step; try exact I; reflexivity.
Qed.

(** The lifecycle routes stay in the directory they resolve for the
    identifier of the request. *)
Lemma lifecycle_route_effects (dirname : path) (r : request) (sid : string)
    (c : child) :
  (exists reg, r = Init (Some sid) reg c) \/ r = Plan (Some sid) c
  \/ r = Apply (Some sid) c \/ r = Destroy (Some sid) c ->
  handler_spec (serve dirname r) (fun _ => True)
    (fun e => session_dir dirname sid `prefix_of` effect_path e).
Proof.
  intros [[reg ->] | [-> | [-> | ->]]];
    unfold serve, route, api_terraform_init, api_terraform_plan,
      api_terraform_apply, api_terraform_destroy, lifecycle_route;
    repeat spec_step; try exact I; try (intros; exact I);
    cbn [effect_path]; try reflexivity.
  now exists ["main.tf"].
Qed.

(** The directory is not the identifier: two identifiers can resolve to one
    directory. *)
Example session_dir_not_injective :
  "x/../dev" <> "dev" /\ session_dir srv "x/../dev" = session_dir srv "dev".
Proof. split; [discriminate | reflexivity]. Qed.

(** The generate route writes one path, whatever the descriptor and
    whoever sends it. *)
Lemma generate_route_effects (dirname : path) (config : value) :
  handler_spec (serve dirname (Generate config)) (fun _ => True)
    (fun e => path_join dirname ["environment"] `prefix_of` effect_path e).
Proof.
  unfold serve, route, api_generate. repeat spec_step; try exact I;
    cbn [effect_path]; try reflexivity.
  now exists ["score.yaml"].
Qed.

(** C1 fails on the score route.  Asked for the score of session [s1], the
    route reads the score file in the working directory of the session
    [dev], outside the directory of [s1], and answers with its content. *)
Theorem score_lookup_reads_the_directory_of_dev :
  serve srv (Score "s1") two_sessions
  = Outcome (Ok (Json 200 (VObj [("scoreFile", VStr "score of dev")])))
      two_sessions
      [EExists (session_dir srv "dev" ++ ["score.yaml"]);
       ERead (session_dir srv "dev" ++ ["score.yaml"])]
  /\ "s1" <> "dev"
  /\ session_dir srv "dev" `prefix_of` session_dir srv "dev" ++ ["score.yaml"]
  /\ ~ session_dir srv "s1" `prefix_of` session_dir srv "dev" ++ ["score.yaml"].
Proof.
  split; [vm_compute; reflexivity |]. split; [discriminate |]. split.
  - now exists ["score.yaml"].
  - intros [k Hk]. vm_compute in Hk. discriminate.
Qed.

(** ** Validation of the descriptor *)

Lemma generate_rejected (dirname : path) (config : value) (w : world) :
  rejected config = true ->
  exists text,
    serve dirname (Generate config) w
    = Outcome (Ok (Json 400 (VObj [("success", VBool false); ("error", VStr text)])))
        w [].
Proof.
  unfold rejected. intros H. unfold serve, route, api_generate.
  destruct (negb (truthy config) || negb (typeof_object config)) eqn:H1.
  { eexists. reflexivity. }
  destruct (negb (truthy (get config "name"))) eqn:H2.
  { eexists. reflexivity. }
  destruct (negb (truthy (get config "environment"))
            || negb (truthy (get (get config "environment") "region"))) eqn:H3.
  { eexists. reflexivity. }
  rewrite orb_false_iff in H3. destruct H3 as [H3 H4].
  rewrite H3, H4 in H. discriminate.
Qed.

Lemma generate_accepted (dirname : path) (config : value) :
  rejected config = false ->
  handler_spec (serve dirname (Generate config))
    (fun a => exists body, a = Json 200 body \/ a = Json 500 body)
    (fun _ => True).
Proof.
  unfold rejected. intros H.
  rewrite !orb_false_iff in H. destruct H as [[[[Ha Hb] Hc] Hd] He].
  unfold serve, route, api_generate, sendResponse.
  rewrite Ha, Hb, Hc, Hd, He. cbn [orb].
  repeat spec_step; try exact I; eexists; (left; reflexivity) || (right; reflexivity).
Qed.

(** C2 as amended.  The generate route answers 400, before it touches the
    file system, exactly when the body is not an object, or the name is
    missing or empty, or the environment or its region is missing or empty.
    The region is compared with no list. *)
Theorem generate_validates_presence_only (dirname : path) (config : value)
    (w : world) :
  ((exists body, returned (serve dirname (Generate config) w) = Ok (Json 400 body))
   <-> rejected config = true)
  /\ (rejected config = true ->
      effects (serve dirname (Generate config) w) = []
      /\ after (serve dirname (Generate config) w) = w).
Proof.
  split; [split |].
  - intros [body Hret]. destruct (rejected config) eqn:Hrej; [reflexivity |].
    destruct (generate_accepted dirname config Hrej w) as (_ & _ & Hans).
    destruct (Hans _ Hret) as [body' [Heq | Heq]]; discriminate.
  - intros Hrej. destruct (generate_rejected dirname config w Hrej) as [text ->].
    eexists. reflexivity.
  - intros Hrej. destruct (generate_rejected dirname config w Hrej) as [text ->].
    split; reflexivity.
Qed.

Lemma generate_validates_presence_only_witness :
  effects (serve srv (Generate (VObj [("name", VStr "orders")])) after_init) = []
  /\ after (serve srv (Generate (VObj [("name", VStr "orders")])) after_init)
     = after_init.
Proof.
  apply (generate_validates_presence_only srv (VObj [("name", VStr "orders")])
           after_init).
  reflexivity.
Defined.

(** C2, as the specification states it, fails: a descriptor with a name and
    with a region that is none of the recognized ones is rendered, and its
    score file written. *)
Lemma unrecognized_region_is_rendered :
  ~ In "mars-central-1" AWS_REGIONS
  /\ exists text,
      serve srv
        (Generate
           (VObj [("name", VStr "orders");
                  ("environment", VObj [("region", VStr "mars-central-1")]);
                  ("services", VObj [("database", VBool true)])]))
        (started ∅ [])
      = Outcome
          (Ok (Json 200
                 (VObj [("success", VBool true);
                        ("scoreFile", VStr text);
                        ("message", VStr "Score file generated successfully")])))
          (World
             {[ ["srv"] := Dir;
                ["srv"; "environment"] := Dir;
                ["srv"; "environment"; "score.yaml"] := File text ]}
             ∅ [])
          [EExists ["srv"; "environment"]; EMkdir ["srv"; "environment"];
           EWrite ["srv"; "environment"; "score.yaml"] text]
      /\ includes (q "region" +:+ ": " +:+ q "mars-central-1") text = true.
Proof.
  split.
  - cbn. intuition discriminate.
  - eexists. split; [vm_compute; reflexivity | vm_compute; reflexivity].
Qed.

(** ** Rendering *)

(** What the generate route writes and answers is the text
    [generateScoreYaml] gives for the descriptor. *)
Lemma generate_renders (dirname : path) (config : value) :
  handler_spec (serve dirname (Generate config))
    (fun a =>
       forall body, a = Json 200 body ->
       exists text,
         generateScoreYaml config = Ok text
         /\ body
            = VObj [("success", VBool true); ("scoreFile", VStr text);
                    ("message", VStr "Score file generated successfully")])
    (fun e => forall p data, e = EWrite p data -> generateScoreYaml config = Ok data).
Proof.
  unfold serve, route, api_generate, sendResponse.
  repeat spec_step; try exact I; try discriminate.
  - intros p data [= <- <-]. reflexivity.
  - intros body [= <-]. eexists. split; reflexivity.
Qed.

Lemma get_strict_some (o v : value) (k : string) :
  get_strict o k = Some v -> v = get o k.
Proof. destruct o; cbn; congruence. Qed.

Lemma generateTerraformConfig_text (scoreConfig : value) (text : string) :
  generateTerraformConfig scoreConfig = Some text ->
  exists region name,
    to_string (region_of scoreConfig) = Some region
    /\ to_string (name_of scoreConfig) = Some name
    /\ text = hcl_providers region +:+ hcl_vpc region name +:+ hcl_cluster name.
Proof.
  unfold generateTerraformConfig, region_of, name_of. intros H.
  destruct (get_strict scoreConfig "spec") as [spec|] eqn:H1; [| discriminate].
  cbn [mbind option_bind] in H.
  destruct (get_strict spec "environment") as [environment|] eqn:H2; [| discriminate].
  cbn [mbind option_bind] in H.
  destruct (get_strict environment "region") as [region|] eqn:H3; [| discriminate].
  cbn [mbind option_bind] in H.
  destruct (get_strict scoreConfig "metadata") as [metadata|] eqn:H4; [| discriminate].
  cbn [mbind option_bind] in H.
  destruct (get_strict metadata "name") as [name|] eqn:H5; [| discriminate].
  cbn [mbind option_bind] in H.
  apply get_strict_some in H1, H2, H3, H4, H5. subst.
  destruct (to_string (get (get (get scoreConfig "spec") "environment") "region"))
    as [region_text |]; [| discriminate].
  cbn [mbind option_bind] in H.
  destruct (to_string (get (get scoreConfig "metadata") "name")) as [name_text |];
    [| discriminate].
  cbn [mbind option_bind] in H. injection H as <-. now eexists _, _.
Qed.

(** ** The init route *)

Lemma init_route_effects (dirname : path) (sid reg : string) (c : child) :
  handler_spec (serve dirname (Init (Some sid) (Some reg) c)) (fun _ => True)
    (fun e =>
       forall p data, e = EWrite p data ->
       p = path_join (session_dir dirname sid) ["main.tf"] /\ data = mainTf reg).
Proof.
  unfold serve, route, api_terraform_init.
  repeat spec_step; try exact I; try discriminate; try (intros; exact I).
  intros p data [= <- <-]. now split.
Qed.

Lemma serve_feed (dirname : path) (r : request) (w : world) (wire : list string)
    (ended : bool) :
  returned (serve dirname r w) = Ok (EventStream wire ended) ->
  serve dirname r w = route dirname r w.
Proof.
  unfold serve, try_catch.
  destruct (route dirname r w) as [[a | e] w' es]; cbn [returned after effects].
  - reflexivity.
  - unfold ret, sendResponse. cbn [preceded returned]. discriminate.
Qed.

(** An init request that is answered with a feed has written the template. *)
Lemma init_feed_wrote (dirname : path) (sid reg : string) (c : child) (w : world)
    (wire : list string) (ended : bool) :
  returned (serve dirname (Init (Some sid) (Some reg) c) w)
  = Ok (EventStream wire ended) ->
  In (EWrite (path_join (session_dir dirname sid) ["main.tf"]) (mainTf reg))
    (effects (serve dirname (Init (Some sid) (Some reg) c) w)).
Proof.
  intros Hret. pose proof (serve_feed _ _ _ _ _ Hret) as Heq.
  rewrite Heq in Hret. rewrite Heq. clear Heq. revert Hret.
  cbn [route]. unfold api_terraform_init.
  destruct (missing (Some sid) || missing (Some reg)).
  { cbn. discriminate. }
  unfold bind, existsSync_as. cbn [returned after effects].
  destruct (exists_as _ (files w) (session_dir dirname sid)).
  - unfold ret. cbn [returned after effects].
    unfold writeFileSync.
    destruct (write_file _ _ (files w)) as [fl | e]; cbn [returned after effects];
      [| discriminate].
    unfold chdir. cbn [files with_files].
    destruct (is_dir fl (session_dir dirname sid)); cbn [returned after effects];
      [| discriminate].
    intros _. cbn. right. left. reflexivity.
  - unfold mkdirSync.
    destruct (mkdir_p _ (files w)) as [fl | e]; cbn [returned after effects];
      [| discriminate].
    unfold writeFileSync. cbn [files with_files].
    destruct (write_file _ _ fl) as [fl' | e]; cbn [returned after effects];
      [| discriminate].
    unfold chdir. cbn [files with_files].
    destruct (is_dir fl' (session_dir dirname sid)); cbn [returned after effects];
      [| discriminate].
    intros _. cbn. right. right. left. reflexivity.
Qed.

(** The resources every [main.tf] declares. *)
Lemma mainTf_resources (region : string) :
  includes ("module " +:+ q "vpc") (mainTf region) = true
  /\ includes ("module " +:+ q "eks") (mainTf region) = true
  /\ includes ("resource " +:+ q "aws_db_instance" +:+ " " +:+ q "main") (mainTf region) = true
  /\ includes ("resource " +:+ q "kubernetes_deployment" +:+ " " +:+ q "app")
       (mainTf region) = true
  /\ includes ("resource " +:+ q "kubernetes_service" +:+ " " +:+ q "app")
       (mainTf region) = true
  /\ includes ("  region = " +:+ q region) (mainTf region) = true.
Proof.
  unfold mainTf. repeat split; try find_line.
  eapply (includes_join_nth _ _ 19); [reflexivity |].
  apply includes_spec. exists "", "". now rewrite app_nil_r_s.
Qed.

(** C10. What the init route writes is the template filled with the region
    of the request: two init requests with one region, for whatever
    sessions, tools and states of the server, write the same text, to the
    [main.tf] of the session each; and the text declares the VPC, the EKS
    cluster, the RDS database and the Kubernetes resources. *)
Theorem init_writes_the_template_of_the_region (dirname1 dirname2 : path)
    (sid1 sid2 reg : string) (c1 c2 : child) (w1 w2 : world)
    (p1 p2 : path) (data1 data2 : string) :
  In (EWrite p1 data1) (effects (serve dirname1 (Init (Some sid1) (Some reg) c1) w1)) ->
  In (EWrite p2 data2) (effects (serve dirname2 (Init (Some sid2) (Some reg) c2) w2)) ->
  data1 = data2
  /\ data1 = mainTf reg
  /\ p1 = path_join (session_dir dirname1 sid1) ["main.tf"]
  /\ p2 = path_join (session_dir dirname2 sid2) ["main.tf"]
  /\ includes ("module " +:+ q "vpc") data1 = true
  /\ includes ("module " +:+ q "eks") data1 = true
  /\ includes ("resource " +:+ q "aws_db_instance" +:+ " " +:+ q "main") data1 = true
  /\ includes ("resource " +:+ q "kubernetes_deployment" +:+ " " +:+ q "app") data1 = true.
Proof.
  intros H1 H2.
  destruct (init_route_effects dirname1 sid1 reg c1 w1) as (_ & He1 & _).
  destruct (init_route_effects dirname2 sid2 reg c2 w2) as (_ & He2 & _).
  rewrite Forall_forall in He1, He2.
  apply list_elem_of_In in H1, H2.
  destruct (He1 _ H1 p1 data1 eq_refl) as [-> ->].
  destruct (He2 _ H2 p2 data2 eq_refl) as [-> ->].
  destruct (mainTf_resources reg) as (Hv & Hk & Hd & Hp & _).
  now repeat split.
Qed.

Lemma init_writes_the_template_of_the_region_witness :
  mainTf "eu-west-1" = mainTf "eu-west-1"
  /\ mainTf "eu-west-1" = mainTf "eu-west-1"
  /\ ["srv"; "environments"; "s1"; "main.tf"]
     = path_join (session_dir srv "s1") ["main.tf"]
  /\ ["srv"; "environments"; "s2"; "main.tf"]
     = path_join (session_dir srv "s2") ["main.tf"]
  /\ includes ("module " +:+ q "vpc") (mainTf "eu-west-1") = true
  /\ includes ("module " +:+ q "eks") (mainTf "eu-west-1") = true
  /\ includes ("resource " +:+ q "aws_db_instance" +:+ " " +:+ q "main")
       (mainTf "eu-west-1") = true
  /\ includes ("resource " +:+ q "kubernetes_deployment" +:+ " " +:+ q "app")
       (mainTf "eu-west-1") = true.
Proof.
  apply (init_writes_the_template_of_the_region srv srv "s1" "s2" "eu-west-1"
           tool_ok tool_failing (started ∅ []) after_init).
  - vm_compute. right. right. left. reflexivity.
  - vm_compute. right. right. left. reflexivity.
Defined.

(** ** Lines of a text *)

Lemma nl_free_app (a b : string) :
  nl_free (a +:+ b) = nl_free a && nl_free b.
Proof.
  induction a as [|c a IH]; [reflexivity |].
  rewrite app_cons_s. cbn [nl_free]. now rewrite IH, andb_assoc.
Qed.

Lemma quote_char_nl_free (c : ascii) : nl_free (quote_char c) = true.
Proof. destruct c as [[] [] [] [] [] [] [] []]; reflexivity. Qed.

Lemma quote_body_nl_free (s : string) : nl_free (quote_body s) = true.
Proof.
  induction s as [|c s IH]; [reflexivity |].
  cbn [quote_body]. now rewrite nl_free_app, quote_char_nl_free, IH.
Qed.

Lemma quote_nl_free (s : string) : nl_free (quote s) = true.
Proof.
  unfold quote. now rewrite !nl_free_app, quote_body_nl_free.
Qed.

(** A text that begins with a newline is not found inside a line. *)
Lemma nl_free_excludes (p l : string) :
  nl_free l = true -> includes (nl +:+ p) l = false.
Proof.
  induction l as [|c l IH]; [reflexivity |].
  cbn [nl_free]. rewrite andb_true_iff, negb_true_iff. intros [Hc Hl].
  change (nl +:+ p) with (String (ascii_of_nat 10) p) in *.
  cbn [includes starts_with]. rewrite IH by assumption.
  unfold is_nl in Hc. rewrite Ascii.eqb_sym in Hc. now rewrite Hc.
Qed.

(** A text without newline that begins [a], a newline and more begins [a]. *)
Lemma starts_with_line (p a x : string) :
  nl_free p = true -> starts_with p (a +:+ nl +:+ x) = true ->
  starts_with p a = true.
Proof.
  revert a. induction p as [|c p IH]; intros a Hp H; [reflexivity |].
  cbn [nl_free] in Hp. rewrite andb_true_iff, negb_true_iff in Hp.
  destruct Hp as [Hc Hp].
  destruct a as [|d a].
  - rewrite app_nil_s in H. change (nl +:+ x) with (String (ascii_of_nat 10) x) in H.
    cbn [starts_with] in H. unfold is_nl in Hc. rewrite Hc in H. discriminate.
  - rewrite app_cons_s in H. cbn [starts_with] in *.
    rewrite andb_true_iff in *. destruct H as [Hcd H].
    split; [assumption |]. now apply IH.
Qed.

(** Where a text that begins with a newline and goes on without one can
    stand in lines joined by newlines: at the head of a line after the
    first. *)
Lemma includes_at_line_start (p : string) (ls : list string) :
  nl_free p = true ->
  forallb nl_free ls = true ->
  includes (nl +:+ p) (join_lines ls) = true ->
  existsb (starts_with p) (tl ls) = true.
Proof.
  intros Hp. induction ls as [|l ls IH]; intros Hls H.
  - discriminate.
  - cbn [forallb] in Hls. rewrite andb_true_iff in Hls. destruct Hls as [Hl Hls].
    destruct ls as [|l' ls].
    + change (join_lines [l]) with l in H.
      rewrite nl_free_excludes in H by assumption. discriminate.
    + rewrite join_lines_cons in H by discriminate.
      cbn [tl]. cbn [existsb].
      assert (Hrest : includes (nl +:+ p) (nl +:+ join_lines (l' :: ls)) = true).
      { clear IH. induction l as [|c l IHl].
        - now rewrite app_nil_s in H.
        - cbn [nl_free] in Hl. rewrite andb_true_iff, negb_true_iff in Hl.
          destruct Hl as [Hc Hl]. rewrite app_cons_s in H.
          change (nl +:+ p) with (String (ascii_of_nat 10) p) in H.
          cbn [includes starts_with] in H.
          unfold is_nl in Hc. rewrite Ascii.eqb_sym in Hc. rewrite Hc in H.
          cbn [andb orb] in H. now apply IHl. }
      change (nl +:+ p) with (String (ascii_of_nat 10) p) in Hrest.
      change (nl +:+ join_lines (l' :: ls))
        with (String (ascii_of_nat 10) (join_lines (l' :: ls))) in Hrest.
      cbn [includes starts_with] in Hrest.
      rewrite Ascii.eqb_refl in Hrest. cbn [andb] in Hrest.
      apply orb_true_iff in Hrest. apply orb_true_iff.
      destruct Hrest as [Hhere | Hlater].
      * left. destruct ls as [|l'' ls].
        -- exact Hhere.
        -- rewrite join_lines_cons in Hhere by discriminate.
           now apply (starts_with_line p l' (join_lines (l'' :: ls))).
      * right. apply IH; assumption.
Qed.

(** ** The score file of a descriptor *)

Lemma spread_falsy (v : value) : truthy v = false -> spread v = [].
Proof. destruct v; cbn; congruence. Qed.

Lemma or_else_string (s default : string) :
  default <> "" ->
  or_else (VStr s) (VStr default) = VStr (or_default s default).
Proof.
  intros Hd. unfold or_else, or_default. cbn [truthy].
  now destruct (String.eqb s "").
Qed.

Lemma join_lines_app (a b : list string) :
  a <> [] -> b <> [] ->
  join_lines (a ++ b) = join_lines a +:+ nl +:+ join_lines b.
Proof.
  intros Ha Hb. induction a as [|l a IH]; [congruence |].
  destruct a as [|l' a].
  - cbn [app]. now rewrite join_lines_cons.
  - change ((l :: l' :: a) ++ b) with (l :: ((l' :: a) ++ b)).
    rewrite !join_lines_cons by discriminate.
    rewrite IH by discriminate. now rewrite !app_assoc_s.
Qed.

(** What the score configuration of a descriptor is. *)
Lemma scoreConfig_of_descriptor (n ty ee rg : string) (services : value) :
  scoreConfig_of (VStr n)
    (VObj [("type", VStr ty); ("executionEnvironment", VStr ee); ("region", VStr rg)])
    services
  = VObj
      [ ("apiVersion", VStr "score.dev/v1b1");
        ("metadata", VObj [ ("name", VStr n) ]);
        ("spec",
          VObj
            [ ("environment",
                VObj
                  [ ("type", VStr (or_default ty "web"));
                    ("executionEnvironment", VStr (or_default ee "aws"));
                    ("region", VStr rg) ]);
              ("services", services_object (requested services)) ]) ].
Proof.
  unfold scoreConfig_of, requested, and_then, services_object.
  cbn [get assoc String.eqb Ascii.eqb Bool.eqb andb].
  rewrite !or_else_string by discriminate.
  destruct (truthy (get services "database")) eqn:Hd;
    destruct (truthy (get services "cache")) eqn:Hc;
    destruct (truthy (get services "queue")) eqn:Hq;
    rewrite ?(spread_falsy _ Hd), ?(spread_falsy _ Hc), ?(spread_falsy _ Hq);
    reflexivity.
Qed.

(** The text of the services, whatever fragments are asked for. *)
Lemma services_text (services : value) :
  serialize "  " "    " (services_object (requested services))
  = Some ("{" +:+ match requested services with
                  | [] => "}"
                  | fs => nl +:+ join_lines (fragments_lines fs ++ [ "    }" ])
                  end).
Proof.
  unfold requested.
  destruct (truthy (get services "database")), (truthy (get services "cache")),
    (truthy (get services "queue")); vm_compute; reflexivity.
Qed.

Section ScoreText.

Local Arguments String.append : simpl nomatch.

(** The text of a score configuration around the text of its services. *)
Lemma score_text_around (n ty ee rg : string) (sv : value) (stext : string) :
  serialize "  " "    " sv = Some stext ->
  stringify2
    (VObj
       [ ("apiVersion", VStr "score.dev/v1b1");
         ("metadata", VObj [ ("name", VStr n) ]);
         ("spec",
           VObj
             [ ("environment",
                 VObj
                   [ ("type", VStr ty);
                     ("executionEnvironment", VStr ee);
                     ("region", VStr rg) ]);
               ("services", sv) ]) ])
  = Some (join_lines (head_lines n ty ee rg) +:+ nl
          +:+ "    " +:+ q "services" +:+ ": " +:+ stext +:+ nl
          +:+ join_lines [ "  }"; "}" ]).
Proof.
  intros Hs. unfold stringify2. cbn. rewrite Hs. cbn.
  repeat (rewrite app_assoc_s; cbn). reflexivity.
Qed.

End ScoreText.

(** The score file of a descriptor is the lines of [score_lines]. *)
Lemma score_text_of_descriptor (n ty ee rg : string) (services : value) :
  stringify2
    (scoreConfig_of (VStr n)
       (VObj [("type", VStr ty); ("executionEnvironment", VStr ee); ("region", VStr rg)])
       services)
  = Some (join_lines
            (score_lines n (or_default ty "web") (or_default ee "aws") rg
               (requested services))).
Proof.
  rewrite scoreConfig_of_descriptor.
  rewrite (score_text_around _ _ _ _ _ _ (services_text services)).
  f_equal. unfold score_lines.
  rewrite join_lines_app; [| discriminate | now destruct (services_lines _)].
  rewrite join_lines_app;
    [| unfold services_lines; now destruct (requested services) | discriminate].
  f_equal. f_equal. rewrite <- !app_assoc_s. f_equal.
  unfold services_lines. destruct (requested services) as [|f fs]; [reflexivity |].
  rewrite join_lines_cons by (now destruct (fragments_lines (f :: fs))).
  now rewrite !app_assoc_s.
Qed.

Lemma starts_with_app (p a b : string) :
  starts_with p a = true -> starts_with p (a +:+ b) = true.
Proof.
  rewrite !starts_with_spec. intros [x ->]. exists (x +:+ b).
  now rewrite app_assoc_s.
Qed.

Lemma includes_line_start (p : string) (ls : list string) :
  existsb (starts_with p) (tl ls) = true ->
  includes (nl +:+ p) (join_lines ls) = true.
Proof.
  induction ls as [|l ls IH]; [discriminate |].
  cbn [tl]. destruct ls as [|l' ls]; [discriminate |].
  cbn [existsb]. rewrite orb_true_iff. intros [Hhere | Hlater].
  - rewrite join_lines_cons by discriminate. apply includes_app_r.
    apply includes_spec. apply starts_with_spec in Hhere as [x Hx].
    destruct ls as [|l'' ls].
    + exists "", x. change (join_lines [l']) with l'.
      now rewrite app_nil_s, app_assoc_s, Hx.
    + exists "", (x +:+ nl +:+ join_lines (l'' :: ls)).
      rewrite join_lines_cons by discriminate.
      now rewrite app_nil_s, Hx, !app_assoc_s.
  - apply includes_join_later. now apply IH.
Qed.

Lemma head_lines_nl_free (n ty ee rg : string) :
  forallb nl_free (head_lines n ty ee rg) = true.
Proof.
  unfold head_lines. cbn [forallb].
  rewrite !nl_free_app, !quote_nl_free. reflexivity.
Qed.

Lemma score_lines_nl_free (n ty ee rg : string) (services : value) :
  forallb nl_free (score_lines n ty ee rg (requested services)) = true.
Proof.
  unfold score_lines. rewrite !forallb_app, head_lines_nl_free. unfold requested.
  destruct (truthy (get services "database")), (truthy (get services "cache")),
    (truthy (get services "queue")); reflexivity.
Qed.

(** A fragment stands in the score file of a descriptor exactly when its
    head opens one of the lines of the services. *)
Lemma has_fragment_in_services (key n ty ee rg : string) (services : value) :
  In key ["database"; "cache"; "queue"] ->
  has_fragment key (join_lines (score_lines n ty ee rg (requested services)))
  = existsb (starts_with (fragment_head key)) (services_lines (requested services)).
Proof.
  intros Hkey.
  assert (Hfree : nl_free (fragment_head key) = true).
  { cbn in Hkey. now destruct Hkey as [<- | [<- | [<- | []]]]. }
  assert (Hlines :
    existsb (starts_with (fragment_head key))
      (tl (score_lines n ty ee rg (requested services)))
    = existsb (starts_with (fragment_head key)) (services_lines (requested services))).
  { unfold score_lines.
    change (tl (head_lines n ty ee rg ++ services_lines (requested services) ++ ["  }"; "}"]))
      with (tl (head_lines n ty ee rg)
            ++ services_lines (requested services) ++ ["  }"; "}"]).
    rewrite !existsb_app.
    assert (Hhead : existsb (starts_with (fragment_head key)) (tl (head_lines n ty ee rg))
                    = false).
    { cbn in Hkey. destruct Hkey as [<- | [<- | [<- | []]]]; vm_compute; reflexivity. }
    assert (Htail : existsb (starts_with (fragment_head key)) ["  }"; "}"] = false).
    { cbn in Hkey. destruct Hkey as [<- | [<- | [<- | []]]]; vm_compute; reflexivity. }
    rewrite Hhead, Htail. now rewrite orb_false_r. }
  unfold has_fragment. rewrite <- Hlines.
  destruct (existsb _ (tl _)) eqn:Hex.
  - now apply includes_line_start.
  - destruct (includes _ _) eqn:Hinc; [| reflexivity].
    apply includes_at_line_start in Hinc;
      [congruence | assumption | apply score_lines_nl_free].
Qed.

Lemma generateScoreYaml_descriptor (d : descriptor) (text : string) :
  generateScoreYaml (to_config d) = Ok text ->
  text
  = join_lines
      (score_lines (app_name d) (or_default (env_type d) "web")
         (or_default (env_exec d) "aws") (env_region d)
         (requested (app_services d))).
Proof.
  unfold generateScoreYaml, to_config.
  cbn [get assoc String.eqb Ascii.eqb Bool.eqb andb].
  rewrite score_text_of_descriptor.
  destruct (negb _ || negb _ || negb _); [discriminate |].
  now intros [= <-].
Qed.

Lemma services_of_scoreConfig (name environment services : value) :
  get (get (scoreConfig_of name environment services) "spec") "services"
  = services_object (requested services).
Proof.
  unfold scoreConfig_of, requested, and_then, services_object.
  cbn [get assoc String.eqb Ascii.eqb Bool.eqb andb].
  destruct (truthy (get services "database")) eqn:Hd;
    destruct (truthy (get services "cache")) eqn:Hc;
    destruct (truthy (get services "queue")) eqn:Hq;
    rewrite ?(spread_falsy _ Hd), ?(spread_falsy _ Hc), ?(spread_falsy _ Hq);
    reflexivity.
Qed.

Lemma generateScoreYaml_config (config : value) (text : string) :
  generateScoreYaml config = Ok text ->
  stringify2
    (scoreConfig_of (get config "name") (get config "environment")
       (get config "services"))
  = Some text.
Proof.
  unfold generateScoreYaml.
  destruct config; try discriminate;
    (destruct (negb _ || negb _ || negb _); [discriminate |]);
    (destruct (stringify2 _); [now intros [= <-] | discriminate]).
Qed.

Lemma fragment_of_requested (key : string) (services : value) :
  In key ["database"; "cache"; "queue"] ->
  existsb (starts_with (fragment_head key)) (services_lines (requested services))
  = requests key services
  /\ has_key key (services_object (requested services)) = requests key services.
Proof.
  intros Hkey. unfold requested, requests. cbn in Hkey.
  destruct Hkey as [<- | [<- | [<- | []]]];
    destruct (truthy (get services "database")), (truthy (get services "cache")),
      (truthy (get services "queue")); split; reflexivity.
Qed.

(** The score configuration reads four things of the descriptor besides
    the services. *)
Lemma scoreConfig_of_fields (name environment services : value) (n ty ee rg : string) :
  name = VStr n ->
  or_else (get environment "type") (VStr "web") = VStr ty ->
  or_else (get environment "executionEnvironment") (VStr "aws") = VStr ee ->
  get environment "region" = VStr rg ->
  scoreConfig_of name environment services
  = scoreConfig_of (VStr n)
      (VObj [("type", VStr ty); ("executionEnvironment", VStr ee); ("region", VStr rg)])
      services
  /\ or_default ty "web" = ty /\ or_default ee "aws" = ee.
Proof.
  intros -> Hty Hee Hrg.
  assert (Hidem : forall x d s, or_else x (VStr d) = VStr s -> d <> "" ->
                                or_default s d = s).
  { intros x d s H Hd. unfold or_else in H. unfold or_default.
    destruct (truthy x) eqn:Hx.
    - subst x. cbn [truthy] in Hx. apply negb_true_iff in Hx. now rewrite Hx.
    - injection H as <-. apply String.eqb_neq in Hd. now rewrite Hd. }
  pose proof (Hidem _ _ _ Hty ltac:(discriminate)) as Hty'.
  pose proof (Hidem _ _ _ Hee ltac:(discriminate)) as Hee'.
  split; [| now split].
  unfold scoreConfig_of.
  cbn [get assoc String.eqb Ascii.eqb Bool.eqb andb].
  rewrite !or_else_string by discriminate.
  now rewrite Hty, Hee, Hrg, Hty', Hee'.
Qed.

Lemma generateScoreYaml_fields (config : value) (text n ty ee rg : string) :
  generateScoreYaml config = Ok text ->
  get config "name" = VStr n ->
  or_else (get (get config "environment") "type") (VStr "web") = VStr ty ->
  or_else (get (get config "environment") "executionEnvironment") (VStr "aws")
  = VStr ee ->
  get (get config "environment") "region" = VStr rg ->
  text = join_lines (score_lines n ty ee rg (requested (get config "services"))).
Proof.
  intros Htext Hn Hty Hee Hrg.
  apply generateScoreYaml_config in Htext.
  destruct (scoreConfig_of_fields _ _ (get config "services") _ _ _ _ Hn Hty Hee Hrg)
    as (Heq & Hty' & Hee').
  rewrite Heq, score_text_of_descriptor, Hty', Hee' in Htext.
  now injection Htext as <-.
Qed.

(** C9. The score file of the descriptor [orders] has the region
    [eu-west-1] and the database fragment, and neither [cache] nor [queue]
    in it.  For every descriptor that is rendered, the score file is the
    JSON text of the score configuration the renderer builds from it, and
    the services of that configuration have the fragment of a service
    exactly when the descriptor asks for the service (a truthy [database],
    [cache] or [queue]).  In the text: for every descriptor whose name and
    region are strings, and whose type and execution environment are strings
    or left out, with whatever else and whatever services beside, the score
    file is the lines of the name, the environment and the fragments asked
    for, and the head of the fragment of a service opens a line of it
    exactly when the descriptor asks for the service. *)
Theorem score_file_has_the_requested_fragments :
  (exists text,
     generateScoreYaml orders = Ok text
     /\ includes ("      " +:+ q "region" +:+ ": " +:+ q "eu-west-1") text = true
     /\ includes (join_lines (fragment_lines "database" "postgres" false)) text = true
     /\ includes "cache" text = false
     /\ includes "queue" text = false)
  /\ (forall config text key,
        generateScoreYaml config = Ok text ->
        In key ["database"; "cache"; "queue"] ->
        stringify2
          (scoreConfig_of (get config "name") (get config "environment")
             (get config "services"))
        = Some text
        /\ (has_key key
              (get (get (scoreConfig_of (get config "name") (get config "environment")
                           (get config "services")) "spec") "services") = true
            <-> requests key (get config "services") = true))
  /\ (forall d text key,
        generateScoreYaml (to_config d) = Ok text ->
        In key ["database"; "cache"; "queue"] ->
        (has_fragment key text = true <-> requests key (app_services d) = true))
  /\ (forall config text key n ty ee rg,
        generateScoreYaml config = Ok text ->
        In key ["database"; "cache"; "queue"] ->
        get config "name" = VStr n ->
        or_else (get (get config "environment") "type") (VStr "web") = VStr ty ->
        or_else (get (get config "environment") "executionEnvironment") (VStr "aws")
        = VStr ee ->
        get (get config "environment") "region" = VStr rg ->
        text = join_lines (score_lines n ty ee rg (requested (get config "services")))
        /\ (has_fragment key text = true
            <-> requests key (get config "services") = true)
        /\ includes ("      " +:+ q "region" +:+ ": " +:+ quote rg) text = true).
Proof.
  split; [| split; [| split]].
  - eexists. split; [vm_compute; reflexivity |].
    repeat split; vm_compute; reflexivity.
  - intros config text key Htext Hkey.
    split; [now apply generateScoreYaml_config |].
    rewrite services_of_scoreConfig.
    destruct (fragment_of_requested key (get config "services") Hkey) as [_ ->].
    reflexivity.
  - intros d text key Htext Hkey.
    apply generateScoreYaml_descriptor in Htext. subst text.
    rewrite has_fragment_in_services by assumption.
    destruct (fragment_of_requested key (app_services d) Hkey) as [-> _].
    reflexivity.
  - intros config text key n ty ee rg Htext Hkey Hn Hty Hee Hrg.
    pose proof (generateScoreYaml_fields _ _ _ _ _ _ Htext Hn Hty Hee Hrg) as ->.
    split; [reflexivity |]. split.
    + rewrite has_fragment_in_services by assumption.
      destruct (fragment_of_requested key (get config "services") Hkey) as [-> _].
      reflexivity.
    + unfold score_lines, head_lines.
      eapply (includes_join_nth _ _ 9); [reflexivity |].
      apply includes_spec. exists "", "". now rewrite app_nil_r_s.
Qed.

Lemma score_file_has_the_requested_fragments_witness :
  (stringify2
     (scoreConfig_of (get orders "name") (get orders "environment")
        (get orders "services"))
   = Some (join_lines
             (score_lines "orders" "web" "aws" "eu-west-1" [("database", "postgres")]))
   /\ (has_key "database"
         (get (get (scoreConfig_of (get orders "name") (get orders "environment")
                      (get orders "services")) "spec") "services") = true
       <-> requests "database" (get orders "services") = true))
  /\ (has_fragment "queue"
        (join_lines
           (score_lines "shop" "api" "aws" "us-east-1"
              [("database", "postgres"); ("cache", "redis")])) = true
      <-> requests "queue"
            (VObj [("database", VBool true); ("cache", VNum 1);
                   ("messageQueue", VBool true)]) = true)
  /\ (join_lines (score_lines "orders" "web" "aws" "eu-west-1" [("cache", "redis")])
      = join_lines
          (score_lines "orders" "web" "aws" "eu-west-1"
             (requested (get orders_with_cache "services")))
      /\ (has_fragment "database"
            (join_lines (score_lines "orders" "web" "aws" "eu-west-1" [("cache", "redis")]))
          = true
          <-> requests "database" (get orders_with_cache "services") = true)
      /\ includes ("      " +:+ q "region" +:+ ": " +:+ quote "eu-west-1")
           (join_lines (score_lines "orders" "web" "aws" "eu-west-1" [("cache", "redis")]))
         = true).
Proof.
  destruct score_file_has_the_requested_fragments as (_ & Hobject & Htext & Hfields).
  split; [| split].
  - apply (Hobject orders
             (join_lines
                (score_lines "orders" "web" "aws" "eu-west-1"
                   [("database", "postgres")]))
             "database").
    + vm_compute. reflexivity.
    + cbn. now left.
  - apply (Htext
             (Descriptor "shop" "api" "aws" "us-east-1"
                (VObj [("database", VBool true); ("cache", VNum 1);
                       ("messageQueue", VBool true)]))
             (join_lines
                (score_lines "shop" "api" "aws" "us-east-1"
                   [("database", "postgres"); ("cache", "redis")]))
             "queue").
    + vm_compute. reflexivity.
    + cbn. now right; right; left.
  - apply (Hfields orders_with_cache
             (join_lines
                (score_lines "orders" "web" "aws" "eu-west-1" [("cache", "redis")]))
             "database" "orders" "web" "aws" "eu-west-1");
      [vm_compute; reflexivity | cbn; now left | reflexivity | reflexivity
      | reflexivity | reflexivity].
Defined.

(** The two keys do not meet: the form asks for a message queue under the
    key [messageQueue], which the renderer does not read. *)
Example message_queue_of_the_form :
  exists text,
    generateScoreYaml
      (to_config
         (Descriptor "shop" "api" "aws" "us-east-1"
            (VObj [("messageQueue",
                     VObj [("type", VStr "sqs");
                           ("properties", VObj [("size", VStr "small")])])])))
    = Ok text
    /\ has_fragment "queue" text = false
    /\ includes "sqs" text = false.
Proof. eexists. repeat split; vm_compute; reflexivity. Qed.

(** ** Rendering twice in a row *)

Lemma path_join_file (base : path) :
  path_join base ["score.yaml"] = base ++ ["score.yaml"].
Proof. reflexivity. Qed.

Lemma removelast_snoc (base : path) (x : string) : removelast (base ++ [x]) = base.
Proof. apply removelast_last. Qed.

Lemma snoc_neq (base : path) (x : string) : base ++ [x] <> base.
Proof.
  intros H. apply (f_equal (@length string)) in H.
  rewrite length_app in H. cbn in H. lia.
Qed.

Lemma exists_in_insert (fl : gmap path node) (p p' : path) (nd : node) :
  p <> p' -> exists_in (<[p := nd]> fl) p' = exists_in fl p'.
Proof.
  intros Hne. unfold exists_in. destruct p'; [reflexivity |].
  now rewrite lookup_insert_ne.
Qed.

Lemma is_dir_insert (fl : gmap path node) (p p' : path) (nd : node) :
  p <> p' -> is_dir (<[p := nd]> fl) p' = is_dir fl p'.
Proof.
  intros Hne. unfold is_dir. destruct p'; [reflexivity |].
  now rewrite lookup_insert_ne.
Qed.

(** A file that was written can be written again, with the same result. *)
Lemma write_file_again (base : path) (x data : string) (fl fl' : gmap path node) :
  write_file (base ++ [x]) data fl = Ok fl' ->
  exists_in fl' base = true /\ write_file (base ++ [x]) data fl' = Ok fl'.
Proof.
  unfold write_file. rewrite removelast_snoc.
  destruct (exists_in fl base) eqn:He; [| discriminate].
  destruct (is_dir fl base) eqn:Hd; [| discriminate]. cbn [negb].
  destruct (fl !! _) as [[content|]|] eqn:Hp; try discriminate;
    intros [= <-];
    rewrite exists_in_insert, is_dir_insert, He, Hd by apply snoc_neq;
    cbn [negb]; rewrite lookup_insert_eq, insert_insert_eq; now split.
Qed.

Lemma generate_rendered (dirname : path) (config : value) (text : string) (w : world) :
  rejected config = false ->
  generateScoreYaml config = Ok text ->
  serve dirname (Generate config) w
  = let envDir := path_join dirname ["environment"] in
    let scoreFilePath := envDir ++ ["score.yaml"] in
    if exists_in (files w) envDir then
      match write_file scoreFilePath text (files w) with
      | Ok fl =>
          Outcome (Ok (score_written text)) (with_files fl w)
            [EExists envDir; EWrite scoreFilePath text]
      | Throw e =>
          Outcome (Ok (score_failed e)) w [EExists envDir; EWrite scoreFilePath text]
      end
    else
      match mkdir_p envDir (files w) with
      | Ok fl =>
          match write_file scoreFilePath text fl with
          | Ok fl' =>
              Outcome (Ok (score_written text)) (with_files fl' w)
                [EExists envDir; EMkdir envDir; EWrite scoreFilePath text]
          | Throw e =>
              Outcome (Ok (score_failed e)) (with_files fl w)
                [EExists envDir; EMkdir envDir; EWrite scoreFilePath text]
          end
      | Throw e => Outcome (Ok (score_failed e)) w [EExists envDir; EMkdir envDir]
      end.
Proof.
  unfold rejected. intros Hrej Htext.
  rewrite !orb_false_iff in Hrej. destruct Hrej as [[[[Ha Hb] Hc] Hd] He].
  unfold serve, route, api_generate.
  rewrite Ha, Hb, Hc, Hd, He, Htext, path_join_file. cbn [orb].
  cbv zeta. unfold_monad.
  destruct (exists_in (files w) (path_join dirname ["environment"])).
  - destruct (write_file _ text (files w)); reflexivity.
  - destruct (mkdir_p _ (files w)); [| reflexivity].
    cbn [files]. destruct (write_file _ text _); reflexivity.
Qed.

(** The generate route asked twice in a row for one descriptor: when the
    first answer is the score file, so is the second, and the disk is left
    as the first request left it. *)
Lemma generate_twice (dirname : path) (config : value) (w : world) (body : value) :
  returned (serve dirname (Generate config) w) = Ok (Json 200 body) ->
  serve dirname (Generate config) (after (serve dirname (Generate config) w))
  = Outcome (Ok (Json 200 body)) (after (serve dirname (Generate config) w))
      [EExists (path_join dirname ["environment"]);
       EWrite (path_join dirname ["environment"] ++ ["score.yaml"])
         match generateScoreYaml config with Ok text => text | Throw _ => "" end].
Proof.
  intros Hret.
  destruct (rejected config) eqn:Hrej.
  { destruct (generate_rejected dirname config w Hrej) as [msg Hmsg].
    rewrite Hmsg in Hret. discriminate. }
  destruct (generate_renders dirname config w) as (_ & _ & Hr).
  destruct (Hr _ Hret body eq_refl) as (text & Htext & ->).
  rewrite Htext.
  rewrite (generate_rendered dirname config text w Hrej Htext) in *.
  cbv zeta in *.
  destruct (exists_in (files w) (path_join dirname ["environment"])) eqn:He.
  - destruct (write_file _ text (files w)) as [fl | e] eqn:Hw; [| discriminate].
    cbn [after]. apply write_file_again in Hw as [He' Hw'].
    rewrite (generate_rendered dirname config text _ Hrej Htext). cbv zeta.
    unfold with_files at 1 2. cbn [files]. rewrite He', Hw'. reflexivity.
  - destruct (mkdir_p _ (files w)) as [fl | e] eqn:Hm; [| discriminate].
    destruct (write_file _ text fl) as [fl' | e] eqn:Hw; [| discriminate].
    cbn [after]. apply write_file_again in Hw as [He' Hw'].
    rewrite (generate_rendered dirname config text _ Hrej Htext). cbv zeta.
    unfold with_files at 1 2. cbn [files]. rewrite He', Hw'. reflexivity.
Qed.

(** ** Determinism *)

(** C4. The score file is a function of the descriptor: two renders of one
    descriptor that succeed, in whatever state of the server and of the
    disk, answer with the same body, and the text in it is the text written
    to the score file, the one [generateScoreYaml] gives; a render that
    succeeded, asked again, answers the same.  The Terraform text is a
    function of the score configuration, through the text of its region and
    of its name only. *)
Theorem rendering_is_deterministic :
  (forall dirname1 dirname2 config w1 w2 body1 body2,
     returned (serve dirname1 (Generate config) w1) = Ok (Json 200 body1) ->
     returned (serve dirname2 (Generate config) w2) = Ok (Json 200 body2) ->
     body1 = body2
     /\ exists text,
         generateScoreYaml config = Ok text
         /\ get body1 "scoreFile" = VStr text
         /\ Forall (fun e => forall p data, e = EWrite p data -> data = text)
              (effects (serve dirname1 (Generate config) w1)))
  /\ (forall dirname config w body,
        returned (serve dirname (Generate config) w) = Ok (Json 200 body) ->
        returned (serve dirname (Generate config)
                    (after (serve dirname (Generate config) w)))
        = Ok (Json 200 body))
  /\ (forall sc1 sc2 text1 text2,
        generateTerraformConfig sc1 = Some text1 ->
        generateTerraformConfig sc2 = Some text2 ->
        to_string (region_of sc1) = to_string (region_of sc2) ->
        to_string (name_of sc1) = to_string (name_of sc2) ->
        text1 = text2).
Proof.
  split; [| split].
  - intros dirname1 dirname2 config w1 w2 body1 body2 H1 H2.
    destruct (generate_renders dirname1 config w1) as (_ & He1 & Hr1).
    destruct (generate_renders dirname2 config w2) as (_ & _ & Hr2).
    destruct (Hr1 _ H1 body1 eq_refl) as (text1 & Ht1 & ->).
    destruct (Hr2 _ H2 body2 eq_refl) as (text2 & Ht2 & ->).
    rewrite Ht1 in Ht2. injection Ht2 as <-.
    split; [reflexivity |]. exists text1. repeat split; [assumption |].
    eapply Forall_impl; [exact He1 |]. cbn beta.
    intros e He p data Heq. specialize (He p data Heq). congruence.
  - intros dirname config w body Hret.
    now rewrite (generate_twice dirname config w body Hret).
  - intros sc1 sc2 text1 text2 H1 H2 Hr Hn.
    apply generateTerraformConfig_text in H1 as (r1 & n1 & Hr1 & Hn1 & ->).
    apply generateTerraformConfig_text in H2 as (r2 & n2 & Hr2 & Hn2 & ->).
    rewrite Hr1, Hr2 in Hr. rewrite Hn1, Hn2 in Hn.
    injection Hr as ->. injection Hn as ->. reflexivity.
Qed.

Lemma rendering_is_deterministic_witness :
  (exists text,
     generateScoreYaml orders = Ok text
     /\ get (VObj [("success", VBool true);
                   ("scoreFile",
                     VStr (join_lines
                             (score_lines "orders" "web" "aws" "eu-west-1"
                                [("database", "postgres")])));
                   ("message", VStr "Score file generated successfully")])
          "scoreFile"
        = VStr text
     /\ Forall (fun e => forall p data, e = EWrite p data -> data = text)
          (effects (serve srv (Generate orders) (started ∅ []))))
  /\ returned (serve srv (Generate orders)
                 (after (serve srv (Generate orders) (started ∅ []))))
     = Ok (score_written
             (join_lines
                (score_lines "orders" "web" "aws" "eu-west-1" [("database", "postgres")])))
  /\ hcl_providers "eu-west-1" +:+ hcl_vpc "eu-west-1" "orders" +:+ hcl_cluster "orders"
     = hcl_providers "eu-west-1" +:+ hcl_vpc "eu-west-1" "orders"
       +:+ hcl_cluster "orders".
Proof.
  destruct rendering_is_deterministic as (Hscore & Htwice & Hhcl).
  split; [| split].
  - apply (Hscore srv ["opt"; "app"] orders (started ∅ []) after_init
             (VObj [("success", VBool true);
                    ("scoreFile",
                      VStr (join_lines
                              (score_lines "orders" "web" "aws" "eu-west-1"
                                 [("database", "postgres")])));
                    ("message", VStr "Score file generated successfully")])
             (VObj [("success", VBool true);
                    ("scoreFile",
                      VStr (join_lines
                              (score_lines "orders" "web" "aws" "eu-west-1"
                                 [("database", "postgres")])));
                    ("message", VStr "Score file generated successfully")])).
    + vm_compute. reflexivity.
    + vm_compute. reflexivity.
  - apply (Htwice srv orders (started ∅ [])). vm_compute. reflexivity.
  - apply (Hhcl
             (VObj [("metadata", VObj [("name", VStr "orders")]);
                    ("spec",
                      VObj [("environment", VObj [("region", VStr "eu-west-1")]);
                            ("services", VObj [])])])
             (VObj [("metadata", VObj [("name", VArr [VStr "orders"])]);
                    ("spec",
                      VObj [("environment",
                              VObj [("region", VArr [VStr "eu-west-1"])])])])).
    + vm_compute. reflexivity.
    + vm_compute. reflexivity.
    + reflexivity.
    + reflexivity.
Defined.

(** ** The shape of the body *)

(** The generate route reads the region in [environment]: a body with the
    region beside the name is answered 400. *)
Example region_beside_the_name_is_rejected :
  serve srv
    (Generate
       (VObj [ ("name", VStr "orders");
               ("region", VStr "eu-west-1");
               ("services", VObj [ ("database", VBool true) ]) ]))
    (started ∅ [])
  = Outcome
      (Ok (sendResponse 400 [("error", VStr "AWS region is required")]))
      (started ∅ []) [].
Proof. reflexivity. Qed.

(** * Further properties *)

(** ** The feed, event by event *)

Lemma run_outputs_feed (pre : list proc_event) (st : run_state) :
  outputs_only pre ->
  settled st = Pending -> ended_of (res st) = false ->
  fold_left (on_event finish_feed) pre st
  = RunState (error st +:+ stderr_text pre) Pending
      (Stream (wire_of (res st) ++ map sse (map log_event (chunks pre))) false).
Proof.
  intros Hpre. revert st. induction Hpre as [|ev pre Hev _ IH]; intros st Hs He.
  - cbn. rewrite app_nil_r_s, app_nil_r. destruct st as [e s [w b]].
    cbn in *. now subst.
  - cbn [fold_left].
    destruct ev as [data | data | code | err]; try discriminate;
      rewrite IH; cbn [on_event settled res error]; try assumption;
      unfold res_write; rewrite He; cbn [wire_of ended_of stderr_text chunks map];
      rewrite <- ?app_assoc, ?app_assoc_s; reflexivity.
Qed.

Lemma run_after_end (post : list proc_event) (st : run_state) :
  settled st <> Pending -> ended_of (res st) = true ->
  res (fold_left (on_event finish_feed) post st) = res st.
Proof.
  revert st. induction post as [|ev post IH]; intros st Hs He; [reflexivity |].
  cbn [fold_left].
  assert (Hstep : settled (on_event finish_feed st ev) = settled st
                  /\ res (on_event finish_feed st ev) = res st).
  { destruct ev as [data | data | code | err]; cbn [on_event settled res].
    - unfold res_write. now rewrite He.
    - unfold res_write. now rewrite He.
    - destruct code as [[| |]|]; now rewrite settle_settled.
    - now rewrite settle_settled. }
  destruct Hstep as [Hs' Hr']. rewrite IH; rewrite ?Hs', ?Hr'; auto.
Qed.

Lemma feed_of_terminated (c : child) (pre post : list proc_event) (t : proc_event) :
  events c = pre ++ t :: post -> outputs_only pre -> is_output t = false ->
  feed_of c
  = EventStream (map sse (map log_event (chunks pre) ++ [closing_of pre t])) true.
Proof.
  intros Hev Hpre Ht. unfold feed_of, runCommandWithStream. rewrite Hev.
  rewrite fold_left_app. rewrite (run_outputs_feed pre) by (assumption || reflexivity).
  cbn [error res wire_of app fold_left]. rewrite app_nil_s.
  set (st := RunState (stderr_text pre) Pending
               (Stream (map sse (map log_event (chunks pre))) false)).
  assert (Hnow : settled (on_event finish_feed st t) <> Pending
                 /\ res (on_event finish_feed st t)
                    = Stream (map sse (map log_event (chunks pre) ++ [closing_of pre t]))
                        true).
  { destruct t as [data | data | code | err]; try discriminate; cbn [on_event].
    - destruct code as [[| |]|]; unfold settle; cbn [settled st];
        (split; [discriminate |]);
        cbn [res st finish_feed res_end res_write ended_of wire_of closing_of];
        unfold exit_error; now rewrite map_app.
    - unfold settle; cbn [settled st]. split; [discriminate |].
      cbn [res st finish_feed res_end res_write ended_of wire_of closing_of].
      now rewrite map_app. }
  destruct Hnow as [Hs Hr].
  rewrite run_after_end; rewrite ?Hr; auto.
Qed.

Lemma feed_of_running (c : child) :
  outputs_only (events c) ->
  feed_of c = EventStream (map sse (map log_event (chunks (events c)))) false.
Proof.
  intros Hev. unfold feed_of, runCommandWithStream.
  now rewrite run_outputs_feed.
Qed.

Lemma log_events_are_logs (texts : list string) :
  forallb is_log (map log_event texts) = true.
Proof. induction texts as [| text texts IH]; [reflexivity | exact IH]. Qed.

Lemma closing_of_cases (pre : list proc_event) (t : proc_event) :
  is_output t = false ->
  closing_of pre t
  = if succeeded t then completed_event else error_event (failure_text pre t).
Proof.
  destruct t as [d | d | [[| p | p] |] | err]; try discriminate; reflexivity.
Qed.

(** The init route on a session whose directory is there. *)
Lemma init_route_present (dirname : path) (sid reg : string) (c : child) (w : world) :
  sid <> "" -> reg <> "" ->
  is_dir (files w) (session_dir dirname sid) = true ->
  files w !! (session_dir dirname sid ++ ["main.tf"]) <> Some Dir ->
  returned (serve dirname (Init (Some sid) (Some reg) c) w) = Ok (feed_of c).
Proof.
  intros Hsid Hreg Hd Hmain.
  apply String.eqb_neq in Hsid, Hreg.
  assert (Hroute : exists w' es,
            route dirname (Init (Some sid) (Some reg) c) w
            = Outcome (Ok (feed_of c)) w' es).
  { cbn [route]. unfold api_terraform_init, missing. rewrite Hsid, Hreg.
    cbn [orb].
    replace (path_join (session_dir dirname sid) ["main.tf"])
      with (session_dir dirname sid ++ ["main.tf"]) by reflexivity.
    unfold_monad. fold (session_exists dirname (files w) sid).
    rewrite (session_exists_dir _ _ _ Hd). unfold write_file.
    rewrite removelast_snoc, (is_dir_exists _ _ Hd), Hd. cbn [negb].
    destruct (files w !! _) as [[content |] |] eqn:Hlook;
      try (now contradict Hmain);
      cbn [files]; rewrite is_dir_insert by apply snoc_neq;
      rewrite Hd; eauto. }
  destruct Hroute as (w' & es & Hroute).
  now rewrite (serve_ok _ _ _ _ _ _ Hroute).
Qed.

(** C6. The lifecycle requests are answered with a feed (plan, apply and
    destroy when the directory of the session is there, init on top of that
    when it can write [main.tf]), and the feed follows the tool.  Once the
    tool has closed or failed to start, the response has ended and the feed
    is the log events of the output that came before, then one terminal
    event, the only one of the feed and its last event: the [completed]
    status when the tool closed with code 0, an [error] event with the text
    of the failure otherwise.  While the tool has only written, the feed is
    log events, holds no terminal event and the response has not ended.  One
    of the two is the case for every tool. *)
Theorem feed_has_one_terminal_event (dirname : path) (w : world) :
  (forall r wire ended,
     returned (serve dirname r w) = Ok (EventStream wire ended) ->
     exists c,
       child_of r = Some c
       /\ (forall pre t post,
             events c = pre ++ t :: post -> outputs_only pre -> is_output t = false ->
             ended = true
             /\ wire
                = map sse
                    (map log_event (chunks pre)
                     ++ [if succeeded t then completed_event
                         else error_event (failure_text pre t)])
             /\ forallb is_log (map log_event (chunks pre)) = true
             /\ terminal (if succeeded t then completed_event
                          else error_event (failure_text pre t)) = true
             /\ length
                  (List.filter terminal
                     (map log_event (chunks pre)
                      ++ [if succeeded t then completed_event
                          else error_event (failure_text pre t)]))
                = 1%nat)
       /\ (outputs_only (events c) ->
           ended = false
           /\ wire = map sse (map log_event (chunks (events c)))
           /\ forallb is_log (map log_event (chunks (events c))) = true
           /\ List.filter terminal (map log_event (chunks (events c))) = [])
       /\ (outputs_only (events c)
           \/ exists pre t post,
                events c = pre ++ t :: post /\ outputs_only pre
                /\ is_output t = false))
  /\ (forall r sid c,
        r = Plan (Some sid) c \/ r = Apply (Some sid) c \/ r = Destroy (Some sid) c ->
        sid <> "" ->
        is_dir (files w) (session_dir dirname sid) = true ->
        returned (serve dirname r w) = Ok (feed_of c))
  /\ (forall sid reg c,
        sid <> "" -> reg <> "" ->
        is_dir (files w) (session_dir dirname sid) = true ->
        files w !! (session_dir dirname sid ++ ["main.tf"]) <> Some Dir ->
        returned (serve dirname (Init (Some sid) (Some reg) c) w) = Ok (feed_of c)).
Proof.
  split; [| split].
  - intros r wire ended Hret.
    destruct (serve_spec dirname r w) as (_ & _ & Hans).
    destruct (Hans _ Hret) as [(code & body & Heq) | (c & Hc & Heq)]; [discriminate |].
    exists c. split; [exact Hc |]. split; [| split].
    + intros pre t post Hev Hpre Ht.
      rewrite (feed_of_terminated c pre post t Hev Hpre Ht) in Heq.
      injection Heq as -> ->. rewrite (closing_of_cases pre t Ht).
      split; [reflexivity |]. split; [reflexivity |].
      split; [apply log_events_are_logs |].
      assert (Hterm : terminal (if succeeded t then completed_event
                                else error_event (failure_text pre t)) = true)
        by (now destruct (succeeded t)).
      split; [exact Hterm |].
      rewrite List.filter_app, filter_terminal_logs by apply log_events_are_logs.
      cbn [List.filter app]. now rewrite Hterm.
    + intros Hev. rewrite (feed_of_running c Hev) in Heq.
      injection Heq as -> ->. split; [reflexivity |]. split; [reflexivity |].
      split; [apply log_events_are_logs |].
      apply filter_terminal_logs, log_events_are_logs.
    + apply first_terminal.
  - intros r sid c Hr Hsid Hd.
    assert (Hroute : exists args,
              route dirname r = lifecycle_route dirname args (Some sid) c).
    { destruct Hr as [-> | [-> | ->]]; eexists; reflexivity. }
    destruct Hroute as [args Hroute].
    erewrite serve_ok; [reflexivity |].
    rewrite Hroute. now apply lifecycle_route_dir.
  - intros sid reg c. apply init_route_present.
Qed.

Lemma feed_has_one_terminal_event_witness :
  (exists c,
     child_of (Plan (Some "s1") tool_failing) = Some c
     /\ (forall pre t post,
           events c = pre ++ t :: post -> outputs_only pre -> is_output t = false ->
           true = true
           /\ [sse (log_event "Planning");
               sse (log_event "Error: No valid credential sources found");
               sse (error_event "Error: No valid credential sources found")]
              = map sse
                  (map log_event (chunks pre)
                   ++ [if succeeded t then completed_event
                       else error_event (failure_text pre t)])
           /\ forallb is_log (map log_event (chunks pre)) = true
           /\ terminal (if succeeded t then completed_event
                        else error_event (failure_text pre t)) = true
           /\ length
                (List.filter terminal
                   (map log_event (chunks pre)
                    ++ [if succeeded t then completed_event
                        else error_event (failure_text pre t)]))
              = 1%nat)
     /\ (outputs_only (events c) ->
         true = false
         /\ [sse (log_event "Planning");
             sse (log_event "Error: No valid credential sources found");
             sse (error_event "Error: No valid credential sources found")]
            = map sse (map log_event (chunks (events c)))
         /\ forallb is_log (map log_event (chunks (events c))) = true
         /\ List.filter terminal (map log_event (chunks (events c))) = [])
     /\ (outputs_only (events c)
         \/ exists pre t post,
              events c = pre ++ t :: post /\ outputs_only pre /\ is_output t = false))
  /\ returned (serve srv (Plan (Some "s1") tool_failing) after_init)
     = Ok (feed_of tool_failing)
  /\ returned (serve srv (Init (Some "s1") (Some "us-east-1") tool_ok) after_init)
     = Ok (feed_of tool_ok).
Proof.
  destruct (feed_has_one_terminal_event srv after_init)
    as (Hfeed & Hlifecycle & Hinit).
  split; [| split].
  - apply (Hfeed (Plan (Some "s1") tool_failing)
             [sse (log_event "Planning");
              sse (log_event "Error: No valid credential sources found");
              sse (error_event "Error: No valid credential sources found")]
             true).
    vm_compute. reflexivity.
  - apply (Hlifecycle (Plan (Some "s1") tool_failing) "s1" tool_failing);
      [left; reflexivity | discriminate | vm_compute; reflexivity].
  - apply (Hinit "s1" "us-east-1" tool_ok);
      [discriminate | discriminate | vm_compute; reflexivity | vm_compute; discriminate].
Defined.

(** X1. The feed of a lifecycle request is the output of the tool in the
    order it came, one log event for each chunk of standard output and of
    standard error alike, up to the first close or error of the tool; then
    the closing event, and the end: what the tool writes after that is not
    in the feed.  Until the tool closes the feed is the log events and is
    not ended. *)
Theorem feed_is_the_output_in_order (dirname : path) (r : request) (c : child)
    (w : world) (wire : list string) (ended : bool) :
  child_of r = Some c ->
  returned (serve dirname r w) = Ok (EventStream wire ended) ->
  (forall pre t post,
     events c = pre ++ t :: post -> outputs_only pre -> is_output t = false ->
     wire = map sse (map log_event (chunks pre) ++ [closing_of pre t])
     /\ ended = true)
  /\ (outputs_only (events c) ->
      wire = map sse (map log_event (chunks (events c))) /\ ended = false).
Proof.
  intros Hc Hret.
  destruct (serve_spec dirname r w) as (_ & _ & Hans).
  destruct (Hans _ Hret) as [(code & body & Heq) | (c' & Hc' & Heq)];
    [discriminate |].
  rewrite Hc in Hc'. injection Hc' as <-. split.
  - intros pre t post Hev Hpre Ht.
    rewrite (feed_of_terminated c pre post t Hev Hpre Ht) in Heq.
    now injection Heq as -> ->.
  - intros Hev. rewrite (feed_of_running c Hev) in Heq.
    now injection Heq as -> ->.
Qed.

Lemma feed_is_the_output_in_order_witness :
  [ sse (log_event "A"); sse (log_event "B"); sse (log_event "C");
    sse completed_event ]
  = map sse (map log_event (chunks [Stdout "A"; Stderr "B"; Stdout "C"])
             ++ [closing_of [Stdout "A"; Stderr "B"; Stdout "C"] (Close (Some 0))])
  /\ true = true.
Proof.
  destruct (feed_is_the_output_in_order srv
              (Plan (Some "s1")
                 (Child [Stdout "A"; Stderr "B"; Stdout "C"; Close (Some 0); Stdout "D"]
                    (fun fl => fl)))
              (Child [Stdout "A"; Stderr "B"; Stdout "C"; Close (Some 0); Stdout "D"]
                 (fun fl => fl))
              after_init
              [ sse (log_event "A"); sse (log_event "B"); sse (log_event "C");
                sse completed_event ]
              true eq_refl)
    as [Hdone _].
  - vm_compute. reflexivity.
  - apply (Hdone [Stdout "A"; Stderr "B"; Stdout "C"] (Close (Some 0)) [Stdout "D"]).
    + reflexivity.
    + repeat constructor.
    + reflexivity.
Defined.

(** ** The file system *)

Lemma write_file_lookup (p : path) (data : string) (fl fl' : gmap path node) :
  write_file p data fl = Ok fl' -> fl' !! p = Some (File data).
Proof.
  unfold write_file.
  destruct (negb (exists_in fl (removelast p))); [discriminate |].
  destruct (negb (is_dir fl (removelast p))); [discriminate |].
  destruct (fl !! _) as [[content|]|]; try discriminate;
    intros [= <-]; apply lookup_insert_eq.
Qed.

Lemma write_file_other (p p' : path) (data : string) (fl fl' : gmap path node) :
  write_file p data fl = Ok fl' -> p <> p' -> fl' !! p' = fl !! p'.
Proof.
  unfold write_file.
  destruct (negb (exists_in fl (removelast p))); [discriminate |].
  destruct (negb (is_dir fl (removelast p))); [discriminate |].
  destruct (fl !! _) as [[content|]|]; try discriminate;
    intros [= <-] Hne; now apply lookup_insert_ne.
Qed.

(** [mkdirSync] leaves alone what lies deeper than the directory it makes. *)
Lemma mkdir_from_deeper (todo : list string) (made target p' : path)
    (fl fl' : gmap path node) :
  mkdir_from made todo target fl = Ok fl' ->
  (length made + length todo < length p')%nat ->
  fl' !! p' = fl !! p'.
Proof.
  revert made fl. induction todo as [|seg todo IH]; intros made fl Hm Hlen.
  - cbn in Hm. now injection Hm as <-.
  - cbn [mkdir_from] in Hm. cbn [length] in Hlen.
    destruct (fl !! (made ++ [seg])) as [[content|]|] eqn:Hhere.
    + destruct todo; discriminate.
    + apply (IH _ _ Hm). rewrite length_app. cbn. lia.
    + rewrite (IH _ _ Hm) by (rewrite length_app; cbn; lia).
      apply lookup_insert_ne. intros Heq.
      apply (f_equal (@length string)) in Heq. rewrite length_app in Heq.
      cbn in Heq. lia.
Qed.

Lemma mkdir_p_deeper (p p' : path) (fl fl' : gmap path node) :
  mkdir_p p fl = Ok fl' -> (length p < length p')%nat -> fl' !! p' = fl !! p'.
Proof.
  unfold mkdir_p. intros Hm Hlen. now apply (mkdir_from_deeper p [] p p' fl fl').
Qed.

Lemma path_join_main (base : path) :
  path_join base ["main.tf"] = base ++ ["main.tf"].
Proof. reflexivity. Qed.

Lemma session_dir_dev (dirname : path) :
  path_join (path_join dirname ["environments"; "dev"]) ["score.yaml"]
  = dirname ++ ["environments"; "dev"; "score.yaml"].
Proof.
  change (path_join (path_join dirname ["environments"; "dev"]) ["score.yaml"])
    with (((dirname ++ ["environments"]) ++ ["dev"]) ++ ["score.yaml"]).
  now rewrite <- !app_assoc.
Qed.

Lemma environment_dir (dirname : path) :
  path_join dirname ["environment"] = dirname ++ ["environment"].
Proof. reflexivity. Qed.

(** ** The lifecycle routes, case by case *)

(** X2. A plan, apply or destroy request with an identifier starts the
    tool exactly when the directory the identifier resolves to is a
    directory on disk; it is answered 400 exactly when [fs.existsSync] does
    not find the path (nothing is there, or the identifier ends with a slash
    and a file is there), and then the disk and the working directory of the
    server are as before.  When the tool is started the working directory
    of the server process is the directory of the session. *)
Theorem lifecycle_starts_the_tool_iff_directory (dirname : path) (r : request)
    (sid : string) (c : child) (w : world) :
  r = Plan (Some sid) c \/ r = Apply (Some sid) c \/ r = Destroy (Some sid) c ->
  sid <> "" ->
  spawned (serve dirname r w) = is_dir (files w) (session_dir dirname sid)
  /\ ((exists body, returned (serve dirname r w) = Ok (Json 400 body))
      <-> session_exists dirname (files w) sid = false)
  /\ (session_exists dirname (files w) sid = false ->
      after (serve dirname r w) = w)
  /\ (is_dir (files w) (session_dir dirname sid) = true ->
      cwd (after (serve dirname r w)) = session_dir dirname sid
      /\ files (after (serve dirname r w)) = leaves c (files w))
  /\ session_exists dirname (files w) sid
     = if ends_with_slash sid then is_dir (files w) (session_dir dirname sid)
       else exists_in (files w) (session_dir dirname sid).
Proof.
  intros Hr Hsid.
  assert (Hroute : exists args, route dirname r = lifecycle_route dirname args (Some sid) c).
  { destruct Hr as [-> | [-> | ->]]; eexists; reflexivity. }
  destruct Hroute as [args Hroute].
  pose proof (session_exists_slash dirname (files w) sid Hsid) as Hslash.
  destruct (session_exists dirname (files w) sid) eqn:He.
  - destruct (is_dir (files w) (session_dir dirname sid)) eqn:Hd.
    + assert (Hs : serve dirname r w
                   = Outcome (Ok (feed_of c))
                       (World (leaves c (files w)) (processes w) (session_dir dirname sid))
                       [EExists (session_dir dirname sid);
                        EChdir (session_dir dirname sid);
                        ESpawn "terraform" args (session_dir dirname sid)]).
      { apply serve_ok. rewrite Hroute. now apply lifecycle_route_dir. }
      try rewrite He in Hslash. try rewrite Hd in Hslash.
      rewrite Hs. repeat split; try discriminate; try exact Hslash.
      intros [body Hb]. cbn in Hb. unfold feed_of in Hb. discriminate.
    + destruct (lifecycle_route_not_dir dirname args sid c w Hsid He Hd) as [e Hthrow].
      assert (Hs : serve dirname r w
                   = Outcome
                       (Ok (sendResponse 500 [("error", VStr "Internal server error")]))
                       w
                       [EExists (session_dir dirname sid);
                        EChdir (session_dir dirname sid)]).
      { unfold serve, try_catch. rewrite Hroute, Hthrow. reflexivity. }
      try rewrite He in Hslash. try rewrite Hd in Hslash.
      rewrite Hs. repeat split; try discriminate; try exact Hslash.
      intros [body Hb]. discriminate.
  - assert (Hd : is_dir (files w) (session_dir dirname sid) = false).
    { destruct (is_dir _ _) eqn:Hd; [| reflexivity].
      apply (session_exists_dir dirname) in Hd. congruence. }
    assert (Hs : serve dirname r w
                 = Outcome
                     (Ok (Json 400
                            (VObj [("error", VStr "Environment directory not found")])))
                     w [EExists (session_dir dirname sid)]).
    { apply serve_ok. rewrite Hroute. now apply lifecycle_route_absent. }
    try rewrite He in Hslash. try rewrite Hd in Hslash.
    rewrite Hs, Hd. repeat split; try discriminate; try exact Hslash; eauto.
Qed.

Lemma lifecycle_starts_the_tool_iff_directory_witness :
  spawned (serve srv (Destroy (Some "s1") tool_ok) after_init)
  = is_dir (files after_init) (session_dir srv "s1")
  /\ ((exists body,
         returned (serve srv (Destroy (Some "s1") tool_ok) after_init)
         = Ok (Json 400 body))
      <-> session_exists srv (files after_init) "s1" = false)
  /\ (session_exists srv (files after_init) "s1" = false ->
      after (serve srv (Destroy (Some "s1") tool_ok) after_init) = after_init)
  /\ (is_dir (files after_init) (session_dir srv "s1") = true ->
      cwd (after (serve srv (Destroy (Some "s1") tool_ok) after_init))
      = session_dir srv "s1"
      /\ files (after (serve srv (Destroy (Some "s1") tool_ok) after_init))
         = leaves tool_ok (files after_init))
  /\ session_exists srv (files after_init) "s1"
     = if ends_with_slash "s1" then is_dir (files after_init) (session_dir srv "s1")
       else exists_in (files after_init) (session_dir srv "s1").
Proof.
  apply (lifecycle_starts_the_tool_iff_directory srv (Destroy (Some "s1") tool_ok)
           "s1" tool_ok after_init).
  - right. right. reflexivity.
  - discriminate.
Defined.

(** The init route that gets as far as the tool, step by step. *)
Lemma init_route_feed (dirname : path) (sid reg : string) (c : child) (w : world)
    (wire : list string) (ended : bool) :
  returned (serve dirname (Init (Some sid) (Some reg) c) w)
  = Ok (EventStream wire ended) ->
  exists fl,
    write_file (session_dir dirname sid ++ ["main.tf"]) (mainTf reg)
      (if session_exists dirname (files w) sid then files w
       else match mkdir_p (session_dir dirname sid) (files w) with
            | Ok made => made
            | Throw _ => files w
            end)
    = Ok fl
    /\ is_dir fl (session_dir dirname sid) = true
    /\ serve dirname (Init (Some sid) (Some reg) c) w
       = Outcome (Ok (feed_of c))
           (World (leaves c fl) (processes w) (session_dir dirname sid))
           ((EExists (session_dir dirname sid)
             :: if session_exists dirname (files w) sid then []
                else [EMkdir (session_dir dirname sid)])
            ++ [EWrite (session_dir dirname sid ++ ["main.tf"]) (mainTf reg);
                EChdir (session_dir dirname sid);
                ESpawn "terraform" ["init"] (session_dir dirname sid)]).
Proof.
  intros Hret. pose proof (serve_feed _ _ _ _ _ Hret) as Heq.
  rewrite Heq in Hret. rewrite Heq. clear Heq. revert Hret.
  cbn [route]. unfold api_terraform_init. rewrite path_join_main.
  destruct (missing (Some sid) || missing (Some reg)).
  { cbn. discriminate. }
  unfold_monad. fold (session_exists dirname (files w) sid).
  destruct (session_exists dirname (files w) sid).
  - destruct (write_file _ _ (files w)) as [fl | e]; [| discriminate].
    cbn [files]. destruct (is_dir fl (session_dir dirname sid)) eqn:Hd;
      [| discriminate].
    intros _. exists fl. repeat split; assumption.
  - destruct (mkdir_p _ (files w)) as [made | e]; [| discriminate].
    cbn [files]. destruct (write_file _ _ made) as [fl | e]; [| discriminate].
    cbn [files]. destruct (is_dir fl (session_dir dirname sid)) eqn:Hd;
      [| discriminate].
    intros _. exists fl. repeat split; assumption.
Qed.

(** X3. An init request that is answered with a feed has, before the tool
    runs, put the template of its region in the [main.tf] of the session
    directory, whatever that file held, and made the session directory the
    working directory of the server process; the tool starts there, last of
    all, with the single argument [init]. *)
Theorem init_installs_the_template (dirname : path) (sid reg : string) (c : child)
    (w : world) (wire : list string) (ended : bool) :
  returned (serve dirname (Init (Some sid) (Some reg) c) w)
  = Ok (EventStream wire ended) ->
  exists fl,
    fl !! (session_dir dirname sid ++ ["main.tf"]) = Some (File (mainTf reg))
    /\ is_dir fl (session_dir dirname sid) = true
    /\ files (after (serve dirname (Init (Some sid) (Some reg) c) w)) = leaves c fl
    /\ cwd (after (serve dirname (Init (Some sid) (Some reg) c) w))
       = session_dir dirname sid
    /\ last (effects (serve dirname (Init (Some sid) (Some reg) c) w))
       = Some (ESpawn "terraform" ["init"] (session_dir dirname sid))
    /\ sid <> "" /\ reg <> "".
Proof.
  intros Hret.
  destruct (init_route_feed dirname sid reg c w wire ended Hret)
    as (fl & Hw & Hd & Hs).
  exists fl. rewrite Hs. cbn [after files cwd effects].
  repeat split; try assumption.
  - now apply write_file_lookup in Hw.
  - destruct (session_exists _ _ _); reflexivity.
  - intros ->. cbn in Hret. discriminate.
  - intros ->. revert Hret. unfold serve, try_catch. cbn [route].
    unfold api_terraform_init, missing.
    destruct (String.eqb sid ""); cbn; discriminate.
Qed.

Lemma init_installs_the_template_witness :
  exists fl,
    fl !! (session_dir srv "s1" ++ ["main.tf"]) = Some (File (mainTf "eu-west-1"))
    /\ is_dir fl (session_dir srv "s1") = true
    /\ files (after (serve srv (Init (Some "s1") (Some "eu-west-1") tool_ok) after_init))
       = leaves tool_ok fl
    /\ cwd (after (serve srv (Init (Some "s1") (Some "eu-west-1") tool_ok) after_init))
       = session_dir srv "s1"
    /\ last (effects (serve srv (Init (Some "s1") (Some "eu-west-1") tool_ok) after_init))
       = Some (ESpawn "terraform" ["init"] (session_dir srv "s1"))
    /\ "s1" <> "" /\ "eu-west-1" <> "".
Proof.
  apply (init_installs_the_template srv "s1" "eu-west-1" tool_ok after_init
           [sse (log_event "Terraform has been successfully initialized!");
            sse completed_event]
           true).
  vm_compute. reflexivity.
Defined.

(** ** The generate route and the disk *)

Lemma generate_written (dirname : path) (config : value) (w : world) (body : value) :
  returned (serve dirname (Generate config) w) = Ok (Json 200 body) ->
  exists text fl,
    generateScoreYaml config = Ok text
    /\ body
       = VObj [("success", VBool true); ("scoreFile", VStr text);
               ("message", VStr "Score file generated successfully")]
    /\ write_file (path_join dirname ["environment"] ++ ["score.yaml"]) text
         (if exists_in (files w) (path_join dirname ["environment"]) then files w
          else match mkdir_p (path_join dirname ["environment"]) (files w) with
               | Ok made => made
               | Throw _ => files w
               end)
       = Ok fl
    /\ after (serve dirname (Generate config) w) = with_files fl w.
Proof.
  intros Hret.
  destruct (rejected config) eqn:Hrej.
  { destruct (generate_rejected dirname config w Hrej) as [msg Hmsg].
    rewrite Hmsg in Hret. discriminate. }
  destruct (generate_renders dirname config w) as (_ & _ & Hr).
  destruct (Hr _ Hret body eq_refl) as (text & Htext & ->).
  exists text.
  rewrite (generate_rendered dirname config text w Hrej Htext) in *.
  cbv zeta in *.
  destruct (exists_in (files w) (path_join dirname ["environment"])).
  - destruct (write_file _ text (files w)) as [fl | e]; [| discriminate].
    exists fl. now repeat split.
  - destruct (mkdir_p _ (files w)) as [made | e]; [| discriminate].
    destruct (write_file _ text made) as [fl | e]; [| discriminate].
    exists fl. now repeat split.
Qed.

(** X4. When the generate route answers with a score file, the file
    [environment/score.yaml] beside the server holds that very text
    afterwards; the session store and the working directory of the server
    are as before. *)
Theorem generate_stores_what_it_answers (dirname : path) (config : value)
    (w : world) (body : value) :
  returned (serve dirname (Generate config) w) = Ok (Json 200 body) ->
  exists text,
    get body "scoreFile" = VStr text
    /\ files (after (serve dirname (Generate config) w))
         !! (dirname ++ ["environment"; "score.yaml"])
       = Some (File text)
    /\ processes (after (serve dirname (Generate config) w)) = processes w
    /\ cwd (after (serve dirname (Generate config) w)) = cwd w.
Proof.
  intros Hret.
  destruct (generate_written dirname config w body Hret)
    as (text & fl & Htext & -> & Hw & ->).
  exists text. cbn [files processes cwd with_files]. repeat split.
  apply write_file_lookup in Hw. rewrite environment_dir, <- app_assoc in Hw.
  exact Hw.
Qed.

Lemma generate_stores_what_it_answers_witness :
  exists text,
    get (VObj [("success", VBool true);
               ("scoreFile",
                 VStr (join_lines
                         (score_lines "orders" "web" "aws" "eu-west-1"
                            [("database", "postgres")])));
               ("message", VStr "Score file generated successfully")])
      "scoreFile"
    = VStr text
    /\ files (after (serve srv (Generate orders) after_init))
         !! (srv ++ ["environment"; "score.yaml"])
       = Some (File text)
    /\ processes (after (serve srv (Generate orders) after_init))
       = processes after_init
    /\ cwd (after (serve srv (Generate orders) after_init)) = cwd after_init.
Proof.
  apply (generate_stores_what_it_answers srv orders after_init).
  vm_compute. reflexivity.
Defined.

(** X5. The score route does not read what the generate route writes: on
    a disk without [environments/dev/score.yaml], the score route answers
    404 for every identifier also right after a generate request was
    answered with its score file. *)
Theorem score_lookup_misses_the_generated_file (dirname : path) (config : value)
    (w : world) (body : value) (sid : string) :
  files w !! (dirname ++ ["environments"; "dev"; "score.yaml"]) = None ->
  returned (serve dirname (Generate config) w) = Ok (Json 200 body) ->
  returned (serve dirname (Score sid) (after (serve dirname (Generate config) w)))
  = Ok (Json 404 (VObj [("error", VStr "Score file not found")])).
Proof.
  intros Hnone Hret.
  destruct (generate_written dirname config w body Hret)
    as (text & fl & _ & _ & Hw & ->).
  assert (Hfl : fl !! (dirname ++ ["environments"; "dev"; "score.yaml"]) = None).
  { rewrite (write_file_other _ _ _ _ _ Hw).
    - destruct (exists_in (files w) (path_join dirname ["environment"]));
        [assumption |].
      destruct (mkdir_p _ (files w)) as [made | e] eqn:Hm; [| assumption].
      rewrite (mkdir_p_deeper _ _ _ _ Hm); [assumption |].
      rewrite environment_dir, !length_app. cbn. lia.
    - rewrite environment_dir, <- app_assoc. intros Heq.
      apply app_inv_head in Heq. discriminate. }
  unfold serve, try_catch. cbn [route]. unfold api_score.
  rewrite session_dir_dev. unfold_monad.
  assert (He : exists_in fl (dirname ++ ["environments"; "dev"; "score.yaml"]) = false).
  { unfold exists_in. destruct (dirname ++ _) eqn:Hp.
    - now destruct dirname.
    - assert (Hfl' : fl !! (s :: l : path) = None) by exact Hfl.
      now rewrite Hfl'. }
  now rewrite He.
Qed.

Lemma score_lookup_misses_the_generated_file_witness :
  returned (serve srv (Score "s1") (after (serve srv (Generate orders) after_init)))
  = Ok (Json 404 (VObj [("error", VStr "Score file not found")])).
Proof.
  apply (score_lookup_misses_the_generated_file srv orders after_init
           (VObj [("success", VBool true);
                  ("scoreFile",
                    VStr (join_lines
                            (score_lines "orders" "web" "aws" "eu-west-1"
                               [("database", "postgres")])));
                  ("message", VStr "Score file generated successfully")])
           "s1").
  - vm_compute. reflexivity.
  - vm_compute. reflexivity.
Defined.

(** X6. A descriptor that passes the three checks of the generate route
    and has no services (none, or a falsy value) is answered 500 with the
    error of the renderer; nothing on disk is looked at or written. *)
Theorem generate_without_services_fails (dirname : path) (config : value) (w : world) :
  rejected config = false ->
  truthy (get config "services") = false ->
  serve dirname (Generate config) w
  = Outcome
      (Ok (Json 500
             (VObj [("success", VBool false);
                    ("error", VStr "Failed to generate score configuration")])))
      w [].
Proof.
  unfold rejected. intros Hrej Hsv.
  rewrite !orb_false_iff in Hrej. destruct Hrej as [[[[Ha Hb] Hc] Hd] He].
  assert (Hg : generateScoreYaml config
               = Throw (Error "Failed to generate score configuration")).
  { unfold generateScoreYaml. rewrite Hsv, orb_true_r.
    now destruct config. }
  unfold serve, route, api_generate.
  rewrite Ha, Hb, Hc, Hd, He, Hg. reflexivity.
Qed.

Lemma generate_without_services_fails_witness :
  serve srv
    (Generate (VObj [("name", VStr "orders");
                     ("environment", VObj [("region", VStr "eu-west-1")])]))
    after_init
  = Outcome
      (Ok (Json 500
             (VObj [("success", VBool false);
                    ("error", VStr "Failed to generate score configuration")])))
      after_init [].
Proof.
  apply (generate_without_services_fails srv
           (VObj [("name", VStr "orders");
                  ("environment", VObj [("region", VStr "eu-west-1")])])
           after_init); reflexivity.
Defined.

(** ** The renderer *)

(** X7. The score file of a descriptor of strings with a name and with
    services, line by line: the name and the region as JSON strings, [web]
    and [aws] where the type and the execution environment are empty, and
    the fragments of the services asked for, in the order database, cache,
    queue. *)
Theorem score_file_of_a_descriptor (d : descriptor) :
  app_name d <> "" ->
  truthy (app_services d) = true ->
  generateScoreYaml (to_config d)
  = Ok (join_lines
          (score_lines (app_name d) (or_default (env_type d) "web")
             (or_default (env_exec d) "aws") (env_region d)
             (requested (app_services d)))).
Proof.
  intros Hn Hs. unfold generateScoreYaml, to_config.
  cbn [get assoc String.eqb Ascii.eqb Bool.eqb andb truthy].
  rewrite score_text_of_descriptor, Hs.
  apply String.eqb_neq in Hn. now rewrite Hn.
Qed.

Lemma score_file_of_a_descriptor_witness :
  generateScoreYaml
    (to_config (Descriptor "shop" "" "lambda" "us-east-1"
                  (VObj [("cache", VBool true); ("queue", VNum 1)])))
  = Ok (join_lines
          (score_lines "shop" "web" "lambda" "us-east-1"
             [("cache", "redis"); ("queue", "rabbitmq")])).
Proof.
  apply (score_file_of_a_descriptor
           (Descriptor "shop" "" "lambda" "us-east-1"
              (VObj [("cache", VBool true); ("queue", VNum 1)])));
    [discriminate | reflexivity].
Defined.

Lemma get_strict_nullish (o : value) (k : string) :
  get_strict o k = if nullish o then None else Some (get o k).
Proof. now destruct o. Qed.

Lemma generateTerraformConfig_eq (scoreConfig : value) :
  generateTerraformConfig scoreConfig
  = if nullish scoreConfig || nullish (get scoreConfig "spec")
       || nullish (get (get scoreConfig "spec") "environment")
       || nullish (get scoreConfig "metadata")
    then None
    else
      region_text ← to_string (region_of scoreConfig);
      name_text ← to_string (name_of scoreConfig);
      Some (hcl_providers region_text +:+ hcl_vpc region_text name_text
              +:+ hcl_cluster name_text).
Proof.
  unfold generateTerraformConfig, region_of, name_of.
  rewrite !get_strict_nullish.
  destruct (nullish scoreConfig); [reflexivity |].
  cbn [mbind option_bind orb]. rewrite !get_strict_nullish.
  destruct (nullish (get scoreConfig "spec")); [reflexivity |].
  cbn [mbind option_bind orb]. rewrite !get_strict_nullish.
  destruct (nullish (get (get scoreConfig "spec") "environment")); [reflexivity |].
  cbn [mbind option_bind orb]. rewrite ?get_strict_nullish.
  destruct (nullish (get scoreConfig "metadata")); reflexivity.
Qed.

Lemma to_string_scalar (v : value) :
  scalar v = true -> exists text, to_string v = Some text.
Proof. destruct v; try discriminate; intros _; eexists; reflexivity. Qed.

(** X8. [generateTerraformConfig] throws exactly when the score
    configuration, its [spec], the [environment] of the spec or its
    [metadata] is [undefined] or [null], or when the region or the name
    cannot be turned to text (an object with a [toString] property of its
    own, or an array that holds one).  A region or a name that is missing,
    a string, a number or a boolean does not stop it: on the score
    configuration [generateScoreYaml] builds, with a region and a name that
    have a text, it returns the text of the templates for them. *)
Theorem generateTerraformConfig_fails_iff (scoreConfig : value) :
  (generateTerraformConfig scoreConfig = None
   <-> nullish scoreConfig || nullish (get scoreConfig "spec")
       || nullish (get (get scoreConfig "spec") "environment")
       || nullish (get scoreConfig "metadata") = true
       \/ to_string (region_of scoreConfig) = None
       \/ to_string (name_of scoreConfig) = None)
  /\ (forall name environment services region_text name_text,
        to_string (get environment "region") = Some region_text ->
        to_string name = Some name_text ->
        generateTerraformConfig (scoreConfig_of name environment services)
        = Some (hcl_providers region_text +:+ hcl_vpc region_text name_text
                +:+ hcl_cluster name_text))
  /\ (forall v props,
        (scalar v = true -> exists text, to_string v = Some text)
        /\ to_string (VObj props)
           = if has_own "toString" props then None else Some "[object Object]").
Proof.
  split; [| split].
  - rewrite generateTerraformConfig_eq.
    destruct (_ || _ || _ || _).
    + split; [intros _; now left | reflexivity].
    + destruct (to_string (region_of scoreConfig)) as [region_text |];
        destruct (to_string (name_of scoreConfig)) as [name_text |];
        cbn [mbind option_bind]; split; try discriminate; try tauto;
        intros [H | [H | H]]; discriminate.
  - intros name environment services region_text name_text Hr Hn.
    rewrite generateTerraformConfig_eq.
    change (region_of (scoreConfig_of name environment services))
      with (get environment "region").
    change (name_of (scoreConfig_of name environment services)) with name.
    rewrite Hr, Hn. reflexivity.
  - intros v props. split; [apply to_string_scalar | reflexivity].
Qed.

Lemma includes_refl (s : string) : includes s s = true.
Proof. apply includes_spec. exists "", "". now rewrite app_nil_r_s. Qed.

Lemma includes_line (ls : list string) (n : nat) (l : string) :
  nth_error ls n = Some l -> includes l (join_lines ls) = true.
Proof. intros H. eapply includes_join_nth; [exact H | apply includes_refl]. Qed.

(** X9. The Terraform text of a score configuration always declares the
    provider in the region of the configuration, the cluster and the
    PostgreSQL database named after the application, whatever services the
    configuration holds: the region and the name are turned to text (as a
    template literal does) and put between the quotes as they are. *)
Theorem generateTerraformConfig_declares (scoreConfig : value) (text : string) :
  generateTerraformConfig scoreConfig = Some text ->
  exists region name,
    to_string (region_of scoreConfig) = Some region
    /\ to_string (name_of scoreConfig) = Some name
    /\ includes ("  region = " +:+ q region) text = true
    /\ includes ("  cluster_name    = " +:+ q (name +:+ "-cluster")) text = true
    /\ includes ("resource " +:+ q "aws_db_instance" +:+ " " +:+ q "main" +:+ " {") text
       = true
    /\ includes ("  identifier           = " +:+ q (name +:+ "-db")) text = true
    /\ includes ("  engine              = " +:+ q "postgres") text = true.
Proof.
  intros H. apply generateTerraformConfig_text in H as (region & name & Hr & Hn & ->).
  exists region, name. split; [exact Hr |]. split; [exact Hn |].
  repeat split.
  - apply includes_app_l. unfold hcl_providers.
    eapply (includes_line _ 1). reflexivity.
  - apply includes_app_r, includes_app_r. unfold hcl_cluster.
    eapply (includes_line _ 4). reflexivity.
  - apply includes_app_r, includes_app_r. unfold hcl_cluster.
    eapply (includes_line _ 106). reflexivity.
  - apply includes_app_r, includes_app_r. unfold hcl_cluster.
    eapply (includes_line _ 107). reflexivity.
  - apply includes_app_r, includes_app_r. unfold hcl_cluster.
    eapply (includes_line _ 110). reflexivity.
Qed.

Lemma generateTerraformConfig_declares_witness :
  exists region name,
    to_string (region_of (scoreConfig_of (VNum (10 ^ 21))
                            (VObj [("region", VStr "eu-west-1")]) (VObj [])))
    = Some region
    /\ to_string (name_of (scoreConfig_of (VNum (10 ^ 21))
                             (VObj [("region", VStr "eu-west-1")]) (VObj [])))
       = Some name
    /\ includes ("  region = " +:+ q region)
         (hcl_providers "eu-west-1" +:+ hcl_vpc "eu-west-1" "1e+21"
          +:+ hcl_cluster "1e+21")
       = true
    /\ includes ("  cluster_name    = " +:+ q (name +:+ "-cluster"))
         (hcl_providers "eu-west-1" +:+ hcl_vpc "eu-west-1" "1e+21"
          +:+ hcl_cluster "1e+21")
       = true
    /\ includes ("resource " +:+ q "aws_db_instance" +:+ " " +:+ q "main" +:+ " {")
         (hcl_providers "eu-west-1" +:+ hcl_vpc "eu-west-1" "1e+21"
          +:+ hcl_cluster "1e+21")
       = true
    /\ includes ("  identifier           = " +:+ q (name +:+ "-db"))
         (hcl_providers "eu-west-1" +:+ hcl_vpc "eu-west-1" "1e+21"
          +:+ hcl_cluster "1e+21")
       = true
    /\ includes ("  engine              = " +:+ q "postgres")
         (hcl_providers "eu-west-1" +:+ hcl_vpc "eu-west-1" "1e+21"
          +:+ hcl_cluster "1e+21")
       = true.
Proof.
  apply (generateTerraformConfig_declares
           (scoreConfig_of (VNum (10 ^ 21)) (VObj [("region", VStr "eu-west-1")])
              (VObj []))).
  vm_compute. reflexivity.
Defined.

(** ** The helpers on [execa] *)

(** X10. The helpers on [execa] do not report a failure of the tool:
    [runTerraformCommand] turns a rejection into a result, so
    [initTerraform] answers [{success: true}] whatever the tool did, and
    [planTerraform] and [applyTerraform] answer [success: true] with the
    outcome of the tool one level down, under [output]. *)
Theorem terraform_helpers_report_success (execa : execa_call -> execa_outcome)
    (process_env : gmap string string) (envDir : path) (region : string) :
  initTerraform execa process_env envDir region = VObj [("success", VBool true)]
  /\ get (planTerraform execa process_env envDir region) "success" = VBool true
  /\ get (get (planTerraform execa process_env envDir region) "output") "success"
     = VBool (resolved
                (execa (terraform_call process_env ["plan"; "-out=tfplan"] envDir region)))
  /\ get (applyTerraform execa process_env envDir region) "success" = VBool true
  /\ get (get (applyTerraform execa process_env envDir region) "output") "success"
     = VBool (resolved
                (execa (terraform_call process_env ["apply"; "tfplan"] envDir region))).
Proof.
  unfold initTerraform, planTerraform, applyTerraform, runTerraformCommand,
    terraform_call.
  change (split_on " " "init") with ["init"].
  change (split_on " " "plan -out=tfplan") with ["plan"; "-out=tfplan"].
  change (split_on " " "apply tfplan") with ["apply"; "tfplan"].
  repeat split;
    match goal with
    | |- context [execa ?c] => destruct (execa c)
    end; reflexivity.
Qed.

(** ** The supervisor without a response *)

Lemma await_null_first (evs : list proc_event) :
  await_null ("", Pending) evs
  = match evs with
    | [] => Hangs
    | Stdout _ :: _ | Stderr _ :: _ => Crashes null_write
    | Close (Some 0) :: _ => Returns Resolved
    | Close code :: _ => Returns (Rejected (exit_error "" code))
    | SpawnError err :: _ => Returns (Rejected err)
    end.
Proof. destruct evs as [| [d | d | [[| p | p] |] | e] rest]; reflexivity. Qed.

Lemma checkTerraformState_first (c : child) :
  checkTerraformState c
  = match events c with
    | [] => Hangs
    | Stdout _ :: _ | Stderr _ :: _ => Crashes null_write
    | Close (Some 0) :: _ => Returns true
    | Close _ :: _ | SpawnError _ :: _ => Returns false
    end.
Proof.
  unfold checkTerraformState. rewrite await_null_first.
  destruct (events c) as [| [d | d | [[| p | p] |] | e] rest]; reflexivity.
Qed.

(** X11. [checkTerraformState] is decided by the first thing the tool
    does.  It answers [true] exactly when the tool closes with code 0
    without having written anything; any output of the tool, on either
    stream, reaches [res.write] on [null] and ends the server process; and
    when it answers at all, the tool had written nothing. *)
Theorem checkTerraformState_wants_a_silent_tool (c : child) :
  (checkTerraformState c = Returns true
   <-> exists rest, events c = Close (Some 0) :: rest)
  /\ (checkTerraformState c = Crashes null_write
      <-> exists ev rest, events c = ev :: rest /\ is_output ev = true)
  /\ (forall b, checkTerraformState c = Returns b ->
      exists ev rest, events c = ev :: rest /\ is_output ev = false).
Proof.
  rewrite checkTerraformState_first.
  destruct (events c) as [| [d | d | [[| p | p] |] | e] rest]; repeat split;
    try discriminate; try (intros; eauto; fail);
    try (intros [? [=]]; fail);
    try (intros (? & ? & [= <- <-] & [=]); fail);
    try (intros (? & ? & [=] & _); fail);
    try (intros ? _; eexists _, _; split; reflexivity).
Qed.

(** X12. [getTerraformOutput] never answers with the outputs of the tool.
    The promise it awaits resolves with [undefined], the text [JSON.parse]
    is given is that of [undefined], and the parse error is caught: whatever
    the tool did, an answer is the fallback object with no VPC and no
    subnets.  It does answer when each of the two commands it runs closes
    or fails to start before writing anything. *)
Theorem getTerraformOutput_answers_the_fallback
    (JSON_parse : string -> result value) (c1 c2 : child) :
  (exists e, JSON_parse "undefined" = Throw e) ->
  (forall v, getTerraformOutput JSON_parse c1 c2 = Returns v -> v = no_outputs)
  /\ (forall ev1 rest1 ev2 rest2,
        events c1 = ev1 :: rest1 -> is_output ev1 = false ->
        events c2 = ev2 :: rest2 -> is_output ev2 = false ->
        getTerraformOutput JSON_parse c1 c2 = Returns no_outputs).
Proof.
  intros [e He]. unfold getTerraformOutput.
  rewrite checkTerraformState_first, await_null_first.
  change (to_string VUndef) with (Some "undefined"). cbn iota. rewrite He.
  split.
  - intros v.
    destruct (events c1) as [| [d | d | [[| p | p] |] | e1] rest1];
      try discriminate; try (now intros [= <-]);
      destruct (events c2) as [| [d | d | [[| p | p] |] | e2] rest2];
      try discriminate; now intros [= <-].
  - intros ev1 rest1 ev2 rest2 -> H1 -> H2.
    destruct ev1 as [d | d | [[| p | p] |] | e1]; try discriminate;
      try reflexivity;
      destruct ev2 as [d | d | [[| p | p] |] | e2]; try discriminate;
      reflexivity.
Qed.

Lemma getTerraformOutput_answers_the_fallback_witness :
  (forall v,
     getTerraformOutput
       (fun s => if String.eqb s "undefined"
                 then Throw (Error "Unexpected token u in JSON at position 0")
                 else Ok VNull)
       tool_silent tool_silent
     = Returns v -> v = no_outputs)
  /\ (forall ev1 rest1 ev2 rest2,
        events tool_silent = ev1 :: rest1 -> is_output ev1 = false ->
        events tool_silent = ev2 :: rest2 -> is_output ev2 = false ->
        getTerraformOutput
          (fun s => if String.eqb s "undefined"
                    then Throw (Error "Unexpected token u in JSON at position 0")
                    else Ok VNull)
          tool_silent tool_silent
        = Returns no_outputs).
Proof.
  apply (getTerraformOutput_answers_the_fallback
           (fun s => if String.eqb s "undefined"
                     then Throw (Error "Unexpected token u in JSON at position 0")
                     else Ok VNull)
           tool_silent tool_silent).
  eexists. reflexivity.
Defined.

(** ** Session directories *)

Lemma segments_slash_free (s : string) : slash_free s = true -> segments s = [s].
Proof.
  induction s as [| c r IH]; [reflexivity |].
  cbn [slash_free segments]. intros [Hc Hr]%andb_true_iff.
  apply negb_true_iff in Hc. rewrite Hc, (IH Hr). reflexivity.
Qed.

Lemma plain_slash_free (s : string) : plain s = true -> slash_free s = true.
Proof.
  unfold plain. intros H. repeat (apply andb_true_iff in H as [H _]). exact H.
Qed.

Lemma normalize_step_plain (acc : path) (s : string) :
  plain s = true -> normalize_step acc s = acc ++ [s].
Proof.
  unfold plain, normalize_step. intros H.
  apply andb_true_iff in H as [H H3]. apply andb_true_iff in H as [H H2].
  apply andb_true_iff in H as [_ H1].
  apply negb_true_iff in H1, H2, H3. now rewrite H1, H2, H3.
Qed.

Lemma session_dir_plain (dirname : path) (sid : string) :
  plain sid = true -> session_dir dirname sid = dirname ++ ["environments"; sid].
Proof.
  intros H. unfold session_dir, path_join.
  cbn [map concat]. change (segments "environments") with ["environments"].
  rewrite (segments_slash_free sid (plain_slash_free sid H)).
  cbn [app fold_left].
  change (normalize_step dirname "environments") with (dirname ++ ["environments"]).
  rewrite (normalize_step_plain _ sid H), <- app_assoc. reflexivity.
Qed.

Lemma session_dir_up (dirname : path) (x : string) :
  plain x = true ->
  session_dir dirname ("../../" +:+ x) = removelast dirname ++ [x].
Proof.
  intros H. unfold session_dir, path_join.
  cbn [map concat]. change (segments "environments") with ["environments"].
  assert (Hs : segments ("../../" +:+ x) = [".."; ".."; x]).
  { change ("../../" +:+ x)
      with (String "." (String "." (String "/"
             (String "." (String "." (String "/" x)))))).
    cbn [segments Ascii.eqb Bool.eqb].
    now rewrite (segments_slash_free x (plain_slash_free x H)). }
  rewrite Hs. cbn [app fold_left].
  change (normalize_step dirname "environments") with (dirname ++ ["environments"]).
  change (normalize_step (dirname ++ ["environments"]) "..")
    with (removelast (dirname ++ ["environments"])).
  rewrite removelast_snoc.
  change (normalize_step dirname "..") with (removelast dirname).
  apply normalize_step_plain, H.
Qed.

(** X13. Sessions with plain identifiers are apart on disk.  For an
    identifier that is one path segment (not empty, without a slash, neither
    [.] nor [..]) the directory of the session is
    [<dirname>/environments/<identifier>], and an init, plan, apply or
    destroy request for one such session looks at, writes and starts the tool
    in no path under the directory of another. *)
Theorem plain_sessions_are_apart (dirname : path) (r : request)
    (sid sid' : string) (c : child) (w : world) :
  plain sid = true -> plain sid' = true -> sid <> sid' ->
  (exists reg, r = Init (Some sid) reg c) \/ r = Plan (Some sid) c
  \/ r = Apply (Some sid) c \/ r = Destroy (Some sid) c ->
  session_dir dirname sid = dirname ++ ["environments"; sid]
  /\ Forall (fun e => ~ session_dir dirname sid' `prefix_of` effect_path e)
       (effects (serve dirname r w)).
Proof.
  intros Hp Hp' Hne Hr. split; [now apply session_dir_plain |].
  destruct (lifecycle_route_effects dirname r sid c Hr w) as (_ & HE & _).
  eapply Forall_impl; [exact HE |].
  intros e Hpre Hpre'. cbv beta in Hpre.
  rewrite (session_dir_plain _ _ Hp) in Hpre.
  rewrite (session_dir_plain _ _ Hp') in Hpre'.
  assert (Heq : dirname ++ ["environments"; sid] = dirname ++ ["environments"; sid']).
  { destruct (prefix_weak_total _ _ _ Hpre Hpre') as [H | H];
      [| symmetry]; apply (prefix_length_eq _ _ H);
      rewrite !length_app; reflexivity. }
  apply app_inv_head in Heq. congruence.
Qed.

Lemma plain_sessions_are_apart_witness :
  session_dir srv "s1" = srv ++ ["environments"; "s1"]
  /\ Forall (fun e => ~ session_dir srv "s2" `prefix_of` effect_path e)
       (effects (serve srv (Plan (Some "s1") tool_ok) two_sessions)).
Proof.
  apply (plain_sessions_are_apart srv (Plan (Some "s1") tool_ok) "s1" "s2" tool_ok
           two_sessions);
    [reflexivity | reflexivity | discriminate | right; left; reflexivity].
Defined.

(** X14. The identifier of a session is joined to the path as it comes:
    with [../../] in front of a plain name the directory of the session is a
    sibling of the directory of the server, and a successful init request
    for it makes that directory and writes the template there, outside
    [<dirname>/environments]. *)
Theorem session_identifier_leaves_the_server_directory (dirname : path)
    (x reg : string) (c : child) (w : world) (wire : list string) (ended : bool) :
  plain x = true -> dirname <> [] ->
  returned (serve dirname (Init (Some ("../../" +:+ x)) (Some reg) c) w)
  = Ok (EventStream wire ended) ->
  In (EWrite (removelast dirname ++ [x; "main.tf"]) (mainTf reg))
    (effects (serve dirname (Init (Some ("../../" +:+ x)) (Some reg) c) w))
  /\ cwd (after (serve dirname (Init (Some ("../../" +:+ x)) (Some reg) c) w))
     = removelast dirname ++ [x]
  /\ ~ (dirname ++ ["environments"]) `prefix_of` (removelast dirname ++ [x; "main.tf"]).
Proof.
  intros Hp Hd Hret.
  destruct (init_route_feed _ _ _ _ _ _ _ Hret) as (fl & _ & _ & Heq).
  rewrite Heq. cbn [effects after cwd]. rewrite (session_dir_up _ _ Hp).
  split; [| split; [reflexivity |]].
  - apply in_or_app. right. left. now rewrite <- app_assoc.
  - intros Hpre.
    assert (Hlen : length (removelast dirname ++ [x; "main.tf"])
                   = length (dirname ++ ["environments"])).
    { destruct (exists_last Hd) as (d' & a & ->).
      rewrite removelast_snoc, !length_app. cbn [length]. lia. }
    apply prefix_length_eq in Hpre; [| lia].
    change [x; "main.tf"] with ([x] ++ ["main.tf"]) in Hpre.
    rewrite app_assoc in Hpre. apply app_inj_tail in Hpre as [_ [=]].
Qed.

Lemma session_identifier_leaves_the_server_directory_witness :
  In (EWrite (removelast ["opt"; "srv"] ++ ["etc"; "main.tf"]) (mainTf "us-east-1"))
    (effects (serve ["opt"; "srv"] (Init (Some ("../../" +:+ "etc")) (Some "us-east-1") tool_ok)
                (started ∅ [])))
  /\ cwd (after (serve ["opt"; "srv"]
                   (Init (Some ("../../" +:+ "etc")) (Some "us-east-1") tool_ok)
                   (started ∅ [])))
     = removelast ["opt"; "srv"] ++ ["etc"]
  /\ ~ (["opt"; "srv"] ++ ["environments"])
       `prefix_of` (removelast ["opt"; "srv"] ++ ["etc"; "main.tf"]).
Proof.
  apply (session_identifier_leaves_the_server_directory ["opt"; "srv"] "etc"
           "us-east-1" tool_ok (started ∅ [])
           [sse (log_event "Terraform has been successfully initialized!");
            sse completed_event]
           true);
    [reflexivity | discriminate | vm_compute; reflexivity].
Defined.

(** ** The form and the renderer *)

Lemma assoc_set_prop (ps : list (string * value)) (k k' : string) (v : value) :
  assoc k (set_prop ps k' v) = if String.eqb k k' then v else assoc k ps.
Proof.
  induction ps as [| [k0 v0] r IH]; cbn [set_prop assoc].
  - reflexivity.
  - destruct (String.eqb_spec k' k0) as [-> | Hne]; cbn [assoc].
    + now destruct (String.eqb k k0).
    + rewrite IH. destruct (String.eqb_spec k k0) as [-> | Hne'].
      * apply String.eqb_neq in Hne. rewrite String.eqb_sym in Hne.
        now rewrite Hne.
      * reflexivity.
Qed.

Lemma set_prop_fresh (ps : list (string * value)) (k k' : string) (v : value) :
  In k' (map fst (set_prop ps k v)) -> k' = k \/ In k' (map fst ps).
Proof.
  induction ps as [| [k0 v0] r IH]; cbn [set_prop map fst In].
  - intros [<- | []]. now left.
  - destruct (String.eqb_spec k k0) as [-> | Hne]; cbn [map fst In].
    + intros H. now right.
    + intros [<- | H]; [right; now left |].
      destruct (IH H); [now left | right; now right].
Qed.

Lemma set_prop_keys (ps : list (string * value)) (k : string) (v : value) :
  List.NoDup (map fst ps) -> List.NoDup (map fst (set_prop ps k v)).
Proof.
  induction ps as [| [k0 v0] r IH]; cbn [set_prop map fst]; intros Hnd.
  - constructor; [intros [] | constructor].
  - destruct (String.eqb_spec k k0) as [-> | Hne]; cbn [map fst]; [exact Hnd |].
    destruct (proj1 (List.NoDup_cons_iff _ _) Hnd) as [Hnot Hnd'].
    constructor; [| now apply IH].
    intros Hin. apply set_prop_fresh in Hin as [-> | Hin]; [now apply Hne | tauto].
Qed.

Lemma assoc_absent (ps : list (string * value)) (k : string) :
  ~ In k (map fst ps) -> assoc k ps = VUndef.
Proof.
  induction ps as [| [k0 v0] r IH]; cbn [assoc map fst In]; [reflexivity |].
  intros H. destruct (String.eqb_spec k k0) as [-> | Hne]; [tauto |].
  apply IH. tauto.
Qed.

Lemma sent_obj (ps : list (string * value)) : sent (VObj ps) = VObj (sent_props ps).
Proof.
  enough (H : spread (sent (VObj ps)) = sent_props ps) by (now rewrite <- H).
  induction ps as [| [k x] r IH]; [reflexivity |].
  cbn [sent spread] in IH. cbn [sent spread sent_props flat_map snd fst].
  fold (sent_props r). rewrite IH. now destruct x.
Qed.

Lemma sent_arr (l : list value) : sent (VArr l) = VArr (sent_elems l).
Proof.
  enough (H : match sent (VArr l) with VArr l' => l' | _ => [] end = sent_elems l)
    by (now rewrite <- H).
  induction l as [| x r IH]; [reflexivity |].
  cbn [sent] in IH. cbn [sent sent_elems map]. fold (sent_elems r).
  now rewrite IH.
Qed.

(** The value the route gets has the JSON text of the value the page
    serialised. *)
Lemma serialize_sent (gap : string) (v : value) :
  forall indent, serialize gap indent (sent v) = serialize gap indent v.
Proof.
  induction v as [| | b | z | s | l IH | ps IH] using value_induction;
    intros indent; try reflexivity.
  - rewrite sent_arr. cbn [serialize]. do 2 f_equal.
    induction IH as [| x r Hx _ IHr]; [reflexivity |].
    cbn [sent_elems map]. fold (sent_elems r). rewrite IHr. f_equal.
    destruct x; try reflexivity; apply (f_equal (default "null")), Hx.
  - rewrite sent_obj. cbn [serialize]. do 2 f_equal.
    induction IH as [| [k x] r Hx _ IHr]; [reflexivity |].
    cbn [sent_props flat_map snd fst]. fold (sent_props r). cbn [snd] in Hx.
    destruct x; cbn [app]; rewrite ?IHr; try reflexivity;
      now rewrite Hx.
Qed.

Lemma truthy_sent (v : value) : truthy (sent v) = truthy v.
Proof. now destruct v. Qed.

Lemma sent_props_keys (ps : list (string * value)) (k : string) :
  In k (map fst (sent_props ps)) -> In k (map fst ps).
Proof.
  induction ps as [| [k0 x] r IH]; [intros [] |].
  cbn [sent_props flat_map snd fst map In]. fold (sent_props r).
  rewrite map_app, in_app_iff. intros [H | H]; [| right; now apply IH].
  left. destruct x; cbn [map fst In] in H; tauto.
Qed.

(** A property reads as true after the transport exactly when it did
    before. *)
Lemma truthy_assoc_sent (ps : list (string * value)) (k : string) :
  List.NoDup (map fst ps) ->
  truthy (assoc k (sent_props ps)) = truthy (assoc k ps).
Proof.
  induction ps as [| [k0 x] r IH]; [reflexivity |].
  cbn [map fst]. intros Hnd0.
  destruct (proj1 (List.NoDup_cons_iff _ _) Hnd0) as [Hnot Hnd].
  cbn [sent_props flat_map snd fst assoc]. fold (sent_props r).
  destruct (String.eqb_spec k k0) as [-> | Hne].
  - destruct x; cbn [app assoc]; rewrite ?String.eqb_refl; try reflexivity;
      try apply truthy_sent.
    rewrite assoc_absent; [reflexivity |].
    intros H. now apply Hnot, sent_props_keys.
  - apply String.eqb_neq in Hne.
    destruct x; cbn [app assoc]; rewrite ?Hne; now apply IH.
Qed.

Lemma shows_initial : shows Form.formData (Entries "" "us-east-1" false false false).
Proof.
  exists []. split; [reflexivity |]. split; [constructor |].
  intros k. cbn [assoc truthy e_database e_cache e_messageQueue].
  now rewrite !andb_false_r.
Qed.

Lemma step_shows (data : list (string * value)) (e : entries) (a : Form.action) :
  shows data e -> exists data', Form.step data a = Some data' /\ shows data' (enter e a).
Proof.
  intros (services & -> & Hnd & Hk).
  destruct a as [text | region | box]; cbn [Form.step].
  - eexists. split; [reflexivity |]. exists services. repeat split; assumption.
  - eexists. split; [reflexivity |]. exists services. repeat split; assumption.
  - unfold Form.handleServiceToggle.
    cbn [assoc String.eqb Ascii.eqb Bool.eqb get_strict get mbind option_bind spread
         set_prop].
    eexists. split; [reflexivity |].
    eexists. split; [now destruct box |]. split; [now apply set_prop_keys |].
    intros k. rewrite assoc_set_prop.
    destruct (String.eqb_spec k (Form.service_of box)) as [-> | Hne].
    + destruct (truthy (assoc (Form.service_of box) services)) eqn:Ht;
        rewrite Hk in Ht; destruct box;
        cbn [Form.service_of String.eqb Ascii.eqb Bool.eqb andb orb enter
             e_database e_cache e_messageQueue truthy] in *;
        destruct (e_database e), (e_cache e), (e_messageQueue e);
        try discriminate; reflexivity.
    + rewrite Hk. apply String.eqb_neq in Hne.
      destruct box;
        cbn [Form.service_of enter e_database e_cache e_messageQueue] in *;
        rewrite Hne; reflexivity.
Qed.

Lemma fill_shows (acts : list Form.action) (data : list (string * value))
    (e : entries) :
  shows data e ->
  exists data', Form.fill acts data = Some data' /\ shows data' (fold_left enter acts e).
Proof.
  revert data e. induction acts as [| a rest IH]; intros data e H.
  - exists data. now split.
  - destruct (step_shows data e a H) as (data1 & Hs & H1).
    destruct (IH data1 (enter e a) H1) as (data' & Hf & H').
    exists data'. split; [| exact H']. cbn [Form.fill]. rewrite Hs. exact Hf.
Qed.

Lemma submitted_shows (data : list (string * value)) (e : entries) :
  shows data e ->
  exists services,
    Form.submitted data = to_config (Descriptor (e_name e) "api" "aws" (e_region e) services)
    /\ truthy services = true
    /\ requested services = ticked e.
Proof.
  intros (services & -> & Hnd & Hk).
  exists (VObj (sent_props services)). split; [| split; [reflexivity |]].
  - unfold Form.submitted. rewrite sent_obj.
    cbn [sent_props flat_map snd fst app]. rewrite (sent_obj services).
    reflexivity.
  - unfold requested, ticked. cbn [get].
    rewrite !truthy_assoc_sent, !Hk by exact Hnd.
    cbn [String.eqb Ascii.eqb Bool.eqb andb orb].
    rewrite ?orb_false_r, app_nil_r. reflexivity.
Qed.

(** X15. From the form to the score file.  Whatever a user types, picks
    and ticks, in whatever order, the handlers of the form do not throw, and
    the descriptor the form posts is rendered by the server (when a name was
    typed) as the score file of that name and region with the type [api] and
    the execution environment [aws], with a database fragment exactly when
    the database box is ticked and a cache fragment exactly when the cache
    box is: the message-queue box changes nothing in the file, and there is
    never a queue fragment.  The descriptor passes the checks of the generate
    route exactly when the name and the region are not empty. *)
Theorem form_to_score_file (acts : list Form.action) :
  exists data,
    Form.fill acts Form.formData = Some data
    /\ rejected (Form.submitted data)
       = negb (nonempty (e_name (entered acts)))
         || negb (nonempty (e_region (entered acts)))
    /\ generateScoreYaml (Form.submitted data)
       = if nonempty (e_name (entered acts)) then
           Ok (join_lines
                 (score_lines (e_name (entered acts)) "api" "aws"
                    (e_region (entered acts)) (ticked (entered acts))))
         else Throw (Error "Failed to generate score configuration").
Proof.
  destruct (fill_shows acts _ _ shows_initial) as (data & Hf & Hs).
  exists data. split; [exact Hf |]. fold (entered acts) in Hs.
  destruct (submitted_shows _ _ Hs) as (services & -> & Ht & Hr).
  split.
  - unfold rejected, to_config, nonempty.
    cbn [get assoc String.eqb Ascii.eqb Bool.eqb andb truthy typeof_object negb orb
         app_name env_type env_exec env_region app_services].
    now rewrite orb_false_r.
  - unfold generateScoreYaml, to_config, nonempty.
    cbn [get assoc String.eqb Ascii.eqb Bool.eqb andb truthy
         app_name env_type env_exec env_region app_services].
    rewrite score_text_of_descriptor, Ht, Hr.
    now destruct (String.eqb (e_name (entered acts)) "").
Qed.

(** ** The page and the feed *)

Lemma messages_app (a b : list value) (s : Page.state) :
  Page.messages (a ++ b) s = Page.messages b (Page.messages a s).
Proof.
  revert s. induction a as [| data a IH]; intros s; [reflexivity |].
  cbn [app Page.messages]. destruct (Page.listening s) eqn:Hl; [apply IH |].
  destruct b; cbn [Page.messages]; now rewrite ?Hl.
Qed.

(** Log events add the chunks that are not empty to the logs and touch
    nothing else. *)
Lemma messages_logs (texts : list string) (s : Page.state) :
  Page.listening s = true ->
  Page.messages (map log_event texts) s
  = Page.State (Page.serverStatus s) (Page.error s) (Page.scoreFile s)
      (Page.config s) (Page.terraformStatus s)
      (Page.terraformLogs s ++ map VStr (List.filter nonempty texts))
      (Page.terraformError s) true.
Proof.
  revert s. induction texts as [| text texts IH]; intros s Hl.
  - cbn [map List.filter Page.messages]. rewrite app_nil_r, <- Hl. now destruct s.
  - cbn [map Page.messages List.filter]. rewrite Hl.
    unfold Page.onmessage, log_event, nonempty.
    cbn [nullish get assoc String.eqb Ascii.eqb Bool.eqb andb truthy].
    destruct (String.eqb text "") eqn:Ht; cbn [negb].
    + cbn [get assoc String.eqb Ascii.eqb Bool.eqb andb]. now apply IH.
    + rewrite IH by exact Hl. cbn [Page.serverStatus Page.error Page.scoreFile
        Page.config Page.terraformStatus Page.terraformLogs Page.terraformError map].
      now rewrite <- app_assoc.
Qed.

Lemma exit_error_text (err : string) (code : option Z) :
  message (exit_error err code) <> "".
Proof.
  unfold exit_error. cbn [message].
  destruct (String.eqb_spec err "") as [-> | Hne]; [| exact Hne].
  discriminate.
Qed.

(** The page once the feed of a run that ended has been delivered. *)
Lemma deliver_terminated (op : Page.operation) (s : Page.state)
    (pre : list proc_event) (t : proc_event) :
  truthy (Page.config s) = true -> is_output t = false ->
  Page.deliver (Page.Events (map log_event (chunks pre) ++ [closing_of pre t]) true)
    (Page.handleTerraform op s)
  = Page.State (Page.serverStatus s) (Page.error s) (Page.scoreFile s)
      (Page.config s)
      (if succeeded t then "completed" else "error")
      (map VStr (List.filter nonempty (chunks pre)))
      (if succeeded t then VNull
       else VStr (or_default (failure_text pre t) "Connection to server lost"))
      false.
Proof.
  intros Hc Ht. unfold Page.deliver, Page.handleTerraform. rewrite Hc. cbn [negb].
  rewrite messages_app, messages_logs by reflexivity.
  cbn [Page.serverStatus Page.error Page.scoreFile Page.config Page.terraformStatus
       Page.terraformLogs Page.terraformError app].
  destruct t as [d | d | code | err]; try discriminate.
  - assert (Hfail : forall code',
              code' <> Some 0 ->
              closing_of pre (Close code')
              = error_event (message (exit_error (stderr_text pre) code'))).
    { intros [[| p | p] |] H; try reflexivity. now contradict H. }
    destruct code as [[| p | p] |]; [reflexivity | | |];
      rewrite Hfail by discriminate;
      cbn [Page.messages Page.listening succeeded failure_text];
      unfold Page.onmessage, error_event;
      cbn [nullish get assoc String.eqb Ascii.eqb Bool.eqb andb truthy];
      pose proof (exit_error_text (stderr_text pre)) as Hne;
      match goal with
      | |- context [exit_error _ ?c] => specialize (Hne c)
      end;
      apply String.eqb_neq in Hne; unfold or_default; rewrite Hne;
      reflexivity.
  - cbn [closing_of Page.messages Page.listening succeeded failure_text].
    unfold Page.onmessage, error_event, or_default.
    cbn [nullish get assoc String.eqb Ascii.eqb Bool.eqb andb truthy].
    destruct (String.eqb (message err) ""); reflexivity.
Qed.

(** The page while the feed of a run goes on. *)
Lemma deliver_running (op : Page.operation) (s : Page.state) (texts : list string) :
  truthy (Page.config s) = true ->
  Page.deliver (Page.Events (map log_event texts) false) (Page.handleTerraform op s)
  = Page.State (Page.serverStatus s) (Page.error s) (Page.scoreFile s)
      (Page.config s) (Page.status_of op)
      (map VStr (List.filter nonempty texts)) VNull true.
Proof.
  intros Hc. unfold Page.deliver, Page.handleTerraform. rewrite Hc. cbn [negb andb].
  now rewrite messages_logs by reflexivity.
Qed.

Lemma feed_answer (dirname : path) (r : request) (w : world) (c : child)
    (wire : list string) (ended : bool) :
  child_of r = Some c ->
  returned (serve dirname r w) = Ok (EventStream wire ended) ->
  feed_of c = EventStream wire ended.
Proof.
  intros Hc Hret. destruct (serve_spec dirname r w) as (_ & _ & Ha).
  destruct (Ha _ Hret) as [(code & body & [=]) | (c' & Hc' & ->)].
  congruence.
Qed.

(** X16. What the page shows after an operation.  When the server
    answers the request of an operation with a feed and the tool closes or
    fails to start, the feed carries one log event for each chunk of output
    and then the closing event, and the page that handles these events ends
    with the status [completed] exactly when the tool closed with code 0 and
    with [error] otherwise, with the chunks that are not empty as its logs in
    the order they came, with the text of standard error (or [Process exited
    with code N], or the message of the spawn error) as its error, and with
    the event source closed. *)
Theorem page_after_a_run (dirname : path) (r : request) (w : world) (c : child)
    (op : Page.operation) (s : Page.state) (pre post : list proc_event)
    (t : proc_event) (wire : list string) (ended : bool) :
  child_of r = Some c ->
  returned (serve dirname r w) = Ok (EventStream wire ended) ->
  truthy (Page.config s) = true ->
  events c = pre ++ t :: post -> outputs_only pre -> is_output t = false ->
  wire = map sse (map log_event (chunks pre) ++ [closing_of pre t])
  /\ ended = true
  /\ Page.deliver
       (Page.Events (map log_event (chunks pre) ++ [closing_of pre t]) ended)
       (Page.handleTerraform op s)
     = Page.State (Page.serverStatus s) (Page.error s) (Page.scoreFile s)
         (Page.config s)
         (if succeeded t then "completed" else "error")
         (map VStr (List.filter nonempty (chunks pre)))
         (if succeeded t then VNull
          else VStr (or_default (failure_text pre t) "Connection to server lost"))
         false.
Proof.
  intros Hc Hret Hcfg Hev Hpre Ht.
  pose proof (feed_answer _ _ _ _ _ _ Hc Hret) as Hfeed.
  rewrite (feed_of_terminated c pre post t Hev Hpre Ht) in Hfeed.
  injection Hfeed as <- <-. split; [reflexivity |]. split; [reflexivity |].
  now apply deliver_terminated.
Qed.

Lemma page_after_a_run_witness :
  [sse (log_event "Planning");
   sse (log_event "Error: No valid credential sources found");
   sse (error_event "Error: No valid credential sources found")]
  = map sse
      (map log_event
         (chunks [Stdout "Planning"; Stderr "Error: No valid credential sources found"])
       ++ [closing_of [Stdout "Planning"; Stderr "Error: No valid credential sources found"]
             (Close (Some 1))])
  /\ true = true
  /\ Page.deliver
       (Page.Events
          (map log_event
             (chunks [Stdout "Planning"; Stderr "Error: No valid credential sources found"])
           ++ [closing_of
                 [Stdout "Planning"; Stderr "Error: No valid credential sources found"]
                 (Close (Some 1))])
          true)
       (Page.handleTerraform Page.OpPlan page_with_score)
     = Page.State (Page.serverStatus page_with_score) (Page.error page_with_score)
         (Page.scoreFile page_with_score) (Page.config page_with_score)
         (if succeeded (Close (Some 1)) then "completed" else "error")
         (map VStr
            (List.filter nonempty
               (chunks [Stdout "Planning";
                        Stderr "Error: No valid credential sources found"])))
         (if succeeded (Close (Some 1)) then VNull
          else VStr (or_default
                       (failure_text
                          [Stdout "Planning";
                           Stderr "Error: No valid credential sources found"]
                          (Close (Some 1)))
                       "Connection to server lost"))
         false.
Proof.
  apply (page_after_a_run srv (Plan (Some "s1") tool_failing) two_sessions tool_failing
           Page.OpPlan page_with_score
           [Stdout "Planning"; Stderr "Error: No valid credential sources found"] []
           (Close (Some 1)));
    [reflexivity | vm_compute; reflexivity | reflexivity | reflexivity
    | repeat constructor | reflexivity].
Defined.

(** X17. The buttons follow the run.  From the click on an operation
    until the feed closes, all five buttons of the page are disabled,
    [Cancel] among them: while the tool writes and does not close, the page
    offers nothing to do.  Once the run has ended, [Initialize], [Destroy]
    and [Cancel] are enabled again, and [Generate Plan] and [Apply Changes]
    are enabled exactly when the tool closed with code 0, whichever
    operation it was: after a successful init, and after a successful
    destroy, the page offers to apply. *)
Theorem buttons_follow_the_run (c : child) (op : Page.operation) (s : Page.state) :
  truthy (Page.config s) = true ->
  (outputs_only (events c) ->
   feed_of c = EventStream (map sse (map log_event (chunks (events c)))) false
   /\ buttons_disabled
        (Page.deliver (Page.Events (map log_event (chunks (events c))) false)
           (Page.handleTerraform op s))
      = [true; true; true; true; true])
  /\ (forall pre t post,
        events c = pre ++ t :: post -> outputs_only pre -> is_output t = false ->
        feed_of c
        = EventStream (map sse (map log_event (chunks pre) ++ [closing_of pre t])) true
        /\ buttons_disabled
             (Page.deliver
                (Page.Events (map log_event (chunks pre) ++ [closing_of pre t]) true)
                (Page.handleTerraform op s))
           = [false; negb (succeeded t); negb (succeeded t); false; false]).
Proof.
  intros Hc. split.
  - intros Hev. split; [now apply feed_of_running |].
    rewrite deliver_running by exact Hc. now destruct op.
  - intros pre t post Hev Hpre Ht.
    split; [now apply (feed_of_terminated c pre post t) |].
    rewrite deliver_terminated by assumption.
    now destruct (succeeded t).
Qed.

Lemma buttons_follow_the_run_witness :
  (outputs_only (events tool_ok) ->
   feed_of tool_ok
   = EventStream (map sse (map log_event (chunks (events tool_ok)))) false
   /\ buttons_disabled
        (Page.deliver (Page.Events (map log_event (chunks (events tool_ok))) false)
           (Page.handleTerraform Page.OpInit page_with_score))
      = [true; true; true; true; true])
  /\ (forall pre t post,
        events tool_ok = pre ++ t :: post -> outputs_only pre -> is_output t = false ->
        feed_of tool_ok
        = EventStream (map sse (map log_event (chunks pre) ++ [closing_of pre t])) true
        /\ buttons_disabled
             (Page.deliver
                (Page.Events (map log_event (chunks pre) ++ [closing_of pre t]) true)
                (Page.handleTerraform Page.OpInit page_with_score))
           = [false; negb (succeeded t); negb (succeeded t); false; false]).
Proof.
  apply (buttons_follow_the_run tool_ok Page.OpInit page_with_score). reflexivity.
Defined.

(** X18. An operation the server refuses reads as a lost connection.  A
    plan, apply or destroy request for a session whose directory is not on
    disk is answered 400 with [Environment directory not found]; that answer
    is not an event stream, so the page gets its [onerror]: it shows
    [Connection to server lost] with the status [error], and the text of the
    server is not on the page. *)
Theorem refused_operation_reads_as_lost_connection (dirname : path) (r : request)
    (sid : string) (c : child) (w : world) (op : Page.operation) (s : Page.state) :
  r = Plan (Some sid) c \/ r = Apply (Some sid) c \/ r = Destroy (Some sid) c ->
  sid <> "" -> exists_in (files w) (session_dir dirname sid) = false ->
  truthy (Page.config s) = true ->
  exists body,
    returned (serve dirname r w) = Ok (Json 400 body)
    /\ get body "error" = VStr "Environment directory not found"
    /\ received (Json 400 body) Page.NoStream
    /\ Page.deliver Page.NoStream (Page.handleTerraform op s)
       = Page.State (Page.serverStatus s) (Page.error s) (Page.scoreFile s)
           (Page.config s) "error" [] (VStr "Connection to server lost") false.
Proof.
  intros Hr Hsid Hd Hc.
  exists (VObj [("error", VStr "Environment directory not found")]).
  split; [| split; [reflexivity | split; [exact I |]]].
  - destruct Hr as [-> | [-> | ->]];
      (erewrite serve_ok; [reflexivity |]); cbn [route];
      unfold api_terraform_plan, api_terraform_apply, api_terraform_destroy;
      (apply lifecycle_route_absent; [exact Hsid | now apply session_exists_absent]).
  - unfold Page.deliver, Page.handleTerraform. rewrite Hc. reflexivity.
Qed.

Lemma refused_operation_reads_as_lost_connection_witness :
  exists body,
    returned (serve srv (Plan (Some "s9") tool_ok) two_sessions) = Ok (Json 400 body)
    /\ get body "error" = VStr "Environment directory not found"
    /\ received (Json 400 body) Page.NoStream
    /\ Page.deliver Page.NoStream (Page.handleTerraform Page.OpPlan page_with_score)
       = Page.State (Page.serverStatus page_with_score) (Page.error page_with_score)
           (Page.scoreFile page_with_score) (Page.config page_with_score) "error" []
           (VStr "Connection to server lost") false.
Proof.
  apply (refused_operation_reads_as_lost_connection srv (Plan (Some "s9") tool_ok)
           "s9" tool_ok two_sessions Page.OpPlan page_with_score);
    [left; reflexivity | discriminate | vm_compute; reflexivity | reflexivity].
Defined.

(** ** The page and the generate route *)

Lemma generateScoreYaml_text (config : value) (text : string) :
  generateScoreYaml config = Ok text -> text <> "".
Proof.
  unfold generateScoreYaml.
  assert (H : forall name environment services,
            stringify2 (scoreConfig_of name environment services) = Some text ->
            text <> "").
  { intros name environment services. unfold stringify2, scoreConfig_of.
    cbn [serialize]. unfold wrap.
    change (String.eqb "  " "") with false. cbn iota.
    intros [= <-]. discriminate. }
  destruct config; try discriminate;
    (destruct (negb _ || negb _ || negb _); [discriminate |]);
    match goal with
    | |- context [stringify2 ?x] => destruct (stringify2 x) eqn:Hs
    end; try discriminate; intros [= <-]; eapply H; exact Hs.
Qed.

(** The answers of the generate route: 200 with the score file, or a
    status that is not a success with a body without [message]. *)
Lemma generate_answers (dirname : path) (config : value) :
  handler_spec (serve dirname (Generate config))
    (fun a =>
       exists code body,
         a = Json code body
         /\ ((code = 200
              /\ exists text,
                   generateScoreYaml config = Ok text
                   /\ body
                      = VObj [("success", VBool true); ("scoreFile", VStr text);
                              ("message", VStr "Score file generated successfully")])
             \/ (Page.ok code = false /\ nullish body = false
                 /\ get body "message" = VUndef)))
    (fun _ => True).
Proof.
  unfold serve, route, api_generate, sendResponse.
  repeat spec_step; try exact I;
    eexists _, _; (split; [reflexivity |]);
    (left; split; [reflexivity |]; eexists; split; reflexivity)
    || (right; repeat split; reflexivity).
Qed.

(** X19. What the page makes of the answer to a descriptor.  The
    generate route answers every form data the page posts with JSON.  On 200 the page
    keeps the score file of the answer, which is not empty, and shows the
    logs pane instead of the form.  On every other status the body carries
    no [message], so the error the page keeps is the empty text: the form
    shows no error, and the page shows the alert that the server is offline
    and disables the form, whatever the server said was wrong. *)
Theorem rejected_descriptor_reads_as_offline (dirname : path)
    (formData : list (string * value)) (w : world) (s : Page.state) :
  exists code body,
    returned (serve dirname (Generate (Form.submitted formData)) w)
    = Ok (Json code body)
    /\ (code = 200 ->
        exists text,
          generateScoreYaml (Form.submitted formData) = Ok text
          /\ Page.handleSubmit (VObj formData) code body s
             = Page.State "idle" VNull (VStr text) (VObj formData)
                 (Page.terraformStatus s) (Page.terraformLogs s)
                 (Page.terraformError s) (Page.listening s)
          /\ Page.shows_form (Page.handleSubmit (VObj formData) code body s) = false)
    /\ (code <> 200 ->
        Page.handleSubmit (VObj formData) code body s = Page.caught "" s
        /\ Page.error_alert (Page.handleSubmit (VObj formData) code body s) = false
        /\ Page.offline_alert (Page.handleSubmit (VObj formData) code body s) = true
        /\ Page.form_disabled (Page.handleSubmit (VObj formData) code body s) = true).
Proof.
  destruct (serve_total dirname (Generate (Form.submitted formData)) w) as [a Ha].
  destruct (generate_answers dirname (Form.submitted formData) w) as (_ & _ & Hr).
  destruct (Hr a Ha) as (code & body & -> & Hcase).
  exists code, body. split; [exact Ha |].
  destruct Hcase as [(-> & text & Htext & ->) | (Hok & Hnull & Hmsg)].
  - split; [| intros H; now contradict H].
    intros _. exists text. split; [exact Htext |].
    pose proof (generateScoreYaml_text _ _ Htext) as Hne.
    apply String.eqb_neq in Hne.
    assert (Hs : Page.handleSubmit (VObj formData) 200
                   (VObj [("success", VBool true); ("scoreFile", VStr text);
                          ("message", VStr "Score file generated successfully")]) s
                 = Page.State "idle" VNull (VStr text) (VObj formData)
                     (Page.terraformStatus s) (Page.terraformLogs s)
                     (Page.terraformError s) (Page.listening s)).
    { unfold Page.handleSubmit, or_else.
      cbn [Page.ok Z.leb Z.ltb Z.compare Pos.compare Pos.compare_cont andb negb nullish
           get assoc String.eqb Ascii.eqb Bool.eqb truthy].
      now rewrite Hne. }
    split; [exact Hs |]. rewrite Hs. unfold Page.shows_form.
    cbn [Page.scoreFile truthy]. now rewrite Hne.
  - split; [intros ->; discriminate |]. intros _.
    assert (Hs : Page.handleSubmit (VObj formData) code body s = Page.caught "" s).
    { unfold Page.handleSubmit. rewrite Hok, Hnull, Hmsg. reflexivity. }
    rewrite Hs. repeat split; try reflexivity.
    unfold Page.error_alert. cbn [Page.caught Page.error truthy String.eqb negb].
    apply andb_false_r.
Qed.

(** ** One operation after another *)

Lemma init_feed_sid (dirname : path) (sid reg : string) (c : child) (w : world)
    (wire : list string) (ended : bool) :
  returned (serve dirname (Init (Some sid) (Some reg) c) w)
  = Ok (EventStream wire ended) ->
  sid <> "".
Proof.
  intros Hret ->. revert Hret. cbn. discriminate.
Qed.

(** X20. Init opens the session for the other operations.  After an init
    request that was answered with a feed, and a tool that leaves the
    directory of the session in place, a plan, apply or destroy request for
    the same identifier is not refused: it starts the tool in the directory
    of the session and answers with the feed of that run. *)
Theorem init_opens_the_session (dirname : path) (sid reg : string) (c c' : child)
    (w : world) (wire : list string) (ended : bool) (r : request) :
  returned (serve dirname (Init (Some sid) (Some reg) c) w)
  = Ok (EventStream wire ended) ->
  (forall fl, is_dir fl (session_dir dirname sid) = true ->
              is_dir (leaves c fl) (session_dir dirname sid) = true) ->
  r = Plan (Some sid) c' \/ r = Apply (Some sid) c' \/ r = Destroy (Some sid) c' ->
  returned (serve dirname r (after (serve dirname (Init (Some sid) (Some reg) c) w)))
  = Ok (feed_of c')
  /\ spawned (serve dirname r (after (serve dirname (Init (Some sid) (Some reg) c) w)))
     = true
  /\ cwd (after (serve dirname r
                   (after (serve dirname (Init (Some sid) (Some reg) c) w))))
     = session_dir dirname sid.
Proof.
  intros Hret Hkeep Hr.
  pose proof (init_feed_sid _ _ _ _ _ _ _ Hret) as Hsid.
  destruct (init_route_feed dirname sid reg c w wire ended Hret)
    as (fl & _ & Hd & Hs).
  rewrite Hs. cbn [after].
  assert (Hroute : exists args,
            route dirname r = lifecycle_route dirname args (Some sid) c').
  { destruct Hr as [-> | [-> | ->]]; eexists; reflexivity. }
  destruct Hroute as [args Hroute].
  erewrite serve_ok;
    [| rewrite Hroute; apply lifecycle_route_dir; [exact Hsid |];
       cbn [files]; now apply Hkeep].
  repeat split.
Qed.

Lemma init_opens_the_session_witness :
  returned (serve srv (Plan (Some "s1") tool_failing)
              (after (serve srv (Init (Some "s1") (Some "eu-west-1") tool_ok)
                        (started ∅ []))))
  = Ok (feed_of tool_failing)
  /\ spawned (serve srv (Plan (Some "s1") tool_failing)
                (after (serve srv (Init (Some "s1") (Some "eu-west-1") tool_ok)
                          (started ∅ []))))
     = true
  /\ cwd (after (serve srv (Plan (Some "s1") tool_failing)
                   (after (serve srv (Init (Some "s1") (Some "eu-west-1") tool_ok)
                             (started ∅ [])))))
     = session_dir srv "s1".
Proof.
  apply (init_opens_the_session srv "s1" "eu-west-1" tool_ok tool_failing
           (started ∅ [])
           [sse (log_event "Terraform has been successfully initialized!");
            sse completed_event]
           true (Plan (Some "s1") tool_failing));
    [vm_compute; reflexivity | intros fl H; exact H | left; reflexivity].
Defined.
